(** * SWIFT FIN (MT) message codec: decoder, validator and generator

    A shallow embedding of [nodes/Swift/utils/mtParser.ts],
    [nodes/Swift/utils/mtGenerator.ts], [nodes/Swift/utils/bicValidator.ts]
    and of the tables of [data/mtTemplates.ts] and [data/bicDirectory.ts].

    Conventions of the embedding.
    - A JavaScript string is a [string]: a sequence of 8-bit characters
      standing for UTF-16 code units below 256. The character classes of the
      patterns are written over the code of a character as the language
      defines them, the line terminators U+2028 and U+2029 included, so that
      a condition on a text reads as it does in the program.
    - A plain object used as a dictionary is a [JsObject]: the list of its
      own properties in the order [Object.keys] enumerates them.
    - A [throw] is the [Throw] result of the [Exc] monad.
    - [parseFloat(x).toFixed(2)] is IEEE-754 arithmetic; it is kept as a
      parameter of the generator ([toFixed2]). *)

From Stdlib Require Import Ascii String NArith Bool Lia List DecimalString.
From Stdlib Require HexadecimalString.
From stdpp Require Import base option list strings gmap.

Open Scope string_scope.
Open Scope list_scope.

(** ** Characters *)

Module Char.

Definition code (c : ascii) : N := N_of_ascii c.

Definition LF : ascii := ascii_of_N 10.
Definition CR : ascii := ascii_of_N 13.

(** [\d] *)
Definition isDigit (c : ascii) : bool := (48 <=? code c)%N && (code c <=? 57)%N.
(** [[A-Z]] *)
Definition isUpper (c : ascii) : bool := (65 <=? code c)%N && (code c <=? 90)%N.
(** [[a-z]] *)
Definition isLower (c : ascii) : bool := (97 <=? code c)%N && (code c <=? 122)%N.
(** [[A-Z0-9]] *)
Definition isUpperOrDigit (c : ascii) : bool := isUpper c || isDigit c.

(** [\s], and the characters [String.prototype.trim] strips: TAB, LF, VT, FF,
    CR, SPACE and NBSP are the ones below 256. *)
Definition isWhiteSpace (c : ascii) : bool :=
  ((9 <=? code c)%N && (code c <=? 13)%N) || (code c =? 32)%N || (code c =? 160)%N.

(** [[\r\n]] *)
Definition isNewline (c : ascii) : bool := (code c =? 10)%N || (code c =? 13)%N.

(** The line terminators, which are the characters [.] refuses: LF, CR, the
    line separator U+2028 and the paragraph separator U+2029. *)
Definition isLineTerminator (c : ascii) : bool :=
  (code c =? 10)%N || (code c =? 13)%N || (code c =? 8232)%N || (code c =? 8233)%N.

(** [[{}]] *)
Definition isBrace (c : ascii) : bool := Ascii.eqb c "{" || Ascii.eqb c "}".

(** Upper-casing of one code unit. [a-z] and the accented Latin-1 letters
    move down by 32 and sharp s becomes [SS]. The upper-case forms of micro
    sign and of y-diaeresis lie above 255: they are left in place, which, like
    their images, is outside [[A-Z0-9]] and is not white space. *)
Definition toUpper (c : ascii) : string :=
  let n := code c in
  if isLower c then String (ascii_of_N (n - 32)) ""
  else if (n =? 223)%N then "SS"
  else if (224 <=? n)%N && (n <=? 254)%N && negb (n =? 247)%N
       then String (ascii_of_N (n - 32)) ""
  else String c "".

End Char.

(** ** String primitives of the JavaScript runtime *)

Module Js.

Fixpoint all (p : ascii -> bool) (s : string) : bool :=
  match s with
  | "" => true
  | String c s' => p c && all p s'
  end.

Fixpoint filter (p : ascii -> bool) (s : string) : string :=
  match s with
  | "" => ""
  | String c s' => if p c then String c (filter p s') else filter p s'
  end.

Fixpoint dropWhile (p : ascii -> bool) (s : string) : string :=
  match s with
  | "" => ""
  | String c s' => if p c then dropWhile p s' else s
  end.

Fixpoint dropWhileEnd (p : ascii -> bool) (s : string) : string :=
  match s with
  | "" => ""
  | String c s' =>
      match dropWhileEnd p s' with
      | "" => if p c then "" else String c ""
      | t => String c t
      end
  end.

Fixpoint drop (n : nat) (s : string) : string :=
  match n, s with
  | O, _ => s
  | S n', "" => ""
  | S n', String _ s' => drop n' s'
  end.

(** [s.trim()] *)
Definition trim (s : string) : string :=
  dropWhileEnd Char.isWhiteSpace (dropWhile Char.isWhiteSpace s).

(** [s.slice(a, b)] for literal bounds [0 <= a <= b] *)
Definition slice (a b : nat) (s : string) : string := substring a (b - a) s.

(** [s.charAt(i)] *)
Definition charAt (i : nat) (s : string) : string := substring i 1 s.

(** [s.replace(pat, rep)] with a string pattern: the first occurrence only *)
Fixpoint replaceFirst (pat rep s : string) : string :=
  if String.prefix pat s then rep +:+ drop (String.length pat) s
  else match s with
       | "" => ""
       | String c s' => String c (replaceFirst pat rep s')
       end.

(** [s.replace(/\s/g, '')] *)
Definition removeWhiteSpace (s : string) : string :=
  filter (fun c => negb (Char.isWhiteSpace c)) s.

(** [s.toUpperCase()] *)
Fixpoint toUpperCase (s : string) : string :=
  match s with
  | "" => ""
  | String c s' => Char.toUpper c +:+ toUpperCase s'
  end.

(** [lines.join(sep)] *)
Fixpoint join (sep : string) (l : list string) : string :=
  match l with
  | [] => ""
  | [x] => x
  | x :: l' => x +:+ sep +:+ join sep l'
  end.

(** Puts a character in front of the first piece of a split. *)
Definition consHead (c : ascii) (l : list string) : list string :=
  match l with
  | [] => [String c ""]
  | x :: l' => String c x :: l'
  end.

(** [s.split(/\r?\n/)] *)
Fixpoint splitLines (s : string) : list string :=
  match s with
  | "" => [""]
  | String c s' =>
      if Ascii.eqb c Char.LF then "" :: splitLines s'
      else if Ascii.eqb c Char.CR then
        match s' with
        | String c' s'' =>
            if Ascii.eqb c' Char.LF then "" :: splitLines s''
            else consHead c (splitLines s')
        | "" => consHead c (splitLines s')
        end
      else consHead c (splitLines s')
  end.

(** [s.split(sep)] for a one-character separator *)
Fixpoint splitChar (sep : ascii) (s : string) : list string :=
  match s with
  | "" => [""]
  | String c s' =>
      if Ascii.eqb c sep then "" :: splitChar sep s'
      else consHead c (splitChar sep s')
  end.

(** Decimal rendering of a number inside a template literal *)
Definition showNat (n : nat) : string := NilEmpty.string_of_uint (Nat.to_uint n).

(** A string is truthy when it is not empty. *)
Definition nonEmpty (s : string) : bool :=
  match s with "" => false | _ => true end.

(** All matches of a global regular expression, as [exec] in a loop finds
    them. [matchAt s] is the match anchored at the start of [s], with what is
    left of [s] behind it; a match is never empty here. After a match the
    search resumes behind it, which [skip] counts down. *)
Fixpoint execAllFrom {A} (matchAt : string -> option (A * string))
    (skip : nat) (s : string) : list A :=
  match s with
  | "" => []
  | String _ s' =>
      match skip with
      | S k => execAllFrom matchAt k s'
      | O =>
          match matchAt s with
          | Some (a, rest) =>
              a :: execAllFrom matchAt (String.length s - String.length rest - 1) s'
          | None => execAllFrom matchAt 0 s'
          end
      end
  end.

Definition execAll {A} (matchAt : string -> option (A * string)) (s : string) : list A :=
  execAllFrom matchAt 0 s.

End Js.

(** ** Objects used as dictionaries *)

Module Obj.

(** The own properties, in [Object.keys] order: array indices in ascending
    numeric order first, then the other keys in creation order. *)
Definition JsObject (V : Type) : Type := list (string * V).

Definition digitValue (c : ascii) : N := (Char.code c - 48)%N.

Fixpoint decimalValue (acc : N) (s : string) : N :=
  match s with
  | "" => acc
  | String c s' => decimalValue (acc * 10 + digitValue c)%N s'
  end.

(** A key is an array index when it is the canonical decimal form of an
    integer below 2^32 - 1. *)
Definition arrayIndex (k : string) : option N :=
  match k with
  | "" => None
  | String c rest =>
      if Js.all Char.isDigit k && (negb (Ascii.eqb c "0") || negb (Js.nonEmpty rest))
      then let n := decimalValue 0 k in
           if (n <? 4294967295)%N then Some n else None
      else None
  end.

Section Ops.
Context {V : Type}.

(** [o[k]] for an own property *)
Fixpoint get (k : string) (o : JsObject V) : option V :=
  match o with
  | [] => None
  | (k', v) :: o' => if String.eqb k k' then Some v else get k o'
  end.

Definition has (k : string) (o : JsObject V) : bool :=
  match get k o with Some _ => true | None => false end.

(** Assignment to a property that exists keeps its place. *)
Fixpoint update (k : string) (v : V) (o : JsObject V) : JsObject V :=
  match o with
  | [] => []
  | (k', v') :: o' =>
      if String.eqb k k' then (k', v) :: o' else (k', v') :: update k v o'
  end.

(** A new array index goes before the first larger index or other key. *)
Fixpoint insertIndex (n : N) (k : string) (v : V) (o : JsObject V) : JsObject V :=
  match o with
  | [] => [(k, v)]
  | (k', v') :: o' =>
      match arrayIndex k' with
      | Some n' => if (n <? n')%N then (k, v) :: o
                   else (k', v') :: insertIndex n k v o'
      | None => (k, v) :: o
      end
  end.

(** [o[k] = v] *)
Definition set (k : string) (v : V) (o : JsObject V) : JsObject V :=
  if has k o then update k v o
  else match arrayIndex k with
       | Some n => insertIndex n k v o
       | None => o ++ [(k, v)]
       end.

(** [delete o[k]] *)
Definition remove (k : string) (o : JsObject V) : JsObject V :=
  List.filter (fun kv => negb (String.eqb k (fst kv))) o.

(** [Object.entries(o)] *)
Definition entries (o : JsObject V) : list (string * V) := o.

(** [Object.keys(o)] *)
Definition keys (o : JsObject V) : list string := map fst o.

End Ops.

End Obj.

(** ** Exceptions *)

Inductive JsError : Type :=
  | Error (message : string)
  | TypeError (message : string).

Inductive Exc (A : Type) : Type :=
  | Ok (a : A)
  | Throw (e : JsError).
Arguments Ok {A} a.
Arguments Throw {A} e.

#[global] Instance Exc_ret : MRet Exc := fun A a => Ok a.

#[global] Instance Exc_bind : MBind Exc := fun A B f m =>
  match m with
  | Ok a => f a
  | Throw e => Throw e
  end.

Definition LFs : string := String Char.LF "".
Definition CRLF : string := String Char.CR (String Char.LF "").

(** ** Data model ([utils/types.ts]) *)

(** A text-block value, [string | string[]]. *)
Inductive FieldValue : Type :=
  | Scalar (s : string)
  | Lines (ls : list string).

Record BasicHeader : Type := mkBasicHeader {
  applicationId : string;
  serviceId : string;
  ltAddress : string;
  sessionNumber : string;
  sequenceNumber : string }.

Record ApplicationHeader : Type := mkApplicationHeader {
  inputOutput : string;
  ah_messageType : string;
  receiverAddress : option string;
  priority : option string;
  deliveryMonitor : option string;
  obsolescencePeriod : option string;
  inputTime : option string;
  inputDate : option string;
  mir : option string;
  outputDate : option string;
  outputTime : option string }.

Record ParsedMtMessage : Type := mkParsedMtMessage {
  messageType : string;
  basicHeader : BasicHeader;
  applicationHeader : ApplicationHeader;
  userHeader : option (Obj.JsObject string);
  textBlock : Obj.JsObject FieldValue;
  trailers : option (Obj.JsObject string);
  rawMessage : string }.

(** [ValidationError] and [ValidationWarning] have the same shape. *)
Record ValidationError : Type := mkIssue {
  field : string;
  code : string;
  message : string;
  value : option string }.

Definition ValidationWarning : Type := ValidationError.

Record MtValidationResult : Type := mkResult {
  valid : bool;
  res_messageType : string;
  errors : list ValidationError;
  warnings : list ValidationWarning;
  parsedFields : option (Obj.JsObject FieldValue) }.

Record MtMessageInput : Type := mkInput {
  in_messageType : string;
  senderBic : string;
  receiverBic : string;
  fields : gmap string string }.

(** ** Field specification registry ([data/mtTemplates.ts]) *)

Record MtFieldSpec : Type := mkFieldSpec {
  tag : string;
  name : string;
  mandatory : bool;
  format : string;
  description : string;
  maxLength : option nat }.

Record MtMessageSpec : Type := mkMessageSpec {
  spec_type : string;
  spec_name : string;
  spec_description : string;
  spec_category : string;
  spec_fields : list MtFieldSpec }.

Definition MT103_SPEC : MtMessageSpec :=
  {| spec_type := "MT103";
     spec_name := "Single Customer Credit Transfer";
     spec_description := "Customer payment message used for cross-border or domestic payments";
     spec_category := "Customer Payments";
     spec_fields := [
       mkFieldSpec "20" "Sender's Reference" true "16x"
         "Unique reference assigned by sender" (Some 16);
       mkFieldSpec "13C" "Time Indication" false "/8c/4!n1!x4!n"
         "Time indication for credit/debit" None;
       mkFieldSpec "23B" "Bank Operation Code" true "4!c"
         "Type of operation: CRED, CRTS, SPAY, SPRI, SSTD" None;
       mkFieldSpec "23E" "Instruction Code" false "4!c[/30x]"
         "Payment instruction codes" None;
       mkFieldSpec "26T" "Transaction Type Code" false "3!c"
         "Transaction type code" None;
       mkFieldSpec "32A" "Value Date/Currency/Amount" true "6!n3!a15d"
         "Value date, currency code, and settlement amount" None;
       mkFieldSpec "33B" "Currency/Instructed Amount" false "3!a15d"
         "Original instructed amount if different from 32A" None;
       mkFieldSpec "36" "Exchange Rate" false "12d"
         "Exchange rate applied" None;
       mkFieldSpec "50A" "Ordering Customer (BIC)" false "[/34x]4!a2!a2!c[3!c]"
         "Ordering customer identified by BIC" None;
       mkFieldSpec "50F" "Ordering Customer (Party)" false "35x*4"
         "Ordering customer with name and address" None;
       mkFieldSpec "50K" "Ordering Customer (Name/Address)" false "[/34x]4*35x"
         "Ordering customer name and address" None;
       mkFieldSpec "51A" "Sending Institution" false "[/1!a][/34x]4!a2!a2!c[3!c]"
         "Sending institution (if different from sender)" None;
       mkFieldSpec "52A" "Ordering Institution (BIC)" false "[/1!a][/34x]4!a2!a2!c[3!c]"
         "Ordering institution identified by BIC" None;
       mkFieldSpec "52D" "Ordering Institution (Name/Address)" false "[/1!a][/34x]4*35x"
         "Ordering institution name and address" None;
       mkFieldSpec "53A" "Sender's Correspondent (BIC)" false "[/1!a][/34x]4!a2!a2!c[3!c]"
         "Sender correspondent bank BIC" None;
       mkFieldSpec "53B" "Sender's Correspondent (Location)" false "[/1!a][/34x][35x]"
         "Sender correspondent location" None;
       mkFieldSpec "53D" "Sender's Correspondent (Name/Address)" false "[/1!a][/34x]4*35x"
         "Sender correspondent name and address" None;
       mkFieldSpec "54A" "Receiver's Correspondent (BIC)" false "[/1!a][/34x]4!a2!a2!c[3!c]"
         "Receiver correspondent bank BIC" None;
       mkFieldSpec "54B" "Receiver's Correspondent (Location)" false "[/1!a][/34x][35x]"
         "Receiver correspondent location" None;
       mkFieldSpec "54D" "Receiver's Correspondent (Name/Address)" false "[/1!a][/34x]4*35x"
         "Receiver correspondent name and address" None;
       mkFieldSpec "55A" "Third Reimbursement Institution (BIC)" false "[/1!a][/34x]4!a2!a2!c[3!c]"
         "Third reimbursement institution BIC" None;
       mkFieldSpec "55B" "Third Reimbursement Institution (Location)" false "[/1!a][/34x][35x]"
         "Third reimbursement institution location" None;
       mkFieldSpec "55D" "Third Reimbursement Institution (Name/Address)" false "[/1!a][/34x]4*35x"
         "Third reimbursement institution name and address" None;
       mkFieldSpec "56A" "Intermediary Institution (BIC)" false "[/1!a][/34x]4!a2!a2!c[3!c]"
         "Intermediary institution BIC" None;
       mkFieldSpec "56C" "Intermediary Institution (Account)" false "/34x"
         "Intermediary institution account" None;
       mkFieldSpec "56D" "Intermediary Institution (Name/Address)" false "[/1!a][/34x]4*35x"
         "Intermediary institution name and address" None;
       mkFieldSpec "57A" "Account With Institution (BIC)" false "[/1!a][/34x]4!a2!a2!c[3!c]"
         "Account with institution BIC" None;
       mkFieldSpec "57B" "Account With Institution (Location)" false "[/1!a][/34x][35x]"
         "Account with institution location" None;
       mkFieldSpec "57C" "Account With Institution (Account)" false "/34x"
         "Account with institution account" None;
       mkFieldSpec "57D" "Account With Institution (Name/Address)" false "[/1!a][/34x]4*35x"
         "Account with institution name and address" None;
       mkFieldSpec "59" "Beneficiary Customer (Account)" true "[/34x]4*35x"
         "Beneficiary customer with optional account" None;
       mkFieldSpec "59A" "Beneficiary Customer (BIC)" false "[/34x]4!a2!a2!c[3!c]"
         "Beneficiary customer identified by BIC" None;
       mkFieldSpec "59F" "Beneficiary Customer (Party)" false "35x*4"
         "Beneficiary customer structured format" None;
       mkFieldSpec "70" "Remittance Information" false "4*35x"
         "Remittance information for beneficiary" (Some 140);
       mkFieldSpec "71A" "Details of Charges" true "3!a"
         "Charges: BEN, OUR, SHA" None;
       mkFieldSpec "71F" "Sender's Charges" false "3!a15d"
         "Charges deducted by sender's bank" None;
       mkFieldSpec "71G" "Receiver's Charges" false "3!a15d"
         "Charges to be collected by receiver" None;
       mkFieldSpec "72" "Sender to Receiver Information" false "6*35x"
         "Additional information for receiver" (Some 210);
       mkFieldSpec "77B" "Regulatory Reporting" false "3*35x"
         "Regulatory reporting codes" (Some 105);
       mkFieldSpec "77T" "Envelope Contents" false "9000z"
         "Envelope contents for SWIFT gpi" None
     ] |}.

Definition MT202_SPEC : MtMessageSpec :=
  {| spec_type := "MT202";
     spec_name := "General Financial Institution Transfer";
     spec_description := "Bank-to-bank payment message for interbank transfers";
     spec_category := "Financial Institution Transfers";
     spec_fields := [
       mkFieldSpec "20" "Transaction Reference Number" true "16x"
         "Unique reference assigned by sender" (Some 16);
       mkFieldSpec "21" "Related Reference" true "16x"
         "Reference to related transaction" (Some 16);
       mkFieldSpec "13C" "Time Indication" false "/8c/4!n1!x4!n"
         "Time indication" None;
       mkFieldSpec "32A" "Value Date/Currency/Amount" true "6!n3!a15d"
         "Value date, currency, and amount" None;
       mkFieldSpec "52A" "Ordering Institution (BIC)" false "[/1!a][/34x]4!a2!a2!c[3!c]"
         "Ordering institution BIC" None;
       mkFieldSpec "52D" "Ordering Institution (Name/Address)" false "[/1!a][/34x]4*35x"
         "Ordering institution name and address" None;
       mkFieldSpec "53A" "Sender's Correspondent (BIC)" false "[/1!a][/34x]4!a2!a2!c[3!c]"
         "Sender correspondent BIC" None;
       mkFieldSpec "53B" "Sender's Correspondent (Location)" false "[/1!a][/34x][35x]"
         "Sender correspondent location" None;
       mkFieldSpec "53D" "Sender's Correspondent (Name/Address)" false "[/1!a][/34x]4*35x"
         "Sender correspondent name and address" None;
       mkFieldSpec "54A" "Receiver's Correspondent (BIC)" false "[/1!a][/34x]4!a2!a2!c[3!c]"
         "Receiver correspondent BIC" None;
       mkFieldSpec "54B" "Receiver's Correspondent (Location)" false "[/1!a][/34x][35x]"
         "Receiver correspondent location" None;
       mkFieldSpec "54D" "Receiver's Correspondent (Name/Address)" false "[/1!a][/34x]4*35x"
         "Receiver correspondent name and address" None;
       mkFieldSpec "56A" "Intermediary (BIC)" false "[/1!a][/34x]4!a2!a2!c[3!c]"
         "Intermediary institution BIC" None;
       mkFieldSpec "56D" "Intermediary (Name/Address)" false "[/1!a][/34x]4*35x"
         "Intermediary institution name and address" None;
       mkFieldSpec "57A" "Account With Institution (BIC)" false "[/1!a][/34x]4!a2!a2!c[3!c]"
         "Account with institution BIC" None;
       mkFieldSpec "57B" "Account With Institution (Location)" false "[/1!a][/34x][35x]"
         "Account with institution location" None;
       mkFieldSpec "57D" "Account With Institution (Name/Address)" false "[/1!a][/34x]4*35x"
         "Account with institution name and address" None;
       mkFieldSpec "58A" "Beneficiary Institution (BIC)" true "[/1!a][/34x]4!a2!a2!c[3!c]"
         "Beneficiary institution BIC" None;
       mkFieldSpec "58D" "Beneficiary Institution (Name/Address)" false "[/1!a][/34x]4*35x"
         "Beneficiary institution name and address" None;
       mkFieldSpec "72" "Sender to Receiver Information" false "6*35x"
         "Additional information" (Some 210)
     ] |}.

Definition MT940_SPEC : MtMessageSpec :=
  {| spec_type := "MT940";
     spec_name := "Customer Statement Message";
     spec_description := "End-of-day statement providing transaction details for customer account";
     spec_category := "Cash Management";
     spec_fields := [
       mkFieldSpec "20" "Transaction Reference Number" true "16x"
         "Statement reference" (Some 16);
       mkFieldSpec "21" "Related Reference" false "16x"
         "Related reference if applicable" (Some 16);
       mkFieldSpec "25" "Account Identification" true "35x"
         "Account number" (Some 35);
       mkFieldSpec "25P" "Account Identification (Party)" false "35x4!a2!a2!c[3!c]"
         "Account with identifier type" None;
       mkFieldSpec "28C" "Statement Number/Sequence Number" true "5n[/5n]"
         "Statement number and sequence" None;
       mkFieldSpec "60F" "Opening Balance (First)" true "1!a6!n3!a15d"
         "First opening balance" None;
       mkFieldSpec "60M" "Opening Balance (Intermediate)" false "1!a6!n3!a15d"
         "Intermediate opening balance" None;
       mkFieldSpec "61" "Statement Line" false "6!n[4!n]2a[1!a]15d1!a3!c16x[//16x][34x]"
         "Individual transaction line" None;
       mkFieldSpec "62F" "Closing Balance (Final)" true "1!a6!n3!a15d"
         "Final closing balance" None;
       mkFieldSpec "62M" "Closing Balance (Intermediate)" false "1!a6!n3!a15d"
         "Intermediate closing balance" None;
       mkFieldSpec "64" "Closing Available Balance" false "1!a6!n3!a15d"
         "Available balance at close" None;
       mkFieldSpec "65" "Forward Available Balance" false "1!a6!n3!a15d"
         "Future dated available balance" None;
       mkFieldSpec "86" "Information to Account Owner" false "6*65x"
         "Transaction details" (Some 390)
     ] |}.

Definition MT950_SPEC : MtMessageSpec :=
  {| spec_type := "MT950";
     spec_name := "Statement Message";
     spec_description := "Statement message without transaction narratives (netting)";
     spec_category := "Cash Management";
     spec_fields := [
       mkFieldSpec "20" "Transaction Reference Number" true "16x"
         "Statement reference" (Some 16);
       mkFieldSpec "25" "Account Identification" true "35x"
         "Account number" (Some 35);
       mkFieldSpec "28C" "Statement Number/Sequence Number" true "5n[/5n]"
         "Statement number and sequence" None;
       mkFieldSpec "60F" "Opening Balance (First)" true "1!a6!n3!a15d"
         "First opening balance" None;
       mkFieldSpec "60M" "Opening Balance (Intermediate)" false "1!a6!n3!a15d"
         "Intermediate opening balance" None;
       mkFieldSpec "61" "Statement Line" false "6!n[4!n]2a[1!a]15d1!a3!c16x[//16x]"
         "Individual transaction line" None;
       mkFieldSpec "62F" "Closing Balance (Final)" true "1!a6!n3!a15d"
         "Final closing balance" None;
       mkFieldSpec "62M" "Closing Balance (Intermediate)" false "1!a6!n3!a15d"
         "Intermediate closing balance" None;
       mkFieldSpec "64" "Closing Available Balance" false "1!a6!n3!a15d"
         "Available balance at close" None
     ] |}.

(** [COUNTRY_CODES] of [data/bicDirectory.ts] *)
Definition COUNTRY_CODES : gmap string string :=
  list_to_map
  [ ("US", "United States");
    ("GB", "United Kingdom");
    ("DE", "Germany");
    ("FR", "France");
    ("CH", "Switzerland");
    ("JP", "Japan");
    ("CN", "China");
    ("CA", "Canada");
    ("AU", "Australia");
    ("SG", "Singapore");
    ("HK", "Hong Kong");
    ("NL", "Netherlands");
    ("ES", "Spain");
    ("IT", "Italy");
    ("IN", "India");
    ("BR", "Brazil");
    ("AE", "United Arab Emirates");
    ("ZA", "South Africa");
    ("KR", "South Korea");
    ("SE", "Sweden");
    ("NO", "Norway");
    ("DK", "Denmark");
    ("FI", "Finland");
    ("AT", "Austria");
    ("BE", "Belgium");
    ("IE", "Ireland");
    ("PT", "Portugal");
    ("PL", "Poland");
    ("CZ", "Czech Republic");
    ("RU", "Russia");
    ("MX", "Mexico");
    ("AR", "Argentina");
    ("CL", "Chile");
    ("CO", "Colombia");
    ("TH", "Thailand");
    ("MY", "Malaysia");
    ("ID", "Indonesia");
    ("PH", "Philippines");
    ("VN", "Vietnam");
    ("NZ", "New Zealand");
    ("SA", "Saudi Arabia");
    ("QA", "Qatar");
    ("KW", "Kuwait");
    ("EG", "Egypt");
    ("NG", "Nigeria");
    ("KE", "Kenya") ].

(** The keys [MT_SPECS] is read at all start with [MT]; none of them names a
    member of [Object.prototype]. *)
Definition MT_SPECS : gmap string MtMessageSpec :=
  list_to_map
    [ ("MT103", MT103_SPEC); ("MT202", MT202_SPEC);
      ("MT940", MT940_SPEC); ("MT950", MT950_SPEC) ].

Definition BANK_OPERATION_CODES : gmap string string :=
  list_to_map
    [ ("CRED", "Credit Transfer"); ("CRTS", "Credit Transfer for Test");
      ("SPAY", "Single Payment"); ("SPRI", "Priority Payment");
      ("SSTD", "Standard Payment") ].

Definition CHARGE_CODES : gmap string string :=
  list_to_map
    [ ("BEN", "All charges paid by beneficiary");
      ("OUR", "All charges paid by ordering customer");
      ("SHA", "Charges shared between ordering customer and beneficiary") ].

(** What every object literal inherits from [Object.prototype]; each of these
    is truthy. *)
Definition objectPrototypeKeys : list string :=
  [ "constructor"; "__defineGetter__"; "__defineSetter__"; "hasOwnProperty";
    "__lookupGetter__"; "__lookupSetter__"; "isPrototypeOf";
    "propertyIsEnumerable"; "toString"; "valueOf"; "__proto__";
    "toLocaleString" ].

(** Truthiness of [table[k]] for an object literal of strings. *)
Definition truthyIn (table : gmap string string) (k : string) : bool :=
  match table !! k with
  | Some v => Js.nonEmpty v
  | None => bool_decide (k ∈ objectPrototypeKeys)
  end.

(** ** Decoder ([utils/mtParser.ts]) *)

(** [if (o[k])] for an object of strings: the value when it is truthy *)
Definition getTruthy (k : string) (o : Obj.JsObject string) : option string :=
  match Obj.get k o with
  | Some v => if Js.nonEmpty v then Some v else None
  | None => None
  end.

(** The block pattern is an opening brace, a digit, a colon, the captured
    content and a closing brace, where the content is a run of characters
    other than braces, interleaved with any number of brace pairs that
    enclose such a run. [scanBlockBody] reads the content and the closing
    brace, anchored, and returns the content and what follows; [inner] tells
    that a nested pair is open. The character classes are disjoint, so the
    greedy reading is the only one and backtracking finds nothing else. *)
Fixpoint scanBlockBody (inner : bool) (s : string) : option (string * string) :=
  match s with
  | "" => None
  | String c s' =>
      if Ascii.eqb c "{" then
        if inner then None
        else p ← scanBlockBody true s'; Some (String c p.1, p.2)
      else if Ascii.eqb c "}" then
        if inner then p ← scanBlockBody false s'; Some (String c p.1, p.2)
        else Some ("", s')
      else p ← scanBlockBody inner s'; Some (String c p.1, p.2)
  end.

(** The block pattern anchored at the start of [s]: the two captures and the
    rest of [s]. *)
Definition matchBlockAt (s : string) : option ((string * string) * string) :=
  match s with
  | String o (String d (String c body)) =>
      if Ascii.eqb o "{" && Char.isDigit d && Ascii.eqb c ":" then
        p ← scanBlockBody false body; Some ((String d "", p.1), p.2)
      else None
  | _ => None
  end.

(** [extractBlocks]. [parseInt] of one digit names the property by that
    digit. The line-based loop of the fallback branch fills a local variable
    that is never read; only its last statement, [blocks[4] = message], has
    an effect. *)
Definition extractBlocks (message : string) : Obj.JsObject string :=
  let blocks :=
    fold_left (fun blocks m => Obj.set m.1 m.2 blocks)
              (Js.execAll matchBlockAt message) [] in
  if Nat.eqb (length (Obj.keys blocks)) 0
  then Obj.set "4" message blocks
  else blocks.

(** [parseBasicHeader] *)
Definition parseBasicHeader (block : string) : BasicHeader :=
  {| applicationId := Js.charAt 0 block;
     serviceId := Js.slice 1 3 block;
     ltAddress := Js.slice 3 15 block;
     sessionNumber := Js.slice 15 19 block;
     sequenceNumber := Js.slice 19 25 block |}.

Definition emptyApplicationHeader : ApplicationHeader :=
  {| inputOutput := ""; ah_messageType := "";
     receiverAddress := None; priority := None; deliveryMonitor := None;
     obsolescencePeriod := None; inputTime := None; inputDate := None;
     mir := None; outputDate := None; outputTime := None |}.

(** [parseApplicationHeader] *)
Definition parseApplicationHeader (block : string) : ApplicationHeader :=
  if negb (Js.nonEmpty block) then emptyApplicationHeader
  else
    let io := Js.charAt 0 block in
    if String.eqb io "I" then
      {| inputOutput := io;
         ah_messageType := "MT" +:+ Js.slice 1 4 block;
         receiverAddress := Some (Js.slice 4 16 block);
         priority := Some (Js.charAt 16 block);
         deliveryMonitor := Some (Js.charAt 17 block);
         obsolescencePeriod := Some (Js.slice 18 21 block);
         inputTime := None; inputDate := None; mir := None;
         outputDate := None; outputTime := None |}
    else if String.eqb io "O" then
      {| inputOutput := io;
         ah_messageType := "MT" +:+ Js.slice 1 4 block;
         receiverAddress := None;
         priority := Some (Js.charAt 52 block);
         deliveryMonitor := None;
         obsolescencePeriod := None;
         inputTime := Some (Js.slice 4 8 block);
         inputDate := Some (Js.slice 8 14 block);
         mir := Some (Js.slice 14 42 block);
         outputDate := Some (Js.slice 42 48 block);
         outputTime := Some (Js.slice 48 52 block) |}
    else
      {| inputOutput := io; ah_messageType := "";
         receiverAddress := None; priority := None; deliveryMonitor := None;
         obsolescencePeriod := None; inputTime := None; inputDate := None;
         mir := None; outputDate := None; outputTime := None |}.

(** A run of characters other than the closing brace, then that brace,
    anchored: the captured run and what follows the brace *)
Fixpoint scanToClose (s : string) : option (string * string) :=
  match s with
  | "" => None
  | String c s' =>
      if Ascii.eqb c "}" then Some ("", s')
      else p ← scanToClose s'; Some (String c p.1, p.2)
  end.

(** An opening brace, a three-character key of class [cls], a colon, the
    captured run up to the first closing brace; anchored *)
Definition matchSubFieldAt (cls : ascii -> bool) (s : string)
  : option ((string * string) * string) :=
  match s with
  | String o (String a (String b (String c (String e body)))) =>
      if Ascii.eqb o "{" && cls a && cls b && cls c && Ascii.eqb e ":" then
        p ← scanToClose body;
        Some ((String a (String b (String c "")), p.1), p.2)
      else None
  | _ => None
  end.

Definition collect (ms : list (string * string)) : Obj.JsObject string :=
  fold_left (fun o m => Obj.set m.1 m.2 o) ms [].

(** [parseUserHeader]: the keys are three digits *)
Definition parseUserHeader (block : string) : Obj.JsObject string :=
  collect (Js.execAll (matchSubFieldAt Char.isDigit) block).

(** [parseTrailers]: the keys are three upper-case letters *)
Definition parseTrailers (block : string) : Obj.JsObject string :=
  collect (Js.execAll (matchSubFieldAt Char.isUpper) block).

(** The last capture of the tag pattern runs to the end of the line; the dot
    accepts it when it holds no line terminator. *)
Definition restOfLine (s : string) : option string :=
  if Js.all (fun c => negb (Char.isLineTerminator c)) s then Some s else None.

(** The tag pattern on a line: a colon, two digits, at most one upper-case
    letter, a colon, the rest of the line. Returns the tag and the rest. *)
Definition matchTagLine (line : string) : option (string * string) :=
  match line with
  | String c0 (String d1 (String d2 (String c rest))) =>
      if Ascii.eqb c0 ":" && Char.isDigit d1 && Char.isDigit d2 then
        if Char.isUpper c then
          match rest with
          | String c1 v =>
              if Ascii.eqb c1 ":" then
                r ← restOfLine v; Some (String d1 (String d2 (String c "")), r)
              else None
          | "" => None
          end
        else if Ascii.eqb c ":" then
          r ← restOfLine rest; Some (String d1 (String d2 ""), r)
        else None
      else None
  | _ => None
  end.

(** [currentLines.length > 1 ? currentLines : currentLines.join('\n')] *)
Definition fieldValueOf (currentLines : list string) : FieldValue :=
  if Nat.ltb 1 (length currentLines) then Lines currentLines
  else Scalar (Js.join LFs currentLines).

(** The variables of the loop of [parseTextBlock] *)
Record Tokenizer : Type := mkTokenizer {
  tk_fields : Obj.JsObject FieldValue;
  currentTag : string;
  currentLines : list string }.

(** [if (currentTag) fields[currentTag] = ...] *)
Definition saveField (st : Tokenizer) : Obj.JsObject FieldValue :=
  if Js.nonEmpty (currentTag st)
  then Obj.set (currentTag st) (fieldValueOf (currentLines st)) (tk_fields st)
  else tk_fields st.

(** One turn of the loop over the lines *)
Definition tokenStep (st : Tokenizer) (line : string) : Tokenizer :=
  match matchTagLine line with
  | Some (t, rest) =>
      {| tk_fields := saveField st;
         currentTag := t;
         currentLines := if Js.nonEmpty rest then [rest] else [] |}
  | None =>
      if Js.nonEmpty (currentTag st) && negb (String.eqb line "-")
      then {| tk_fields := tk_fields st;
              currentTag := currentTag st;
              currentLines := currentLines st ++ [line] |}
      else st
  end.

Definition tokenize (lines : list string) : Obj.JsObject FieldValue :=
  saveField (fold_left tokenStep lines
               {| tk_fields := []; currentTag := ""; currentLines := [] |}).

(** [block.replace(/^[\r\n]+|[\r\n]+$/g, '')] *)
Definition stripNewlines (block : string) : string :=
  Js.dropWhileEnd Char.isNewline (Js.dropWhile Char.isNewline block).

(** [parseTextBlock] *)
Definition parseTextBlock (block : string) : Obj.JsObject FieldValue :=
  tokenize (Js.splitLines (stripNewlines block)).

Definition emptyBasicHeader : BasicHeader :=
  {| applicationId := ""; serviceId := ""; ltAddress := "";
     sessionNumber := ""; sequenceNumber := "" |}.

(** [parseMtMessage] *)
Definition parseMtMessage (rawMessage : string) : ParsedMtMessage :=
  let cleaned := Js.trim rawMessage in
  let blocks := extractBlocks cleaned in
  let ah := match getTruthy "2" blocks with
            | Some b => parseApplicationHeader b
            | None => emptyApplicationHeader
            end in
  {| messageType := match getTruthy "2" blocks with
                    | Some _ => ah_messageType ah
                    | None => ""
                    end;
     basicHeader := match getTruthy "1" blocks with
                    | Some b => parseBasicHeader b
                    | None => emptyBasicHeader
                    end;
     applicationHeader := ah;
     userHeader := parseUserHeader <$> getTruthy "3" blocks;
     textBlock := match getTruthy "4" blocks with
                  | Some b => parseTextBlock b
                  | None => []
                  end;
     trailers := parseTrailers <$> getTruthy "5" blocks;
     rawMessage := cleaned |}.

(** ** Validator ([utils/mtParser.ts]) *)

(** [Array.isArray(value) ? value.join('\n') : value] *)
Definition joined (v : FieldValue) : string :=
  match v with
  | Scalar s => s
  | Lines ls => Js.join LFs ls
  end.

(** [Array.isArray(value) ? value[0] : value]; [undefined] for an empty array *)
Definition firstLine (v : FieldValue) : option string :=
  match v with
  | Scalar s => Some s
  | Lines ls => head ls
  end.

(** Truthiness of [fields[tag]]: a property that exists and is not the empty
    string. An array, even an empty one, is truthy. *)
Definition present (t : string) (o : Obj.JsObject FieldValue) : bool :=
  match Obj.get t o with
  | Some (Scalar s) => Js.nonEmpty s
  | Some (Lines _) => true
  | None => false
  end.

(** [!fieldValue || (Array.isArray(fieldValue) && fieldValue.length === 0)] *)
Definition missing (t : string) (o : Obj.JsObject FieldValue) : bool :=
  match Obj.get t o with
  | Some (Scalar s) => negb (Js.nonEmpty s)
  | Some (Lines ls) => Nat.eqb (length ls) 0
  | None => true
  end.

Definition unknownTypeError (p : ParsedMtMessage) : ValidationError :=
  {| field := "messageType";
     code := "UNKNOWN_TYPE";
     message := "Unknown message type: " +:+ messageType p;
     value := Some (messageType p) |}.

Definition missingFieldError (fs : MtFieldSpec) : ValidationError :=
  {| field := tag fs;
     code := "MISSING_FIELD";
     message := "Mandatory field " +:+ tag fs +:+ " (" +:+ name fs +:+ ") is missing";
     value := None |}.

Definition unknownFieldWarning (t : string) (v : FieldValue) : ValidationWarning :=
  {| field := t;
     code := "UNKNOWN_FIELD";
     message := "Unknown field tag: " +:+ t;
     value := Some (joined v) |}.

Definition fieldTooLongError (t : string) (m : nat) (v : FieldValue) : ValidationError :=
  {| field := t;
     code := "FIELD_TOO_LONG";
     message := "Field " +:+ t +:+ " exceeds maximum length of " +:+ Js.showNat m;
     value := Some (joined v) |}.

(** The loop over [spec.fields]: one error for each mandatory field that is
    missing, in the order of the specification *)
Fixpoint mandatoryErrors (specs : list MtFieldSpec) (o : Obj.JsObject FieldValue)
  : list ValidationError :=
  match specs with
  | [] => []
  | fs :: specs' =>
      if mandatory fs && missing (tag fs) o
      then missingFieldError fs :: mandatoryErrors specs' o
      else mandatoryErrors specs' o
  end.

(** [spec.fields.find(f => f.tag === tag)] *)
Definition findSpec (specs : list MtFieldSpec) (t : string) : option MtFieldSpec :=
  List.find (fun f => String.eqb (tag f) t) specs.

(** [fieldSpec.maxLength && valueStr.length > fieldSpec.maxLength] *)
Definition tooLong (fs : MtFieldSpec) (v : FieldValue) : option nat :=
  match maxLength fs with
  | Some m => if negb (Nat.eqb m 0) && Nat.ltb m (String.length (joined v))
              then Some m else None
  | None => None
  end.

(** The errors and the warnings, threaded through the checks *)
Definition Issues : Type := (list ValidationError * list ValidationWarning)%type.

(** One turn of the loop over [Object.entries(parsed.textBlock)] *)
Definition formatStep (specs : list MtFieldSpec) (acc : Issues)
    (entry : string * FieldValue) : Issues :=
  let '(t, v) := entry in
  match findSpec specs t with
  | None => (acc.1, acc.2 ++ [unknownFieldWarning t v])
  | Some fs =>
      match tooLong fs v with
      | Some m => (acc.1 ++ [fieldTooLongError t m v], acc.2)
      | None => acc
      end
  end.

Definition formatChecks (specs : list MtFieldSpec) (o : Obj.JsObject FieldValue)
    (acc : Issues) : Issues :=
  fold_left (formatStep specs) (Obj.entries o) acc.

Definition isDigitOrComma (c : ascii) : bool := Char.isDigit c || Ascii.eqb c ",".

(** A run of exactly [n] characters of class [cls] at the start of [s]: what
    follows it *)
Fixpoint exactly (n : nat) (cls : ascii -> bool) (s : string) : option string :=
  match n with
  | O => Some s
  | S n' =>
      match s with
      | String c s' => if cls c then exactly n' cls s' else None
      | "" => None
      end
  end.

(** Six digits, three upper-case letters, then digits and commas, at least
    one, to the end: the test of field 32A *)
Definition matchesAmount (s : string) : bool :=
  match exactly 6 Char.isDigit s with
  | Some s1 =>
      match exactly 3 Char.isUpper s1 with
      | Some s2 => Js.nonEmpty s2 && Js.all isDigitOrComma s2
      | None => false
      end
  | None => false
  end.

(** [C] or [D] in front of the same shape: the test of the balance fields *)
Definition matchesBalance (s : string) : bool :=
  match s with
  | String c s' => (Ascii.eqb c "C" || Ascii.eqb c "D") && matchesAmount s'
  | "" => false
  end.

(** Calling [.replace] on [undefined] *)
Definition undefinedReplace : JsError :=
  TypeError "Cannot read properties of undefined (reading 'replace')".

(** [value.replace(/\s/g, '')] on [value], which may be [undefined] *)
Definition stripped (value : option string) : Exc string :=
  match value with
  | Some s => Ok (Js.removeWhiteSpace s)
  | None => Throw undefinedReplace
  end.

Definition invalid32AError (value : option string) : ValidationError :=
  {| field := "32A"; code := "INVALID_FORMAT";
     message := "Field 32A format is invalid. Expected: YYMMDDCCCNNNN,NN";
     value := value |}.

Definition invalid71AError (value : option string) : ValidationError :=
  {| field := "71A"; code := "INVALID_VALUE";
     message := "Field 71A must be BEN, OUR, or SHA";
     value := value |}.

Definition beneficiaryError : ValidationError :=
  {| field := "59"; code := "MISSING_FIELD";
     message := "Beneficiary customer (field 59, 59A, or 59F) is required";
     value := None |}.

Definition orderingCustomerWarning : ValidationWarning :=
  {| field := "50"; code := "MISSING_FIELD";
     message := "Ordering customer (field 50A, 50F, or 50K) is recommended";
     value := None |}.

(** [['BEN', 'OUR', 'SHA'].includes(value)] *)
Definition isChargeCode (value : option string) : bool :=
  match value with
  | Some s => String.eqb s "BEN" || String.eqb s "OUR" || String.eqb s "SHA"
  | None => false
  end.

(** [validateMt103Specifics] *)
Definition validateMt103Specifics (parsed : ParsedMtMessage) (acc : Issues)
  : Exc Issues :=
  let fields := textBlock parsed in
  acc1 ← (if present "32A" fields then
            let value := Obj.get "32A" fields ≫= firstLine in
            s ← stripped value;
            if negb (matchesAmount s)
            then Ok (acc.1 ++ [invalid32AError value], acc.2)
            else Ok acc
          else Ok acc);
  let acc2 : Issues :=
    if present "71A" fields then
      let value := Obj.get "71A" fields ≫= firstLine in
      if negb (isChargeCode value)
      then (acc1.1 ++ [invalid71AError value], acc1.2)
      else acc1
    else acc1 in
  let acc3 : Issues :=
    if negb (present "59" fields) && negb (present "59A" fields)
       && negb (present "59F" fields)
    then (acc2.1 ++ [beneficiaryError], acc2.2)
    else acc2 in
  let acc4 : Issues :=
    if negb (present "50A" fields) && negb (present "50F" fields)
       && negb (present "50K" fields)
    then (acc3.1, acc3.2 ++ [orderingCustomerWarning])
    else acc3 in
  Ok acc4.

Definition openingBalanceError : ValidationError :=
  {| field := "60F"; code := "MISSING_FIELD";
     message := "Opening balance (field 60F or 60M) is required";
     value := None |}.

Definition closingBalanceError : ValidationError :=
  {| field := "62F"; code := "MISSING_FIELD";
     message := "Closing balance (field 62F or 62M) is required";
     value := None |}.

Definition balanceWarning (t : string) (value : option string) : ValidationWarning :=
  {| field := t; code := "INVALID_FORMAT";
     message := "Field " +:+ t +:+ " format may be invalid. Expected: D/CYYMMDDCCCNNNN,NN";
     value := value |}.

Definition balanceFields : list string := ["60F"; "60M"; "62F"; "62M"; "64"; "65"].

(** One turn of the loop over [balanceFields] *)
Definition balanceStep (fields : Obj.JsObject FieldValue) (acc : Exc Issues)
    (t : string) : Exc Issues :=
  a ← acc;
  if present t fields then
    let balanceValue := Obj.get t fields ≫= firstLine in
    s ← stripped balanceValue;
    if negb (matchesBalance s)
    then Ok (a.1, a.2 ++ [balanceWarning t balanceValue])
    else Ok a
  else Ok a.

(** [validateStatementSpecifics] *)
Definition validateStatementSpecifics (parsed : ParsedMtMessage) (acc : Issues)
  : Exc Issues :=
  let fields := textBlock parsed in
  let acc1 : Issues :=
    if negb (present "60F" fields) && negb (present "60M" fields)
    then (acc.1 ++ [openingBalanceError], acc.2) else acc in
  let acc2 : Issues :=
    if negb (present "62F" fields) && negb (present "62M" fields)
    then (acc1.1 ++ [closingBalanceError], acc1.2) else acc1 in
  fold_left (balanceStep fields) balanceFields (Ok acc2).

(** [validateMtMessage]; the argument is a raw message or a decoded one. *)
Definition validateMtMessage (message : string + ParsedMtMessage)
  : Exc MtValidationResult :=
  let parsed := match message with
                | inl raw => parseMtMessage raw
                | inr p => p
                end in
  let type := Js.replaceFirst "MT" "" (messageType parsed) in
  match MT_SPECS !! ("MT" +:+ type) with
  | None =>
      Ok {| valid := false;
            res_messageType := messageType parsed;
            errors := [unknownTypeError parsed];
            warnings := [];
            parsedFields := Some (textBlock parsed) |}
  | Some spec =>
      let acc1 : Issues := (mandatoryErrors (spec_fields spec) (textBlock parsed), []) in
      let acc2 := formatChecks (spec_fields spec) (textBlock parsed) acc1 in
      acc3 ← (if String.eqb type "103" then validateMt103Specifics parsed acc2
              else if String.eqb type "940" || String.eqb type "950"
                   then validateStatementSpecifics parsed acc2
              else Ok acc2);
      Ok {| valid := Nat.eqb (length acc3.1) 0;
            res_messageType := messageType parsed;
            errors := acc3.1;
            warnings := acc3.2;
            parsedFields := Some (textBlock parsed) |}
  end.

(** ** BIC validation ([utils/bicValidator.ts]) *)

Record BicComponents : Type := mkBicComponents {
  institutionCode : string;
  countryCode : string;
  locationCode : string;
  branchCode : string }.

Record BicValidationResult : Type := mkBicResult {
  bic_valid : bool;
  bic : string;
  normalized : string;
  components : BicComponents;
  bic_errors : list string }.

(** [normalizeBic]: upper case, white space removed *)
Definition normalizeBic (b : string) : string :=
  Js.removeWhiteSpace (Js.toUpperCase b).

(** [BIC_PATTERN.test]: four letters, two letters, two letters or digits, and
    at the end nothing or three more letters or digits *)
Definition matchesBicPattern (s : string) : bool :=
  match exactly 4 Char.isUpper s with
  | Some s1 =>
      match exactly 2 Char.isUpper s1 with
      | Some s2 =>
          match exactly 2 Char.isUpperOrDigit s2 with
          | Some "" => true
          | Some s3 =>
              match exactly 3 Char.isUpperOrDigit s3 with
              | Some "" => true
              | _ => false
              end
          | None => false
          end
      | None => false
      end
  | None => false
  end.

(** [validateBic] *)
Definition validateBic (b : string) : BicValidationResult :=
  let normalized := normalizeBic b in
  if negb (Js.nonEmpty normalized) then
    {| bic_valid := false; bic := b; normalized := "";
       components := {| institutionCode := ""; countryCode := "";
                        locationCode := ""; branchCode := "" |};
       bic_errors := ["BIC code is required"] |}
  else
    let len := String.length normalized in
    let errors1 :=
      if negb (Nat.eqb len 8) && negb (Nat.eqb len 11)
      then ["BIC must be 8 or 11 characters, got " +:+ Js.showNat len]
      else [] in
    let errors2 :=
      if negb (matchesBicPattern normalized)
      then errors1 ++ ["BIC format is invalid. Expected format: AAAABBCCXXX or AAAABBCC"]
      else errors1 in
    let components :=
      {| institutionCode := Js.slice 0 4 normalized;
         countryCode := Js.slice 4 6 normalized;
         locationCode := Js.slice 6 8 normalized;
         branchCode := if Nat.eqb len 11 then Js.slice 8 11 normalized else "XXX" |} in
    let errors3 :=
      if Js.nonEmpty (countryCode components)
         && negb (truthyIn COUNTRY_CODES (countryCode components))
      then errors2 ++ ["Unknown country code: " +:+ countryCode components]
      else errors2 in
    let errors4 :=
      if Js.nonEmpty (locationCode components)
         && (String.eqb (Js.charAt 0 (locationCode components)) "0"
             || String.eqb (Js.charAt 0 (locationCode components)) "1")
      then errors3 ++ ["Location code first character cannot be 0 or 1"]
      else errors3 in
    {| bic_valid := Nat.eqb (length errors4) 0; bic := b;
       normalized := normalized; components := components;
       bic_errors := errors4 |}.

(** ** Generator ([utils/mtGenerator.ts]) *)

(** [fields.k] where the code tests it for truthiness before use *)
Definition fld (fields : gmap string string) (k : string) : option string :=
  match fields !! k with
  | Some v => if Js.nonEmpty v then Some v else None
  | None => None
  end.

(** [if (v) lines.push(prefix + v)]: the lines pushed *)
Definition optLine (prefix : string) (v : option string) : list string :=
  match v with
  | Some x => [prefix +:+ x]
  | None => []
  end.

(** The party fields 50K and 59: an account line, when there is an account,
    and a name glued behind it *)
Definition partyLine (prefix : string) (account name : option string) : list string :=
  match account, name with
  | None, None => []
  | _, _ =>
      [prefix
       +:+ match account with Some a => "/" +:+ a +:+ CRLF | None => "" end
       +:+ match name with Some n => n | None => "" end]
  end.

(** [isNaN(parseFloat(amount))]. [parseFloat] skips leading white space and
    reads the longest prefix that is a decimal literal; there is one exactly
    when, behind an optional sign, comes [Infinity], a digit, or a dot and a
    digit. *)
Definition parseFloatIsNaN (amount : string) : bool :=
  let t := Js.dropWhile Char.isWhiteSpace amount in
  let u := match t with
           | String c r => if Ascii.eqb c "+" || Ascii.eqb c "-" then r else t
           | "" => t
           end in
  negb (String.prefix "Infinity" u
        || match u with
           | String c r =>
               Char.isDigit c
               || (Ascii.eqb c "."
                   && match r with String d _ => Char.isDigit d | "" => false end)
           | "" => false
           end).

(** [normalizeBicTo12] *)
Definition normalizeBicTo12 (b : string) : string :=
  if Nat.eqb (String.length b) 8 then b +:+ "XXXX"
  else if Nat.eqb (String.length b) 11 then b +:+ "X"
  else b.

(** [generateBlock1] *)
Definition generateBlock1 (senderBic : string) : string :=
  "{1:F01" +:+ senderBic +:+ "0000" +:+ "000000" +:+ "}".

(** [generateBlock2] *)
Definition generateBlock2 (type receiverBic : string) : string :=
  "{2:I" +:+ type +:+ receiverBic +:+ "N" +:+ "" +:+ "}".

(** [generateBlock3] *)
Definition generateBlock3 (fields : gmap string string) : string :=
  let headerFields :=
    match fld fields "uetr" with Some u => ["{121:" +:+ u +:+ "}"] | None => [] end
    ++ match fld fields "mur" with Some m => ["{108:" +:+ m +:+ "}"] | None => [] end in
  if Nat.eqb (length headerFields) 0 then ""
  else "{3:" +:+ Js.join "" headerFields +:+ "}".

(** [generateBlock5] *)
Definition generateBlock5 : string := "{5:}".

Section Generator.

(** [toFixed2 amount] stands for [parseFloat(amount).toFixed(2)] where
    [parseFloat(amount)] is a number. *)
Variable toFixed2 : string -> string.

(** [formatSwiftAmount] *)
Definition formatSwiftAmount (amount : string) : Exc string :=
  if parseFloatIsNaN amount then Throw (Error ("Invalid amount: " +:+ amount))
  else Ok (Js.replaceFirst "." "," (toFixed2 amount)).

(** Field 32A of MT103 and MT202 *)
Definition amountLine (fields : gmap string string) : Exc (list string) :=
  match fld fields "valueDate", fld fields "currency", fld fields "amount" with
  | Some d, Some c, Some a =>
      formattedAmount ← formatSwiftAmount a;
      Ok [":32A:" +:+ d +:+ c +:+ formattedAmount]
  | _, _, _ => Ok []
  end.

(** Field 33B of MT103 *)
Definition instructedAmountLine (fields : gmap string string) : Exc (list string) :=
  match fld fields "instructedCurrency", fld fields "instructedAmount" with
  | Some c, Some a =>
      formattedAmount ← formatSwiftAmount a;
      Ok [":33B:" +:+ c +:+ formattedAmount]
  | _, _ => Ok []
  end.

(** [generateMT103Content] *)
Definition generateMT103Content (fields : gmap string string) : Exc string :=
  let lines := optLine ":20:" (fld fields "senderReference") in
  let opCode := default "CRED" (fld fields "bankOperationCode") in
  if negb (truthyIn BANK_OPERATION_CODES opCode)
  then Throw (Error ("Invalid bank operation code: " +:+ opCode))
  else
    let lines := lines ++ [":23B:" +:+ opCode] in
    l32 ← amountLine fields;
    let lines := lines ++ l32 in
    l33 ← instructedAmountLine fields;
    let lines := lines ++ l33 in
    let lines := lines ++ partyLine ":50K:" (fld fields "orderingCustomerAccount")
                                    (fld fields "orderingCustomerName") in
    let lines := lines ++ optLine ":52A:" (fld fields "orderingInstitution") in
    let lines := lines ++ optLine ":53A:" (fld fields "sendersCorrespondent") in
    let lines := lines ++ optLine ":54A:" (fld fields "receiversCorrespondent") in
    let lines := lines ++ optLine ":56A:" (fld fields "intermediaryInstitution") in
    let lines := lines ++ optLine ":57A:" (fld fields "accountWithInstitution") in
    let lines := lines ++ partyLine ":59:" (fld fields "beneficiaryAccount")
                                    (fld fields "beneficiaryName") in
    let lines := lines ++ optLine ":70:" (fld fields "remittanceInfo") in
    let charges := default "SHA" (fld fields "charges") in
    if negb (truthyIn CHARGE_CODES charges)
    then Throw (Error ("Invalid charge code: " +:+ charges))
    else
      let lines := lines ++ [":71A:" +:+ charges] in
      let lines := lines ++ optLine ":72:" (fld fields "senderToReceiverInfo") in
      Ok (Js.join CRLF lines +:+ CRLF).

(** [generateMT202Content] *)
Definition generateMT202Content (fields : gmap string string) : Exc string :=
  let lines := optLine ":20:" (fld fields "transactionReference") in
  let lines := lines ++ optLine ":21:" (fld fields "relatedReference") in
  l32 ← amountLine fields;
  let lines := lines ++ l32 in
  let lines := lines ++ optLine ":52A:" (fld fields "orderingInstitution") in
  let lines := lines ++ optLine ":53A:" (fld fields "sendersCorrespondent") in
  let lines := lines ++ optLine ":54A:" (fld fields "receiversCorrespondent") in
  let lines := lines ++ optLine ":56A:" (fld fields "intermediary") in
  let lines := lines ++ optLine ":57A:" (fld fields "accountWithInstitution") in
  let lines := lines ++ optLine ":58A:" (fld fields "beneficiaryInstitution") in
  let lines := lines ++ optLine ":72:" (fld fields "senderToReceiverInfo") in
  Ok (Js.join CRLF lines +:+ CRLF).

(** The statement lines, one field 61 for each piece between bars *)
Definition statementLines (fields : gmap string string) : list string :=
  match fld fields "statementLines" with
  | Some v => map (fun line => ":61:" +:+ line) (Js.splitChar "|" v)
  | None => []
  end.

(** [generateMT940Content] *)
Definition generateMT940Content (fields : gmap string string) : string :=
  let lines := optLine ":20:" (fld fields "transactionReference") in
  let lines := lines ++ optLine ":25:" (fld fields "accountId") in
  let lines := lines ++ optLine ":28C:" (fld fields "statementNumber") in
  let lines := lines ++ optLine ":60F:" (fld fields "openingBalance") in
  let lines := lines ++ statementLines fields in
  let lines := lines ++ optLine ":62F:" (fld fields "closingBalance") in
  let lines := lines ++ optLine ":64:" (fld fields "closingAvailableBalance") in
  Js.join CRLF lines +:+ CRLF.

(** [generateMT950Content] *)
Definition generateMT950Content (fields : gmap string string) : string :=
  let lines := optLine ":20:" (fld fields "transactionReference") in
  let lines := lines ++ optLine ":25:" (fld fields "accountId") in
  let lines := lines ++ optLine ":28C:" (fld fields "statementNumber") in
  let lines := lines ++ optLine ":60F:" (fld fields "openingBalance") in
  let lines := lines ++ statementLines fields in
  let lines := lines ++ optLine ":62F:" (fld fields "closingBalance") in
  Js.join CRLF lines +:+ CRLF.

(** [generateBlock4] *)
Definition generateBlock4 (type : string) (fields : gmap string string) : Exc string :=
  content ← (if String.eqb type "103" then generateMT103Content fields
             else if String.eqb type "202" then generateMT202Content fields
             else if String.eqb type "940" then Ok (generateMT940Content fields)
             else if String.eqb type "950" then Ok (generateMT950Content fields)
             else Throw (Error ("Unsupported message type: MT" +:+ type)));
  Ok ("{4:" +:+ CRLF +:+ content +:+ "-}").

(** [generateMtMessage] *)
Definition generateMtMessage (input : MtMessageInput) : Exc string :=
  let type := Js.replaceFirst "MT" "" (in_messageType input) in
  let senderValidation := validateBic (senderBic input) in
  let receiverValidation := validateBic (receiverBic input) in
  if negb (bic_valid senderValidation)
  then Throw (Error ("Invalid sender BIC: " +:+ Js.join ", " (bic_errors senderValidation)))
  else if negb (bic_valid receiverValidation)
  then Throw (Error ("Invalid receiver BIC: " +:+ Js.join ", " (bic_errors receiverValidation)))
  else
    let normalizedSender := normalizeBicTo12 (normalized senderValidation) in
    let normalizedReceiver := normalizeBicTo12 (normalized receiverValidation) in
    let block1 := generateBlock1 normalizedSender in
    let block2 := generateBlock2 type normalizedReceiver in
    let block3 := generateBlock3 (fields input) in
    block4 ← generateBlock4 type (fields input);
    let block5 := generateBlock5 in
    Ok (block1 +:+ block2 +:+ block3 +:+ block4 +:+ block5).

End Generator.

(** * Notions of the statements *)

(** The continuation lines in front of [lines]: the lines up to the next tag
    line, the terminator line left out. *)
Fixpoint continuation (lines : list string) : list string :=
  match lines with
  | [] => []
  | l :: ls =>
      match matchTagLine l with
      | Some _ => []
      | None => if String.eqb l "-" then continuation ls else l :: continuation ls
      end
  end.

(** The value lines a tag line opens: the rest of the tag line, when it is
    not empty, and the continuation lines behind it. *)
Definition openedBy (rest : string) (following : list string) : list string :=
  (if Js.nonEmpty rest then [rest] else []) ++ continuation following.

(** The value lines of the last field of [lines] that carries tag [t]. *)
Fixpoint lastOccurrence (t : string) (lines : list string) : option (list string) :=
  match lines with
  | [] => None
  | l :: ls =>
      match lastOccurrence t ls with
      | Some v => Some v
      | None =>
          match matchTagLine l with
          | Some (t', rest) =>
              if String.eqb t t' then Some (openedBy rest ls) else None
          | None => None
          end
      end
  end.

(** No value of the text block is an empty array. *)
Definition noEmptyLines (o : Obj.JsObject FieldValue) : Prop :=
  forall t v, Obj.get t o = Some v -> exists s, firstLine v = Some s.

Definition registeredTypes : list string := ["MT103"; "MT202"; "MT940"; "MT950"].

(** A physical line holds no line terminator: no carriage return, no line
    feed, no line separator U+2028 and no paragraph separator U+2029. *)
Definition plainLine (l : string) : bool :=
  Js.all (fun c => negb (Char.isLineTerminator c)) l.

(** The two line breaks the tokenizer splits on *)
Definition lineBreak (sep : string) : Prop := sep = LFs \/ sep = CRLF.

(** A tag: two digits and at most one upper-case letter *)
Definition isTag (t : string) : bool :=
  match t with
  | String d1 (String d2 "") => Char.isDigit d1 && Char.isDigit d2
  | String d1 (String d2 (String c "")) =>
      Char.isDigit d1 && Char.isDigit d2 && Char.isUpper c
  | _ => false
  end.

(** The line is a tag line that carries tag [t]. *)
Definition carries (t line : string) : bool :=
  match matchTagLine line with
  | Some (t', _) => String.eqb t t'
  | None => false
  end.

(** A continuation line: a physical line that is neither a tag line nor the
    terminator line *)
Definition contentLine (l : string) : bool :=
  plainLine l
  && match matchTagLine l with Some _ => false | None => true end
  && negb (String.eqb l "-").



(** The text of the lines behind a field, each behind a line break *)
Definition linesAfter (sep : string) (post : list string) : string :=
  fold_right (fun l acc => sep +:+ l +:+ acc) "" post.

(** The errors of the loop over the present fields *)
Definition formatErrors (specs : list MtFieldSpec) (o : Obj.JsObject FieldValue)
  : list ValidationError :=
  flat_map (fun e : string * FieldValue =>
              match findSpec specs e.1 with
              | Some fs => match tooLong fs e.2 with
                           | Some m => [fieldTooLongError e.1 m e.2]
                           | None => []
                           end
              | None => []
              end) (Obj.entries o).

(** The warnings of the loop over the present fields *)
Definition formatWarnings (specs : list MtFieldSpec) (o : Obj.JsObject FieldValue)
  : list ValidationWarning :=
  flat_map (fun e : string * FieldValue =>
              match findSpec specs e.1 with
              | Some _ => []
              | None => [unknownFieldWarning e.1 e.2]
              end) (Obj.entries o).

Definition check32A (o : Obj.JsObject FieldValue) : Exc (list ValidationError) :=
  if present "32A" o then
    s ← stripped (Obj.get "32A" o ≫= firstLine);
    Ok (if negb (matchesAmount s)
        then [invalid32AError (Obj.get "32A" o ≫= firstLine)] else [])
  else Ok [].

Definition check71A (o : Obj.JsObject FieldValue) : list ValidationError :=
  if present "71A" o && negb (isChargeCode (Obj.get "71A" o ≫= firstLine))
  then [invalid71AError (Obj.get "71A" o ≫= firstLine)] else [].

Definition checkBeneficiary (o : Obj.JsObject FieldValue) : list ValidationError :=
  if negb (present "59" o) && negb (present "59A" o) && negb (present "59F" o)
  then [beneficiaryError] else [].

Definition checkOrderingCustomer (o : Obj.JsObject FieldValue) : list ValidationWarning :=
  if negb (present "50A" o) && negb (present "50F" o) && negb (present "50K" o)
  then [orderingCustomerWarning] else [].

Definition checkOpening (o : Obj.JsObject FieldValue) : list ValidationError :=
  if negb (present "60F" o) && negb (present "60M" o)
  then [openingBalanceError] else [].

Definition checkClosing (o : Obj.JsObject FieldValue) : list ValidationError :=
  if negb (present "62F" o) && negb (present "62M" o)
  then [closingBalanceError] else [].

Definition checkBalance (o : Obj.JsObject FieldValue) (t : string)
  : Exc (list ValidationWarning) :=
  if present t o then
    s ← stripped (Obj.get t o ≫= firstLine);
    Ok (if negb (matchesBalance s)
        then [balanceWarning t (Obj.get t o ≫= firstLine)] else [])
  else Ok [].

Fixpoint checkBalances (o : Obj.JsObject FieldValue) (ts : list string)
  : Exc (list ValidationWarning) :=
  match ts with
  | [] => Ok []
  | t :: ts' =>
      w ← checkBalance o t; ws ← checkBalances o ts'; Ok (w ++ ws)
  end.

(** The issues of the checks that depend on the message type *)
Definition specificIssues (type : string) (o : Obj.JsObject FieldValue) : Exc Issues :=
  if String.eqb type "103" then
    e ← check32A o;
    Ok (e ++ check71A o ++ checkBeneficiary o, checkOrderingCustomer o)
  else if String.eqb type "940" || String.eqb type "950" then
    w ← checkBalances o balanceFields;
    Ok (checkOpening o ++ checkClosing o, w)
  else Ok ([], []).

(** No value is an empty array (the decidable form). *)
Definition noEmptyArray (o : Obj.JsObject FieldValue) : bool :=
  forallb (fun e : string * FieldValue =>
             match e.2 with Lines [] => false | _ => true end) o.

(** A message of type MT103 whose reference stands on two lines, of eight and
    of nine characters, and which holds a tag the specification does not
    know *)
Definition sampleLongLines : ParsedMtMessage :=
  parseMtMessage
    (Js.join CRLF
       [ "{1:F01AAAABBCCXXX0000000000}{2:I103AAAABBCCXXXXN}{4:";
         ":20:12345678"; "123456789"; ":23B:CRED"; ":32A:240101USD100,00";
         ":59:/ACC"; "NAME"; ":71A:SHA"; ":99Z:what"; "-}" ]).

(** The tags the specification marks as mandatory *)
Definition mandatoryTags (spec : MtMessageSpec) : list string :=
  map tag (List.filter mandatory (spec_fields spec)).

(** The record with another text block *)
Definition withTextBlock (p : ParsedMtMessage) (o : Obj.JsObject FieldValue)
  : ParsedMtMessage :=
  {| messageType := messageType p;
     basicHeader := basicHeader p;
     applicationHeader := applicationHeader p;
     userHeader := userHeader p;
     textBlock := o;
     trailers := trailers p;
     rawMessage := rawMessage p |}.

(** The message of the example of the specification *)
Definition sampleValid103 : ParsedMtMessage :=
  parseMtMessage
    (Js.join CRLF
       [ "{1:F01AAAABBCCXXX0000000000}{2:O1030000000000AAAABBCCXXX00000000000000000000N}{4:";
         ":20:REF1"; ":23B:CRED"; ":32A:240101USD100,00";
         ":59:/ACC"; "NAME"; ":71A:SHA"; "-}" ]).

(** Field 32A is written, and its amount is not a number. *)
Definition amountIsNaN (fields : gmap string string) : bool :=
  match fld fields "valueDate", fld fields "currency", fld fields "amount" with
  | Some _, Some _, Some a => parseFloatIsNaN a
  | _, _, _ => false
  end.

(** Field 33B is written, and its amount is not a number. *)
Definition instructedAmountIsNaN (fields : gmap string string) : bool :=
  match fld fields "instructedCurrency", fld fields "instructedAmount" with
  | Some _, Some a => parseFloatIsNaN a
  | _, _ => false
  end.

(** The body of the message type cannot be built: the type is none of the
    four, a code is in no table, or an amount is not a number. *)
Definition contentRefused (type : string) (fields : gmap string string) : bool :=
  if String.eqb type "103" then
    negb (truthyIn BANK_OPERATION_CODES (default "CRED" (fld fields "bankOperationCode")))
    || amountIsNaN fields
    || instructedAmountIsNaN fields
    || negb (truthyIn CHARGE_CODES (default "SHA" (fld fields "charges")))
  else if String.eqb type "202" then amountIsNaN fields
  else if String.eqb type "940" then false
  else if String.eqb type "950" then false
  else true.

(** The conditions under which the generator raises *)
Definition refuses (input : MtMessageInput) : bool :=
  negb (bic_valid (validateBic (senderBic input)))
  || negb (bic_valid (validateBic (receiverBic input)))
  || contentRefused (Js.replaceFirst "MT" "" (in_messageType input)) (fields input).

(** The input with the value of one key taken away *)
Definition withoutField (k : string) (input : MtMessageInput) : MtMessageInput :=
  {| in_messageType := in_messageType input;
     senderBic := senderBic input;
     receiverBic := receiverBic input;
     fields := delete k (fields input) |}.

(** An MT103 input that supplies neither the sender's reference nor the value
    date, currency and amount *)
Definition inputWithoutReference : MtMessageInput :=
  {| in_messageType := "MT103";
     senderBic := "DEUTDEFF";
     receiverBic := "CHASUS33XXX";
     fields := {[ "beneficiaryName" := "NAME" ]} |}.

(** The text holds no brace. *)
Definition noBrace (s : string) : bool := Js.all (fun c => negb (Char.isBrace c)) s.

(** The last value assigned to [k] in a run of assignments *)
Fixpoint assignedLast {V} (k : string) (ms : list (string * V)) : option V :=
  match ms with
  | [] => None
  | m :: ms' =>
      match assignedLast k ms' with
      | Some v => Some v
      | None => if String.eqb k m.1 then Some m.2 else None
      end
  end.

(** What the block pattern accepts as the content of a block, whatever
    follows the closing brace *)
Definition blockContent (c : string) : Prop :=
  forall rest, scanBlockBody false (c +:+ "}" +:+ rest) = Some (c, rest).

(** A block of the wire format *)
Definition wireBlock (d : ascii) (content : string) : string :=
  "{" +:+ String d ":" +:+ content +:+ "}".

(** The five blocks the generator puts together, block 3 only when one of its
    fields is supplied *)
Definition wireMessage (c1 c2 : string) (c3 : option string) (c4 : string) : string :=
  wireBlock "1" c1 +:+ wireBlock "2" c2
  +:+ match c3 with Some c => wireBlock "3" c | None => "" end
  +:+ wireBlock "4" c4 +:+ wireBlock "5" "".

Definition assignedBlocks (c1 c2 : string) (c3 : option string) (c4 : string)
  : list (string * string) :=
  [("1", c1); ("2", c2)]
  ++ match c3 with Some c => [("3", c)] | None => [] end
  ++ [("4", c4); ("5", "")].

(** A field as the generator writes it: the tag, the text behind the tag and
    the lines that follow *)
Record WireField : Type := mkWireField {
  wf_tag : string;
  wf_text : string;
  wf_conts : list string }.

(** The physical lines of a field *)
Definition physicalLines (f : WireField) : list string :=
  (":" +:+ wf_tag f +:+ ":" +:+ wf_text f) :: wf_conts f.

(** The entry the generator pushes for a field *)
Definition wireLine (f : WireField) : string := Js.join CRLF (physicalLines f).

(** The lines of the value the tokenizer gives a field *)
Definition valueOf (f : WireField) : list string :=
  (if Js.nonEmpty (wf_text f) then [wf_text f] else []) ++ wf_conts f.

(** The tag is a tag, the text a physical line, the following lines are
    continuation lines. *)
Definition wellFormedField (f : WireField) : bool :=
  isTag (wf_tag f) && plainLine (wf_text f) && forallb contentLine (wf_conts f).

(** The last field of the list with tag [t] *)
Fixpoint findLast (t : string) (fs : list WireField) : option WireField :=
  match fs with
  | [] => None
  | f :: fs' =>
      match findLast t fs' with
      | Some g => Some g
      | None => if String.eqb t (wf_tag f) then Some f else None
      end
  end.

(** All physical lines of the fields, and the terminator line *)
Definition blockLines (fs : list WireField) : list string :=
  concat (map physicalLines fs) ++ ["-"].

(** The last field with tag [t] has text behind the tag. *)
Definition suppliedIn (fs : list WireField) (t : string) : bool :=
  match findLast t fs with
  | Some f => Js.nonEmpty (wf_text f)
  | None => false
  end.

(** The value of the field is within the maximum length, if any, that the
    specifications give its tag. *)
Definition withinLimit (specs : list MtFieldSpec) (f : WireField) : bool :=
  match findSpec specs (wf_tag f) with
  | Some s => match tooLong s (fieldValueOf (valueOf f)) with
              | Some _ => false
              | None => true
              end
  | None => true
  end.

(** The text of the last field with tag [t] passes the test [ok]. *)
Definition textPasses (fs : list WireField) (t : string) (ok : string -> bool) : bool :=
  match findLast t fs with
  | Some f => Js.nonEmpty (wf_text f) && ok (wf_text f)
  | None => false
  end.

(** What the type-specific checks ask of the fields *)
Definition specificsPass (type : string) (fs : list WireField) : bool :=
  if String.eqb type "103" then
    textPasses fs "32A" (fun s => matchesAmount (Js.removeWhiteSpace s))
    && textPasses fs "71A" (fun s => isChargeCode (Some s))
  else true.

(** A value that can stand in a line of the wire format: no line terminator
    (carriage return, line feed, U+2028, U+2029) and no brace *)
Definition wireSafe (v : string) : bool := plainLine v && noBrace v.

(** The field an optional value gives *)
Definition optField (t : string) (v : option string) : list WireField :=
  match v with
  | Some x => [mkWireField t x []]
  | None => []
  end.

(** The field of a party: the account and, on the next line, the name *)
Definition partyField (t : string) (account name : option string) : list WireField :=
  match account, name with
  | None, None => []
  | Some a, _ => [mkWireField t ("/" +:+ a) [default "" name]]
  | None, Some n => [mkWireField t n []]
  end.

(** The statement lines, one field 61 each *)
Definition statementFields (fields : gmap string string) : list WireField :=
  match fld fields "statementLines" with
  | Some v => map (fun line => mkWireField "61" line []) (Js.splitChar "|" v)
  | None => []
  end.

(** The field is well formed and holds no brace. *)
Definition safeField (f : WireField) : bool :=
  wellFormedField f && noBrace (wf_text f) && forallb noBrace (wf_conts f).

(** The content of block 4 *)
Definition textBlockOf (fs : list WireField) : string :=
  CRLF +:+ (Js.join CRLF (map wireLine fs) +:+ CRLF) +:+ "-".

(** The content of block 3: the fields 121 and 108 that are supplied *)
Definition block3Content (fields : gmap string string) : option string :=
  match fld fields "uetr", fld fields "mur" with
  | None, None => None
  | u, m =>
      Some (match u with Some x => "{121:" +:+ x +:+ "}" | None => "" end
            +:+ match m with Some x => "{108:" +:+ x +:+ "}" | None => "" end)
  end.

(** The supplied values of the keys are safe. *)
Definition valuesSafe (fields : gmap string string) (keys : list string) : bool :=
  forallb (fun k => match fld fields k with Some v => wireSafe v | None => true end) keys.

(** The value of the key is supplied. *)
Definition supplied (fields : gmap string string) (k : string) : bool :=
  match fld fields k with Some _ => true | None => false end.

(** The value of the key, if supplied, has at most [m] characters. *)
Definition within (fields : gmap string string) (k : string) (m : nat) : bool :=
  match fld fields k with Some v => Nat.leb (String.length v) m | None => true end.

Definition fields940 (fields : gmap string string) : list WireField :=
  optField "20" (fld fields "transactionReference")
  ++ optField "25" (fld fields "accountId")
  ++ optField "28C" (fld fields "statementNumber")
  ++ optField "60F" (fld fields "openingBalance")
  ++ statementFields fields
  ++ optField "62F" (fld fields "closingBalance")
  ++ optField "64" (fld fields "closingAvailableBalance").

Definition fields950 (fields : gmap string string) : list WireField :=
  optField "20" (fld fields "transactionReference")
  ++ optField "25" (fld fields "accountId")
  ++ optField "28C" (fld fields "statementNumber")
  ++ optField "60F" (fld fields "openingBalance")
  ++ statementFields fields
  ++ optField "62F" (fld fields "closingBalance").

(** The keys whose values the statement generators write *)
Definition keysStatement : list string :=
  [ "transactionReference"; "accountId"; "statementNumber"; "openingBalance";
    "statementLines"; "closingBalance"; "closingAvailableBalance" ].

(** What the round trip asks of the fields of a statement *)
Definition readyStatement (fields : gmap string string) : bool :=
  valuesSafe fields keysStatement
  && supplied fields "transactionReference"
  && within fields "transactionReference" 16
  && supplied fields "accountId"
  && within fields "accountId" 35
  && supplied fields "statementNumber"
  && supplied fields "openingBalance"
  && supplied fields "closingBalance".

(** The amount as [formatSwiftAmount] returns it *)
Definition formatted (toFixed2 : string -> string) (amount : string) : string :=
  Js.replaceFirst "." "," (toFixed2 amount).

(** Field 32A, when value date, currency and amount are supplied *)
Definition amountField (toFixed2 : string -> string) (fields : gmap string string)
  : list WireField :=
  match fld fields "valueDate", fld fields "currency", fld fields "amount" with
  | Some d, Some c, Some a => [mkWireField "32A" (d +:+ c +:+ formatted toFixed2 a) []]
  | _, _, _ => []
  end.

(** Field 33B, when currency and amount are supplied *)
Definition instructedField (toFixed2 : string -> string) (fields : gmap string string)
  : list WireField :=
  match fld fields "instructedCurrency", fld fields "instructedAmount" with
  | Some c, Some a => [mkWireField "33B" (c +:+ formatted toFixed2 a) []]
  | _, _ => []
  end.

(** Value date, currency and amount are supplied, the amount is a number
    whose formatted form is safe and, where [shape] asks so, the text of
    field 32A has the shape the validator tests. *)
Definition amountReady (toFixed2 : string -> string) (fields : gmap string string)
    (shape : bool) : bool :=
  match fld fields "valueDate", fld fields "currency", fld fields "amount" with
  | Some d, Some c, Some a =>
      negb (parseFloatIsNaN a)
      && wireSafe (formatted toFixed2 a)
      && (negb shape
          || matchesAmount (Js.removeWhiteSpace (d +:+ c +:+ formatted toFixed2 a)))
  | _, _, _ => false
  end.

(** The instructed amount, if it is written, is a number whose formatted form
    is safe. *)
Definition instructedReady (toFixed2 : string -> string) (fields : gmap string string)
  : bool :=
  match fld fields "instructedCurrency", fld fields "instructedAmount" with
  | Some _, Some a => negb (parseFloatIsNaN a) && wireSafe (formatted toFixed2 a)
  | _, _ => true
  end.

(** The name, where it stands on a line of its own behind the account, is a
    continuation line. *)
Definition nameLine (fields : gmap string string) (accountKey nameKey : string) : bool :=
  match fld fields accountKey, fld fields nameKey with
  | Some _, Some n => contentLine n
  | _, _ => true
  end.

Definition fields202 (toFixed2 : string -> string) (fields : gmap string string)
  : list WireField :=
  optField "20" (fld fields "transactionReference")
  ++ optField "21" (fld fields "relatedReference")
  ++ amountField toFixed2 fields
  ++ optField "52A" (fld fields "orderingInstitution")
  ++ optField "53A" (fld fields "sendersCorrespondent")
  ++ optField "54A" (fld fields "receiversCorrespondent")
  ++ optField "56A" (fld fields "intermediary")
  ++ optField "57A" (fld fields "accountWithInstitution")
  ++ optField "58A" (fld fields "beneficiaryInstitution")
  ++ optField "72" (fld fields "senderToReceiverInfo").

Definition keys202 : list string :=
  [ "transactionReference"; "relatedReference"; "valueDate"; "currency";
    "orderingInstitution"; "sendersCorrespondent"; "receiversCorrespondent";
    "intermediary"; "accountWithInstitution"; "beneficiaryInstitution";
    "senderToReceiverInfo" ].

(** What the round trip asks of the fields of an MT202 *)
Definition ready202 (toFixed2 : string -> string) (fields : gmap string string) : bool :=
  valuesSafe fields keys202
  && supplied fields "transactionReference"
  && within fields "transactionReference" 16
  && supplied fields "relatedReference"
  && within fields "relatedReference" 16
  && amountReady toFixed2 fields false
  && supplied fields "beneficiaryInstitution"
  && within fields "senderToReceiverInfo" 210.

(** The operation code and the charge code the MT103 generator writes *)
Definition opCodeOf (fields : gmap string string) : string :=
  default "CRED" (fld fields "bankOperationCode").

Definition chargesOf (fields : gmap string string) : string :=
  default "SHA" (fld fields "charges").

Definition fields103 (toFixed2 : string -> string) (fields : gmap string string)
  : list WireField :=
  optField "20" (fld fields "senderReference")
  ++ [mkWireField "23B" (opCodeOf fields) []]
  ++ amountField toFixed2 fields
  ++ instructedField toFixed2 fields
  ++ partyField "50K" (fld fields "orderingCustomerAccount")
                      (fld fields "orderingCustomerName")
  ++ optField "52A" (fld fields "orderingInstitution")
  ++ optField "53A" (fld fields "sendersCorrespondent")
  ++ optField "54A" (fld fields "receiversCorrespondent")
  ++ optField "56A" (fld fields "intermediaryInstitution")
  ++ optField "57A" (fld fields "accountWithInstitution")
  ++ partyField "59" (fld fields "beneficiaryAccount") (fld fields "beneficiaryName")
  ++ optField "70" (fld fields "remittanceInfo")
  ++ [mkWireField "71A" (chargesOf fields) []]
  ++ optField "72" (fld fields "senderToReceiverInfo").

Definition keys103 : list string :=
  [ "senderReference"; "bankOperationCode"; "valueDate"; "currency";
    "instructedCurrency"; "orderingCustomerAccount"; "orderingCustomerName";
    "orderingInstitution"; "sendersCorrespondent"; "receiversCorrespondent";
    "intermediaryInstitution"; "accountWithInstitution"; "beneficiaryAccount";
    "beneficiaryName"; "remittanceInfo"; "senderToReceiverInfo" ].

(** What the round trip asks of the fields of an MT103 *)
Definition ready103 (toFixed2 : string -> string) (fields : gmap string string) : bool :=
  valuesSafe fields keys103
  && supplied fields "senderReference"
  && within fields "senderReference" 16
  && truthyIn BANK_OPERATION_CODES (opCodeOf fields)
  && amountReady toFixed2 fields true
  && instructedReady toFixed2 fields
  && (supplied fields "beneficiaryAccount" || supplied fields "beneficiaryName")
  && nameLine fields "orderingCustomerAccount" "orderingCustomerName"
  && nameLine fields "beneficiaryAccount" "beneficiaryName"
  && within fields "remittanceInfo" 140
  && isChargeCode (Some (chargesOf fields))
  && within fields "senderToReceiverInfo" 210.

(** What the round trip asks of an input: valid identifiers, safe values in
    block 3 and the fields of its type ready. *)
Definition roundTripReady (toFixed2 : string -> string) (input : MtMessageInput) : bool :=
  bic_valid (validateBic (senderBic input))
  && bic_valid (validateBic (receiverBic input))
  && valuesSafe (fields input) ["uetr"; "mur"]
  && (let type := Js.replaceFirst "MT" "" (in_messageType input) in
      if String.eqb type "103" then ready103 toFixed2 (fields input)
      else if String.eqb type "202" then ready202 toFixed2 (fields input)
      else if String.eqb type "940" then readyStatement (fields input)
      else if String.eqb type "950" then readyStatement (fields input)
      else false).

(** A fully populated MT103 input *)
Definition sampleInput103 : MtMessageInput :=
  {| in_messageType := "MT103";
     senderBic := "DEUTDEFF";
     receiverBic := "CHASUS33XXX";
     fields :=
       {[ "senderReference" := "REFERENCE123";
          "bankOperationCode" := "CRED";
          "valueDate" := "240315";
          "currency" := "USD";
          "amount" := "1000";
          "orderingCustomerAccount" := "12345678";
          "orderingCustomerName" := "JOHN DOE";
          "beneficiaryAccount" := "98765432";
          "beneficiaryName" := "JANE SMITH";
          "remittanceInfo" := "INVOICE 42";
          "charges" := "SHA" ]} |}.

(** An MT940 input that supplies every mandatory value, with a transaction
    reference of seventeen characters *)
Definition inputLongReference : MtMessageInput :=
  {| in_messageType := "MT940";
     senderBic := "DEUTDEFF";
     receiverBic := "CHASUS33XXX";
     fields :=
       {[ "transactionReference" := "12345678901234567";
          "accountId" := "12345678";
          "statementNumber" := "1/1";
          "openingBalance" := "C240101USD1000,00";
          "closingBalance" := "C240101USD1500,00" ]} |}.

(** The values the generator writes a mandatory field from are supplied:
    value date, currency and amount together for field 32A, the account or
    the name for the beneficiary; fields 23B and 71A have a default. *)
Definition suppliedFor (type tag : string) (fields : gmap string string) : bool :=
  if String.eqb type "103" then
    if String.eqb tag "20" then supplied fields "senderReference"
    else if String.eqb tag "23B" then true
    else if String.eqb tag "32A" then
      supplied fields "valueDate" && supplied fields "currency"
      && supplied fields "amount"
    else if String.eqb tag "59" then
      supplied fields "beneficiaryAccount" || supplied fields "beneficiaryName"
    else if String.eqb tag "71A" then true
    else false
  else if String.eqb type "202" then
    if String.eqb tag "20" then supplied fields "transactionReference"
    else if String.eqb tag "21" then supplied fields "relatedReference"
    else if String.eqb tag "32A" then
      supplied fields "valueDate" && supplied fields "currency"
      && supplied fields "amount"
    else if String.eqb tag "58A" then supplied fields "beneficiaryInstitution"
    else false
  else
    if String.eqb tag "20" then supplied fields "transactionReference"
    else if String.eqb tag "25" then supplied fields "accountId"
    else if String.eqb tag "28C" then supplied fields "statementNumber"
    else if String.eqb tag "60F" then supplied fields "openingBalance"
    else if String.eqb tag "62F" then supplied fields "closingBalance"
    else false.

(** An input whose type is spelled without [MT], whose operation code is the
    name of a member every object inherits, and which supplies neither the
    sender's reference nor value date, currency and amount *)
Definition inputInheritedCode : MtMessageInput :=
  {| in_messageType := "103";
     senderBic := "DEUTDEFF";
     receiverBic := "CHASUS33XXX";
     fields := {[ "bankOperationCode" := "constructor";
                  "beneficiaryName" := "NAME" ]} |}.

(** * Further functions *)

(** ** The other functions of [utils/bicValidator.ts] *)

(** [parseBic] *)
Definition parseBic (b : string) : BicComponents :=
  let normalized := normalizeBic b in
  {| institutionCode := Js.slice 0 4 normalized;
     countryCode := Js.slice 4 6 normalized;
     locationCode := Js.slice 6 8 normalized;
     branchCode := if Nat.eqb (String.length normalized) 11
                   then Js.slice 8 11 normalized else "XXX" |}.

(** [getHeadOfficeBic] *)
Definition getHeadOfficeBic (b : string) : string :=
  let normalized := normalizeBic b in
  if Nat.eqb (String.length normalized) 11 then Js.slice 0 8 normalized +:+ "XXX"
  else if Nat.eqb (String.length normalized) 8 then normalized +:+ "XXX"
  else normalized.


(** [getCountryFromBic]. The key read in [COUNTRY_CODES] has two characters,
    so it names no member of [Object.prototype]: the result is the own
    property or [undefined]. *)
Definition getCountryFromBic (b : string) : option string :=
  let normalized := normalizeBic b in
  if Nat.leb 6 (String.length normalized)
  then COUNTRY_CODES !! Js.slice 4 6 normalized
  else None.

(** A character that [normalizeBic] leaves as it is *)
Definition normalChar (c : ascii) : bool :=
  negb (Char.isWhiteSpace c) && String.eqb (Char.toUpper c) (String c "").

(** ** The accessors of [utils/mtParser.ts] *)

(** What [o[k]] gives for an object literal [o]: an own property or, for the
    names of [Object.prototype], the inherited member. *)
Inductive Member : Type :=
  | Own (v : FieldValue)
  | Inherited (name : string).

(** [getFieldValue]: [parsed.textBlock[tag]] *)
Definition getFieldValue (parsed : ParsedMtMessage) (t : string) : option Member :=
  match Obj.get t (textBlock parsed) with
  | Some v => Some (Own v)
  | None => if bool_decide (t ∈ objectPrototypeKeys) then Some (Inherited t) else None
  end.

(** [getMessageType] *)
Definition getMessageType (parsed : ParsedMtMessage) : string := messageType parsed.

(** [isMessageType] *)
Definition isMessageType (parsed : ParsedMtMessage) (type : string) : bool :=
  let normalizedType := Js.replaceFirst "MT" "" (Js.toUpperCase type) in
  let messageType := Js.replaceFirst "MT" "" (messageType parsed) in
  String.eqb messageType normalizedType.

(** The fields the generator writes for a message type *)
Definition fieldsOf (toFixed2 : string -> string) (type : string)
    (fields : gmap string string) : list WireField :=
  if String.eqb type "103" then fields103 toFixed2 fields
  else if String.eqb type "202" then fields202 toFixed2 fields
  else if String.eqb type "940" then fields940 fields
  else if String.eqb type "950" then fields950 fields
  else [].

(** The logical terminal address the generator writes for an identifier *)
Definition terminalOf (b : string) : string := normalizeBicTo12 (normalizeBic b).

(** What the decoder makes of a party field (50K, 59) the generator wrote
    from an account and a name: two lines when there is an account, the name
    alone otherwise *)
Definition decodedParty (account name : option string) : option Member :=
  match account, name with
  | Some a, _ => Some (Own (Lines ["/" +:+ a; default "" name]))
  | None, Some n => Some (Own (Scalar n))
  | None, None => None
  end.

(** A statement input with a user header and two statement lines *)
Definition sampleInput940 : MtMessageInput :=
  {| in_messageType := "MT940";
     senderBic := "deutdeff";
     receiverBic := "CHAS US33 XXX";
     fields :=
       {[ "uetr" := "eb6305c9-1f7f-49de-aed0-16487c27b42d";
          "mur" := "MUR0001";
          "transactionReference" := "STMT123";
          "accountId" := "12345678";
          "statementNumber" := "1/1";
          "openingBalance" := "C240101USD1000,00";
          "statementLines" := "240102C500,00NTRFREF1|240103D100,00NTRFREF2";
          "closingBalance" := "C240103USD1400,00" ]} |}.

(** An MT202 input *)
Definition sampleInput202 : MtMessageInput :=
  {| in_messageType := "202";
     senderBic := "DEUTDEFF";
     receiverBic := "CHASUS33";
     fields :=
       {[ "transactionReference" := "TRN202";
          "relatedReference" := "REL202";
          "valueDate" := "240315";
          "currency" := "EUR";
          "amount" := "250000";
          "beneficiaryInstitution" := "BNPAFRPP" ]} |}.

(** The text holds no line feed. *)
Definition noLineFeed (s : string) : bool :=
  Js.all (fun c => negb (Ascii.eqb c Char.LF)) s.

(** An input whose values stand under the tags of the fields, as the generate
    operation of the node builds it for an MT103 *)
Definition inputUnderTags : MtMessageInput :=
  {| in_messageType := "MT103";
     senderBic := "DEUTDEFF";
     receiverBic := "CHASUS33";
     fields :=
       {[ "20" := "REFERENCE123";
          "32A" := "240315USD1000,00";
          "23B" := "CRED";
          "50K" := "JOHN DOE";
          "59" := "JANE SMITH";
          "71A" := "SHA" ]} |}.

(** ** References ([utils/mtGenerator.ts]) *)

(** [s.padEnd(n, fill)] for a filler of one character *)
Definition padEnd (n : nat) (fill : ascii) (s : string) : string :=
  s +:+ string_of_list_ascii (repeat fill (n - String.length s)).

(** [generateMessageReference]. The clock and the random number generator are
    outside the function: [timestamp] stands for
    [Date.now().toString(36).toUpperCase()] and [random] for
    [Math.random().toString(36).substring(2, 8).toUpperCase()]. *)
Definition generateMessageReference (timestamp random : string)
    (prefix : option string) : string :=
  let ref := default "" prefix +:+ timestamp +:+ random in
  padEnd 16 "0" (Js.slice 0 16 ref).

(** [v.toString(16)] for an integer that is not negative *)
Definition toString16 (v : N) : string :=
  HexadecimalString.NilZero.string_of_uint (N.to_hex_uint v).

(** The callback of [generateUetr] on one character of the template, with
    [r] for [(Math.random() * 16) | 0] *)
Definition uetrDigit (c : ascii) (r : N) : string :=
  let v := if Ascii.eqb c "x" then r else N.lor (N.land r 3) 8 in
  toString16 v.

(** [template.replace(/[xy]/g, callback)]: the callback draws once for each
    [x] and [y], from left to right; [draw i] is the value of draw [i]. *)
Fixpoint fillTemplate (draw : nat -> N) (i : nat) (template : string) : string :=
  match template with
  | "" => ""
  | String c rest =>
      if Ascii.eqb c "x" || Ascii.eqb c "y"
      then uetrDigit c (draw i) +:+ fillTemplate draw (S i) rest
      else String c (fillTemplate draw i rest)
  end.

(** [generateUetr] *)
Definition generateUetr (draw : nat -> N) : string :=
  fillTemplate draw 0 "xxxxxxxx-xxxx-4xxx-yxxx-xxxxxxxxxxxx".

(** [[0-9a-f]] *)
Definition isHexDigit (c : ascii) : bool :=
  Char.isDigit c || ((97 <=? Char.code c)%N && (Char.code c <=? 102)%N).

(** The shape of a UUID of version 4: 8, 4, 4, 4 and 12 hexadecimal digits
    between hyphens, the third group beginning with 4 and the fourth with 8,
    9, a or b *)
Definition isUuid4 (s : string) : bool :=
  let hyphen := fun c => Ascii.eqb c "-" in
  let variant := fun c => Ascii.eqb c "8" || Ascii.eqb c "9"
                          || Ascii.eqb c "a" || Ascii.eqb c "b" in
  match exactly 8 isHexDigit s with
  | Some s1 =>
    match exactly 1 hyphen s1 with
    | Some s2 =>
      match exactly 4 isHexDigit s2 with
      | Some s3 =>
        match exactly 1 hyphen s3 with
        | Some s4 =>
          match exactly 1 (fun c => Ascii.eqb c "4") s4 with
          | Some s5 =>
            match exactly 3 isHexDigit s5 with
            | Some s6 =>
              match exactly 1 hyphen s6 with
              | Some s7 =>
                match exactly 1 variant s7 with
                | Some s8 =>
                  match exactly 3 isHexDigit s8 with
                  | Some s9 =>
                    match exactly 1 hyphen s9 with
                    | Some s10 =>
                      match exactly 12 isHexDigit s10 with
                      | Some "" => true
                      | _ => false
                      end
                    | None => false
                    end
                  | None => false
                  end
                | None => false
                end
              | None => false
              end
            | None => false
            end
          | None => false
          end
        | None => false
        end
      | None => false
      end
    | None => false
    end
  | None => false
  end.

(** ** The directory of identifiers ([data/bicDirectory.ts]) *)







(** A statement whose opening balance is no balance *)
Definition sampleStatementRaw : string :=
  Js.join LFs
    [ "{1:F01TESTXXXX0000000000}{2:I940TESTXXXXXXXXN}{4:";
      ":20:STMT1"; ":25:ACC"; ":28C:1/1"; ":60F:not a balance";
      ":62F:C240101USD1,00"; "-}" ].

(** An MT103 that names its beneficiary under 59A *)
Definition sampleBeneficiary59A : string :=
  Js.join LFs
    [ "{1:F01TESTXXXX0000000000}{2:I103TESTXXXXXXXXN}{4:";
      ":20:REF"; ":23B:CRED"; ":32A:240315 USD 1000,00"; ":59A:DEUTDEFF";
      ":71A:SHA"; "-}" ].

(** A block as it stands in a message: the text in front of it, its digit
    and its content *)
Record PlacedBlock : Type := mkPlacedBlock {
  pb_before : string;
  pb_digit : ascii;
  pb_content : string }.

(** The message made of a run of blocks and the text behind the last *)
Definition blocksText (bs : list PlacedBlock) (tail : string) : string :=
  fold_right (fun b acc => pb_before b +:+ wireBlock (pb_digit b) (pb_content b) +:+ acc)
             tail bs.

(** The block pattern reads the content up to the closing brace, no
    text is in front of the block but text without braces, and the block
    number is a digit. *)
Definition placedBlockOk (b : PlacedBlock) : bool :=
  noBrace (pb_before b) && Char.isDigit (pb_digit b)
  && bool_decide (scanBlockBody false (pb_content b +:+ "}") = Some (pb_content b, "")).

Definition blockAssignments (bs : list PlacedBlock) : list (string * string) :=
  map (fun b => (String (pb_digit b) "", pb_content b)) bs.

(** Two blocks 4 on lines of their own, the first with a nested pair *)
Definition sampleBlocks : list PlacedBlock :=
  [ mkPlacedBlock "" "1" "F01TESTXXXX0000000000";
    mkPlacedBlock LFs "4" "{a:1}first";
    mkPlacedBlock LFs "4" "second" ].

(** * Properties *)

(** ** The exception monad *)

Lemma bind_Ok {A B} (a : A) (f : A -> Exc B) : (Ok a ≫= f) = f a.
Proof. reflexivity. Qed.

Lemma bind_Throw {A B} (e : JsError) (f : A -> Exc B) : (Throw e ≫= f) = Throw e.
Proof. reflexivity. Qed.

Lemma bind_Ok_inv {A B} (m : Exc A) (f : A -> Exc B) (b : B) :
  (m ≫= f) = Ok b -> exists a, m = Ok a /\ f a = Ok b.
Proof. destruct m as [a|e]; [eauto | discriminate]. Qed.

(** ** Objects: reading after writing *)

Module ObjFacts.
Import Obj.

Section Facts.
Context {V : Type}.
Implicit Types (o : JsObject V) (k : string) (v : V).

Lemma has_get k o : has k o = true <-> exists v, get k o = Some v.
Proof.
  unfold has. destruct (get k o); split; eauto; try discriminate.
  intros [v Hv]; discriminate.
Qed.

Lemma has_false k o : has k o = false <-> get k o = None.
Proof. unfold has. destruct (get k o); split; congruence. Qed.

Lemma get_update k k' v o :
  get k (update k' v o) =
  if String.eqb k k' then (if has k' o then Some v else None) else get k o.
Proof.
  induction o as [|[k0 v0] o IH]; simpl.
  - unfold has; simpl. by destruct (String.eqb k k').
  - unfold has in *; simpl.
    destruct (String.eqb k' k0) eqn:E0; simpl.
    + apply String.eqb_eq in E0; subst k0.
      destruct (String.eqb k k') eqn:E; [done|done].
    + destruct (String.eqb k k0) eqn:E1.
      * apply String.eqb_eq in E1; subst k0.
        rewrite String.eqb_sym in E0. by rewrite E0.
      * rewrite IH. done.
Qed.

Lemma get_insertIndex k k' n v o :
  get k' o = None ->
  get k (insertIndex n k' v o) = if String.eqb k k' then Some v else get k o.
Proof.
  induction o as [|[k0 v0] o IH]; simpl.
  - by destruct (String.eqb k k').
  - destruct (String.eqb k' k0) eqn:E0; [discriminate|]. intros Hk'.
    destruct (arrayIndex k0) as [n'|]; [destruct (n <? n')%N|]; simpl.
    + by destruct (String.eqb k k').
    + rewrite (IH Hk').
      destruct (String.eqb k k0) eqn:E1; [|done].
      apply String.eqb_eq in E1; subst k0.
      rewrite String.eqb_sym in E0. by rewrite E0.
    + by destruct (String.eqb k k').
Qed.

Lemma get_app k o o' :
  get k (o ++ o') = match get k o with Some v => Some v | None => get k o' end.
Proof.
  induction o as [|[k0 v0] o IH]; simpl; [done|].
  by destruct (String.eqb k k0).
Qed.

(** Reading [o[k]] after [o[k'] = v] *)
Lemma get_set k k' v o :
  get k (set k' v o) = if String.eqb k k' then Some v else get k o.
Proof.
  unfold set. destruct (has k' o) eqn:H.
  - rewrite get_update, H. done.
  - apply has_false in H. destruct (arrayIndex k') as [n|].
    + by apply get_insertIndex.
    + rewrite get_app. simpl.
      destruct (String.eqb k k') eqn:E.
      * apply String.eqb_eq in E; subst. by rewrite H.
      * by destruct (get k o).
Qed.

Lemma get_set_eq k v o : get k (set k v o) = Some v.
Proof. by rewrite get_set, String.eqb_refl. Qed.

Lemma get_set_ne k k' v o : k <> k' -> get k (set k' v o) = get k o.
Proof. intros H. rewrite get_set. apply String.eqb_neq in H. by rewrite H. Qed.

Lemma get_remove k k' o :
  get k (remove k' o) = if String.eqb k k' then None else get k o.
Proof.
  unfold remove. induction o as [|[k0 v0] o IH]; simpl.
  - by destruct (String.eqb k k').
  - destruct (String.eqb k' k0) eqn:E0; simpl.
    + apply String.eqb_eq in E0; subst k0. rewrite IH.
      by destruct (String.eqb k k').
    + rewrite IH. destruct (String.eqb k k0) eqn:E1; [|done].
      apply String.eqb_eq in E1; subst k0.
      rewrite String.eqb_sym in E0. by rewrite E0.
Qed.

Lemma get_In k v o : get k o = Some v -> In (k, v) o.
Proof.
  induction o as [|[k0 v0] o IH]; simpl; [discriminate|].
  destruct (String.eqb k k0) eqn:E.
  - apply String.eqb_eq in E; subst. intros [= ->]. by left.
  - intros H. right. auto.
Qed.

Lemma In_get k v o : In (k, v) o -> exists v', get k o = Some v'.
Proof.
  induction o as [|[k0 v0] o IH]; simpl; [done|].
  intros [[= -> ->]|H].
  - rewrite String.eqb_refl. eauto.
  - destruct (String.eqb k k0); eauto.
Qed.

End Facts.
End ObjFacts.

(** ** The tokenizer, line by line *)

Lemma matchTagLine_nonEmpty line t rest :
  matchTagLine line = Some (t, rest) -> Js.nonEmpty t = true.
Proof.
  unfold matchTagLine.
  destruct line as [|c0 [|d1 [|d2 [|c r]]]]; try discriminate.
  destruct (Ascii.eqb c0 ":" && Char.isDigit d1 && Char.isDigit d2); [|discriminate].
  destruct (Char.isUpper c).
  - destruct r as [|c1 v]; [discriminate|].
    destruct (Ascii.eqb c1 ":"); [|discriminate].
    destruct (restOfLine v); simpl; [|discriminate]. by intros [= <- _].
  - destruct (Ascii.eqb c ":"); [|discriminate].
    destruct (restOfLine r); simpl; [|discriminate]. by intros [= <- _].
Qed.

Lemma fold_tokenStep_get t lines st :
  Obj.get t (saveField (fold_left tokenStep lines st)) =
  match lastOccurrence t lines with
  | Some v => Some (fieldValueOf v)
  | None =>
      if Js.nonEmpty (currentTag st) && String.eqb t (currentTag st)
      then Some (fieldValueOf (currentLines st ++ continuation lines))
      else Obj.get t (tk_fields st)
  end.
Proof.
  revert st. induction lines as [|l ls IH]; intros st; simpl.
  - rewrite app_nil_r. unfold saveField.
    destruct (Js.nonEmpty (currentTag st)); simpl; [|done].
    by rewrite ObjFacts.get_set.
  - rewrite IH. unfold tokenStep.
    destruct (lastOccurrence t ls) as [v|]; [done|].
    destruct (matchTagLine l) as [[t' rest]|] eqn:Hl; simpl.
    + rewrite (matchTagLine_nonEmpty _ _ _ Hl); simpl.
      destruct (String.eqb t t') eqn:Ett; [done|].
      rewrite app_nil_r. unfold saveField.
      destruct (Js.nonEmpty (currentTag st)); simpl; [|done].
      by rewrite ObjFacts.get_set.
    + destruct (Js.nonEmpty (currentTag st)) eqn:Hct; simpl.
      * destruct (String.eqb l "-") eqn:Hd; simpl; rewrite Hct; simpl; [done|].
        by rewrite <- app_assoc.
      * rewrite Hct. done.
Qed.

(** The tokenizer maps every tag to the value lines of its last occurrence. *)
Lemma tokenize_get t lines :
  Obj.get t (tokenize lines) = fieldValueOf <$> lastOccurrence t lines.
Proof.
  unfold tokenize. rewrite fold_tokenStep_get. simpl.
  by destruct (lastOccurrence t lines).
Qed.

Lemma firstLine_fieldValueOf ls : exists s, firstLine (fieldValueOf ls) = Some s.
Proof.
  unfold fieldValueOf. destruct ls as [|a [|b ls]]; simpl; eauto.
Qed.

Lemma tokenize_noEmptyLines lines : noEmptyLines (tokenize lines).
Proof.
  intros t v. rewrite tokenize_get.
  destruct (lastOccurrence t lines); simpl; [|discriminate].
  intros [= <-]. apply firstLine_fieldValueOf.
Qed.

Lemma parse_noEmptyLines raw : noEmptyLines (textBlock (parseMtMessage raw)).
Proof.
  unfold parseMtMessage; simpl.
  destruct (getTruthy "4" _).
  - apply tokenize_noEmptyLines.
  - intros t v; discriminate.
Qed.

(** ** The validator returns *)

Lemma present_get t o :
  present t o = true -> exists v, Obj.get t o = Some v.
Proof. unfold present. destruct (Obj.get t o); [eauto | discriminate]. Qed.

Lemma stripped_present t o :
  noEmptyLines o -> present t o = true ->
  exists s, Obj.get t o ≫= firstLine = Some s
            /\ stripped (Obj.get t o ≫= firstLine) = Ok (Js.removeWhiteSpace s).
Proof.
  intros Hwf Hp. destruct (present_get _ _ Hp) as [v Hv].
  destruct (Hwf _ _ Hv) as [s Hs]. exists s. rewrite Hv; simpl. by rewrite Hs.
Qed.

Lemma validateMt103Specifics_returns p acc :
  noEmptyLines (textBlock p) -> exists acc', validateMt103Specifics p acc = Ok acc'.
Proof.
  intros Hwf. unfold validateMt103Specifics.
  destruct (present "32A" (textBlock p)) eqn:H32.
  - destruct (stripped_present _ _ Hwf H32) as (s & _ & ->). rewrite bind_Ok.
    destruct (negb (matchesAmount _)); rewrite bind_Ok; eauto.
  - rewrite bind_Ok; eauto.
Qed.

Lemma balanceStep_returns o acc t :
  noEmptyLines o -> exists acc', balanceStep o (Ok acc) t = Ok acc'.
Proof.
  intros Hwf. unfold balanceStep. rewrite bind_Ok.
  destruct (present t o) eqn:Hp; [|eauto].
  destruct (stripped_present _ _ Hwf Hp) as (s & _ & ->). rewrite bind_Ok.
  destruct (negb (matchesBalance _)); eauto.
Qed.

Lemma balance_fold_returns o ts acc :
  noEmptyLines o -> exists acc', fold_left (balanceStep o) ts (Ok acc) = Ok acc'.
Proof.
  intros Hwf. revert acc. induction ts as [|t ts IH]; intros acc; cbn [fold_left]; [eauto|].
  destruct (balanceStep_returns o acc t Hwf) as [acc' ->]. apply IH.
Qed.

Lemma validateStatementSpecifics_returns p acc :
  noEmptyLines (textBlock p) -> exists acc', validateStatementSpecifics p acc = Ok acc'.
Proof. intros Hwf. unfold validateStatementSpecifics. by apply balance_fold_returns. Qed.

(** On a record without empty arrays the validator returns a result. *)
Lemma validate_returns p :
  noEmptyLines (textBlock p) -> exists r, validateMtMessage (inr p) = Ok r.
Proof.
  intros Hwf. unfold validateMtMessage.
  destruct (MT_SPECS !! _) as [spec|]; [|eauto].
  set (acc2 := formatChecks _ _ _).
  destruct (String.eqb _ "103").
  - destruct (validateMt103Specifics_returns p acc2 Hwf) as [acc' ->].
    rewrite bind_Ok; eauto.
  - destruct (_ || _).
    + destruct (validateStatementSpecifics_returns p acc2 Hwf) as [acc' ->].
      rewrite bind_Ok; eauto.
    + rewrite bind_Ok; eauto.
Qed.

Lemma validate_string raw :
  validateMtMessage (inl raw) = validateMtMessage (inr (parseMtMessage raw)).
Proof. reflexivity. Qed.

Lemma length_zero_nil {A} (l : list A) : Nat.eqb (length l) 0 = true <-> l = [].
Proof. destruct l; simpl; split; congruence. Qed.

Lemma valid_iff_errors_nil input r :
  validateMtMessage input = Ok r -> (valid r = true <-> errors r = []).
Proof.
  unfold validateMtMessage.
  destruct (MT_SPECS !! _) as [spec|].
  - intros H. apply bind_Ok_inv in H as (acc3 & _ & [= <-]); simpl.
    apply length_zero_nil.
  - intros [= <-]; simpl. split; discriminate.
Qed.

(** ** The registry *)

Lemma MT_SPECS_unregistered k : ~ In k registeredTypes -> MT_SPECS !! k = None.
Proof.
  intros H. unfold MT_SPECS; simpl.
  rewrite !lookup_insert_ne; [apply lookup_empty|..];
    intros <-; apply H; simpl; tauto.
Qed.

Lemma MT_SPECS_registered k spec :
  MT_SPECS !! k = Some spec ->
  (k = "MT103" /\ spec = MT103_SPEC) \/ (k = "MT202" /\ spec = MT202_SPEC)
  \/ (k = "MT940" /\ spec = MT940_SPEC) \/ (k = "MT950" /\ spec = MT950_SPEC).
Proof.
  unfold MT_SPECS; simpl.
  rewrite !lookup_insert. repeat case_decide; subst; try (intros [= <-]; tauto).
  all: rewrite lookup_empty; discriminate.
Qed.

Lemma replaceFirst_MT x : Js.replaceFirst "MT" "" ("MT" +:+ x) = x.
Proof. by destruct x. Qed.

(** The decoder writes the message type as [MT] and three characters of
    block 2, or leaves it empty. *)
Lemma parse_messageType raw :
  messageType (parseMtMessage raw) = ""
  \/ exists x, messageType (parseMtMessage raw) = "MT" +:+ x.
Proof.
  unfold parseMtMessage; simpl.
  destruct (getTruthy "2" _) as [b|]; [|by left].
  unfold parseApplicationHeader.
  destruct (negb (Js.nonEmpty b)); [by left|].
  destruct (String.eqb _ "I"); [right; simpl; eauto|].
  destruct (String.eqb _ "O"); [right; simpl; eauto|by left].
Qed.

Lemma parse_type_key raw :
  "MT" +:+ Js.replaceFirst "MT" "" (messageType (parseMtMessage raw)) =
  if Js.nonEmpty (messageType (parseMtMessage raw))
  then messageType (parseMtMessage raw) else "MT".
Proof.
  destruct (parse_messageType raw) as [->|[x ->]]; [done|].
  by rewrite replaceFirst_MT.
Qed.

(** ** Decoding and validating never raise *)

(** C3. For every input string the decoder returns a record and the validator
    returns a result, none of them raising: the validator's result on a raw
    message is [Ok], its [valid] flag is set exactly when its error list is
    empty, and in the record every header whose block is missing (or empty)
    is the empty structure the decoder starts from. *)
Theorem decode_and_validate_never_raise (raw : string) :
  (exists r, validateMtMessage (inl raw) = Ok r
             /\ (valid r = true <-> errors r = []))
  /\ basicHeader (parseMtMessage raw) =
       match getTruthy "1" (extractBlocks (Js.trim raw)) with
       | Some b => parseBasicHeader b
       | None => emptyBasicHeader
       end
  /\ applicationHeader (parseMtMessage raw) =
       match getTruthy "2" (extractBlocks (Js.trim raw)) with
       | Some b => parseApplicationHeader b
       | None => emptyApplicationHeader
       end
  /\ messageType (parseMtMessage raw) =
       match getTruthy "2" (extractBlocks (Js.trim raw)) with
       | Some b => ah_messageType (parseApplicationHeader b)
       | None => ""
       end
  /\ userHeader (parseMtMessage raw) =
       parseUserHeader <$> getTruthy "3" (extractBlocks (Js.trim raw))
  /\ textBlock (parseMtMessage raw) =
       match getTruthy "4" (extractBlocks (Js.trim raw)) with
       | Some b => parseTextBlock b
       | None => []
       end
  /\ trailers (parseMtMessage raw) =
       parseTrailers <$> getTruthy "5" (extractBlocks (Js.trim raw)).
Proof.
  split.
  2:{ unfold parseMtMessage; simpl.
      destruct (getTruthy "2" _); repeat (split; [reflexivity|]); reflexivity. }
  rewrite validate_string.
  destruct (validate_returns (parseMtMessage raw) (parse_noEmptyLines raw)) as [r Hr].
  exists r. split; [done|]. by apply (valid_iff_errors_nil (inr (parseMtMessage raw))).
Qed.

(** ** Unknown message type *)

(** C4. When the message type decoded from a raw message is none of the four
    registered types, the validator returns at once: [valid] is false, the
    only error is the unknown-type error and there is no warning. *)
Theorem unknown_type_short_circuits (raw : string) :
  ~ In (messageType (parseMtMessage raw)) registeredTypes ->
  validateMtMessage (inl raw) =
  Ok {| valid := false;
        res_messageType := messageType (parseMtMessage raw);
        errors := [unknownTypeError (parseMtMessage raw)];
        warnings := [];
        parsedFields := Some (textBlock (parseMtMessage raw)) |}.
Proof.
  intros Hun. unfold validateMtMessage.
  rewrite parse_type_key.
  destruct (Js.nonEmpty (messageType (parseMtMessage raw))).
  - by rewrite (MT_SPECS_unregistered _ Hun).
  - by rewrite MT_SPECS_unregistered by (simpl; intuition discriminate).
Qed.

Lemma unknown_type_short_circuits_witness :
  ~ In (messageType (parseMtMessage "{1:F01AAAABBCCXXX0000000000}{2:I999AAAABBCCXXXXN}{4:x}"))
       registeredTypes
  /\ validateMtMessage (inl "{1:F01AAAABBCCXXX0000000000}{2:I999AAAABBCCXXXXN}{4:x}") =
     Ok {| valid := false;
           res_messageType := "MT999";
           errors := [ {| field := "messageType"; code := "UNKNOWN_TYPE";
                          message := "Unknown message type: MT999";
                          value := Some "MT999" |} ];
           warnings := [];
           parsedFields := Some [] |}.
Proof.
  assert (H : ~ In (messageType (parseMtMessage
                "{1:F01AAAABBCCXXX0000000000}{2:I999AAAABBCCXXXXN}{4:x}"))
              registeredTypes).
  { vm_compute. intuition discriminate. }
  split; [exact H|].
  rewrite (unknown_type_short_circuits _ H). vm_compute. reflexivity.
Defined.

(** ** The validity flag *)

(** C9. In every result the validator returns, on the unknown-type path as on
    the full path, [valid] is true exactly when the error list is empty; the
    warnings play no part. *)
Theorem valid_iff_no_errors (input : string + ParsedMtMessage) (r : MtValidationResult) :
  validateMtMessage input = Ok r -> (valid r = true <-> errors r = []).
Proof. apply valid_iff_errors_nil. Qed.

Lemma valid_iff_no_errors_witness :
  validateMtMessage (inl "not a valid mt message") =
    Ok {| valid := false; res_messageType := "";
          errors := [ {| field := "messageType"; code := "UNKNOWN_TYPE";
                         message := "Unknown message type: ";
                         value := Some "" |} ];
          warnings := []; parsedFields := Some [] |}
  /\ (false = true <->
      [ {| field := "messageType"; code := "UNKNOWN_TYPE";
           message := "Unknown message type: "; value := Some "" |} ] = []).
Proof.
  assert (H : validateMtMessage (inl "not a valid mt message") =
    Ok {| valid := false; res_messageType := "";
          errors := [ {| field := "messageType"; code := "UNKNOWN_TYPE";
                         message := "Unknown message type: ";
                         value := Some "" |} ];
          warnings := []; parsedFields := Some [] |}).
  { vm_compute. reflexivity. }
  split; [exact H|]. exact (valid_iff_no_errors _ _ H).
Defined.

(** ** Searching with a global pattern *)

Lemma append_cons c (s w : string) : String c s +:+ w = String c (s +:+ w).
Proof. reflexivity. Qed.

Lemma append_nil_l (s : string) : "" +:+ s = s.
Proof. reflexivity. Qed.

Lemma append_nil_r (s : string) : s +:+ "" = s.
Proof. induction s as [|c s IH]; [done|]. by rewrite append_cons, IH. Qed.

Lemma append_assoc (a b c : string) : (a +:+ b) +:+ c = a +:+ (b +:+ c).
Proof. induction a as [|x a IH]; [done|]. by rewrite !append_cons, IH. Qed.

Section ExecAll.
Context {A : Type} (matchAt : string -> option (A * string)).

Lemma execAll_nil_cons c s :
  Js.execAll matchAt (String c s) = [] <->
  matchAt (String c s) = None /\ Js.execAll matchAt s = [].
Proof.
  unfold Js.execAll; simpl.
  destruct (matchAt (String c s)) as [[a rest]|]; split; try done.
  - by intros [? _].
  - by intros [_ ?].
Qed.

(** Nothing is found behind a prefix when nothing is found in the whole. *)
Lemma execAll_nil_suffix pre s :
  Js.execAll matchAt (pre +:+ s) = [] -> Js.execAll matchAt s = [].
Proof.
  induction pre as [|c pre IH]; [done|]. rewrite append_cons.
  intros H. apply execAll_nil_cons in H as [_ H]. auto.
Qed.

(** A match stays a match when text is added behind the subject. *)
Definition extends : Prop :=
  forall s a r w, matchAt s = Some (a, r) -> matchAt (s +:+ w) = Some (a, r +:+ w).

Lemma execAll_nil_prefix s w :
  extends -> Js.execAll matchAt (s +:+ w) = [] -> Js.execAll matchAt s = [].
Proof.
  intros Hext. induction s as [|c s IH]; [done|]. rewrite append_cons.
  intros H. apply execAll_nil_cons in H as [Hc H].
  apply execAll_nil_cons. split; [|auto].
  destruct (matchAt (String c s)) as [[a r]|] eqn:Hm; [|done].
  apply (Hext _ _ _ w) in Hm. rewrite append_cons in Hm. congruence.
Qed.

Lemma execAllFrom_skip p r :
  Js.execAllFrom matchAt (String.length p) (p +:+ r) = Js.execAllFrom matchAt 0 r.
Proof.
  induction p as [|c p IH]; [by destruct r|].
  rewrite append_cons. simpl. apply IH.
Qed.

End ExecAll.

Lemma length_append (a b : string) :
  String.length (a +:+ b) = String.length a + String.length b.
Proof. induction a as [|c a IH]; [done|]. rewrite append_cons. simpl. by rewrite IH. Qed.

(** After a match the search goes on behind it. *)
Lemma execAll_match {A} (matchAt : string -> option (A * string)) c p r a :
  matchAt (String c (p +:+ r)) = Some (a, r) ->
  Js.execAll matchAt (String c (p +:+ r)) = a :: Js.execAll matchAt r.
Proof.
  intros H. unfold Js.execAll. simpl. rewrite H. f_equal.
  replace (S (String.length (p +:+ r)) - String.length r - 1) with (String.length p)
    by (rewrite length_append; lia).
  apply execAllFrom_skip.
Qed.

Lemma dropWhile_suffix p s : exists pre, s = pre +:+ Js.dropWhile p s.
Proof.
  induction s as [|c s [pre IH]]; [by exists ""|]. simpl.
  destruct (p c); [|by exists ""].
  exists (String c pre). rewrite append_cons. by rewrite <- IH.
Qed.

Lemma dropWhileEnd_prefix p s : exists w, s = Js.dropWhileEnd p s +:+ w.
Proof.
  induction s as [|c s [w IH]]; [by exists ""|]. simpl.
  destruct (Js.dropWhileEnd p s) as [|c' t] eqn:E.
  - destruct (p c).
    + by exists (String c s).
    + exists w. rewrite append_cons. by rewrite <- IH.
  - exists w. rewrite append_cons. by rewrite <- IH.
Qed.

(** ** The block extractor *)

Lemma scanBlockBody_extends inner s c r w :
  scanBlockBody inner s = Some (c, r) ->
  scanBlockBody inner (s +:+ w) = Some (c, r +:+ w).
Proof.
  revert inner c r. induction s as [|x s IH]; intros inner c r; [discriminate|].
  rewrite append_cons. simpl.
  destruct (Ascii.eqb x "{"); [destruct inner; [discriminate|]|
    destruct (Ascii.eqb x "}"); [destruct inner|]].
  all: try (destruct (scanBlockBody _ s) as [[c' r']|] eqn:E; simpl; [|discriminate];
            intros [= <- <-]; by rewrite (IH _ _ _ E)).
  by intros [= <- <-].
Qed.

Lemma matchBlockAt_extends : extends matchBlockAt.
Proof.
  intros s a r w. unfold matchBlockAt.
  destruct s as [|o [|d [|c body]]]; try discriminate.
  rewrite !append_cons.
  destruct (Ascii.eqb o "{" && Char.isDigit d && Ascii.eqb c ":"); [|discriminate].
  destruct (scanBlockBody false body) as [[c' r']|] eqn:E; simpl; [|discriminate].
  intros [= <- <-]. by rewrite (scanBlockBody_extends _ _ _ _ w E).
Qed.

(** Nothing is found in the trimmed message when nothing is found in the
    message. *)
Lemma no_block_trim raw :
  Js.execAll matchBlockAt raw = [] -> Js.execAll matchBlockAt (Js.trim raw) = [].
Proof.
  intros H. unfold Js.trim.
  destruct (dropWhile_suffix Char.isWhiteSpace raw) as [pre Hpre].
  rewrite Hpre in H. apply execAll_nil_suffix in H.
  destruct (dropWhileEnd_prefix Char.isWhiteSpace (Js.dropWhile Char.isWhiteSpace raw))
    as [w Hw].
  rewrite Hw in H. by apply execAll_nil_prefix in H; [|apply matchBlockAt_extends].
Qed.

(** A message without an opening brace holds no block. *)
Lemma no_brace_no_block s :
  Js.all (fun c => negb (Ascii.eqb c "{")) s = true ->
  Js.execAll matchBlockAt s = [].
Proof.
  induction s as [|c s IH]; simpl; [done|].
  intros [Hc Hs]%andb_true_iff. apply execAll_nil_cons. split; [|auto].
  unfold matchBlockAt. destruct s as [|d [|e body]]; try done.
  apply negb_true_iff in Hc. by rewrite Hc.
Qed.

Lemma extractBlocks_fallback message :
  Js.execAll matchBlockAt message = [] -> extractBlocks message = [("4", message)].
Proof. intros H. unfold extractBlocks. by rewrite H. Qed.

Lemma parseTextBlock_empty : parseTextBlock "" = [].
Proof. reflexivity. Qed.

(** C7. When the block pattern finds nothing in the input, the extractor
    returns the whole input as block 4 and nothing else, for the input as it
    is and for the trimmed input the decoder hands over; the decoder then
    tokenizes the whole trimmed input and leaves every header empty. The
    validator does not report the missing block structure: what it returns is
    the unknown-type error alone, for the message type that was left empty. *)
Theorem fallback_treats_input_as_block4 (raw : string) :
  Js.execAll matchBlockAt raw = [] ->
  extractBlocks raw = [("4", raw)]
  /\ extractBlocks (Js.trim raw) = [("4", Js.trim raw)]
  /\ parseMtMessage raw =
       {| messageType := "";
          basicHeader := emptyBasicHeader;
          applicationHeader := emptyApplicationHeader;
          userHeader := None;
          textBlock := parseTextBlock (Js.trim raw);
          trailers := None;
          rawMessage := Js.trim raw |}
  /\ validateMtMessage (inl raw) =
       Ok {| valid := false;
             res_messageType := "";
             errors := [ {| field := "messageType"; code := "UNKNOWN_TYPE";
                            message := "Unknown message type: ";
                            value := Some "" |} ];
             warnings := [];
             parsedFields := Some (parseTextBlock (Js.trim raw)) |}.
Proof.
  intros H.
  assert (Hp : parseMtMessage raw =
       {| messageType := "";
          basicHeader := emptyBasicHeader;
          applicationHeader := emptyApplicationHeader;
          userHeader := None;
          textBlock := parseTextBlock (Js.trim raw);
          trailers := None;
          rawMessage := Js.trim raw |}).
  { unfold parseMtMessage.
    rewrite (extractBlocks_fallback _ (no_block_trim _ H)).
    unfold getTruthy; simpl.
    destruct (Js.trim raw) eqn:E; simpl; [by rewrite parseTextBlock_empty|done]. }
  split; [by apply extractBlocks_fallback|].
  split; [by apply extractBlocks_fallback, no_block_trim|].
  split; [done|].
  rewrite validate_string, Hp. reflexivity.
Qed.

Lemma fallback_treats_input_as_block4_witness :
  Js.execAll matchBlockAt ":20:REF1" = []
  /\ extractBlocks ":20:REF1" = [("4", ":20:REF1")]
  /\ textBlock (parseMtMessage ":20:REF1") = [("20", Scalar "REF1")].
Proof.
  assert (H : Js.execAll matchBlockAt ":20:REF1" = []) by reflexivity.
  destruct (fallback_treats_input_as_block4 ":20:REF1" H) as (H1 & _ & H3 & _).
  split; [exact H|]. split; [exact H1|]. rewrite H3. reflexivity.
Defined.

(** ** Lines *)

Lemma isNewline_spec c :
  Char.isNewline c = Ascii.eqb c Char.LF || Ascii.eqb c Char.CR.
Proof.
  unfold Char.isNewline, Char.code, Char.LF, Char.CR.
  destruct (Ascii.eqb_spec c (ascii_of_N 10)) as [->|H1]; [done|].
  destruct (Ascii.eqb_spec c (ascii_of_N 13)) as [->|H2]; [done|].
  destruct (N.eqb_spec (N_of_ascii c) 10) as [E|_].
  { exfalso. apply H1. by rewrite <- (ascii_N_embedding c), E. }
  destruct (N.eqb_spec (N_of_ascii c) 13) as [E|_]; [|done].
  exfalso. apply H2. by rewrite <- (ascii_N_embedding c), E.
Qed.

Lemma not_newline c :
  Char.isNewline c = false -> Ascii.eqb c Char.LF = false /\ Ascii.eqb c Char.CR = false.
Proof. rewrite isNewline_spec. by intros [? ?]%orb_false_iff. Qed.

(** A character the dot accepts is no carriage return and no line feed. *)
Lemma terminator_newline c :
  Char.isLineTerminator c = false -> Char.isNewline c = false.
Proof.
  unfold Char.isLineTerminator, Char.isNewline.
  intros [[H _]%orb_false_iff _]%orb_false_iff. exact H.
Qed.

Lemma plainLine_newlines l :
  plainLine l = true -> Js.all (fun c => negb (Char.isNewline c)) l = true.
Proof.
  induction l as [|c l IH]; [done|]. simpl.
  intros [Hc Hl]%andb_true_iff. apply negb_true_iff, terminator_newline in Hc.
  by rewrite Hc, (IH Hl).
Qed.

Lemma splitLines_cons c s :
  Char.isNewline c = false ->
  Js.splitLines (String c s) = Js.consHead c (Js.splitLines s).
Proof. intros [H1 H2]%not_newline. simpl. by rewrite H1, H2. Qed.

Lemma splitLines_plain l : plainLine l = true -> Js.splitLines l = [l].
Proof.
  induction l as [|c l IH]; [done|].
  intros [Hc Hl]%andb_true_iff. apply negb_true_iff, terminator_newline in Hc.
  by rewrite (splitLines_cons _ _ Hc), (IH Hl).
Qed.

Lemma splitLines_break sep l r :
  lineBreak sep -> plainLine l = true ->
  Js.splitLines (l +:+ sep +:+ r) = l :: Js.splitLines r.
Proof.
  intros Hsep. induction l as [|c l IH].
  - intros _. by destruct Hsep as [-> | ->].
  - intros [Hc Hl]%andb_true_iff. apply negb_true_iff, terminator_newline in Hc.
    by rewrite append_cons, (splitLines_cons _ _ Hc), (IH Hl).
Qed.

Lemma splitLines_join sep ls :
  lineBreak sep -> ls <> [] -> Forall (fun l => plainLine l = true) ls ->
  Js.splitLines (Js.join sep ls) = ls.
Proof.
  intros Hsep. induction ls as [|l ls IH]; [done|]. intros _ Hall.
  apply Forall_cons in Hall as [Hl Hls].
  destruct ls as [|l' ls]; [by apply splitLines_plain|].
  change (Js.join sep (l :: l' :: ls)) with (l +:+ sep +:+ Js.join sep (l' :: ls)).
  rewrite (splitLines_break _ _ _ Hsep Hl). f_equal. by apply IH.
Qed.

Lemma dropWhile_all p lead x :
  Js.all p lead = true -> Js.dropWhile p (lead +:+ x) = Js.dropWhile p x.
Proof.
  induction lead as [|c lead IH]; [done|].
  rewrite append_cons. simpl. intros [-> H]%andb_true_iff. auto.
Qed.

Lemma dropWhile_none p c x : p c = false -> Js.dropWhile p (String c x) = String c x.
Proof. simpl. by intros ->. Qed.

Lemma dropWhileEnd_app p a b :
  Js.dropWhileEnd p b <> "" -> Js.dropWhileEnd p (a +:+ b) = a +:+ Js.dropWhileEnd p b.
Proof.
  intros Hb. induction a as [|c a IH]; [done|].
  rewrite !append_cons. simpl. rewrite IH.
  destruct (a +:+ Js.dropWhileEnd p b) eqn:E; [|done].
  destruct a; [|discriminate]. by rewrite append_nil_l in E.
Qed.

Lemma dropWhileEnd_none p l :
  Js.all (fun c => negb (p c)) l = true -> Js.dropWhileEnd p l = l.
Proof.
  induction l as [|c l IH]; [done|]. simpl.
  intros [Hc Hl]%andb_true_iff. rewrite (IH Hl).
  apply negb_true_iff in Hc. rewrite Hc. by destruct l.
Qed.

(** The last line of a joined list ends the text. *)
Lemma join_last sep ls l :
  exists a, Js.join sep (ls ++ [l]) = a +:+ l.
Proof.
  induction ls as [|x ls [a IH]]; [by exists ""|].
  exists (x +:+ sep +:+ a).
  change ((x :: ls) ++ [l]) with (x :: (ls ++ [l])).
  destruct (ls ++ [l]) as [|y ys] eqn:E; [by destruct ls|].
  change (Js.join sep (x :: y :: ys)) with (x +:+ sep +:+ Js.join sep (y :: ys)).
  by rewrite IH, !append_assoc.
Qed.

Lemma join_first sep l ls :
  exists b, Js.join sep (l :: ls) = l +:+ b.
Proof.
  destruct ls as [|y ys]; [exists ""; by rewrite append_nil_r|].
  by exists (sep +:+ Js.join sep (y :: ys)).
Qed.

(** Leading line breaks are stripped; a text whose first and last lines are
    not empty is left as it is. *)
Lemma stripNewlines_join sep lead ls :
  Js.all Char.isNewline lead = true ->
  Forall (fun l => plainLine l = true) ls ->
  head ls <> Some "" -> last ls <> Some "" ->
  stripNewlines (lead +:+ Js.join sep ls) = Js.join sep ls.
Proof.
  intros Hlead Hall Hfirst Hlast. unfold stripNewlines.
  rewrite (dropWhile_all _ _ _ Hlead).
  destruct ls as [|l ls]; [done|].
  assert (Hdw : Js.dropWhile Char.isNewline (Js.join sep (l :: ls)) = Js.join sep (l :: ls)).
  { destruct (join_first sep l ls) as [b ->].
    destruct l as [|c l]; [done|]. rewrite append_cons.
    apply dropWhile_none. apply Forall_cons in Hall as [Hl _].
    simpl in Hl. apply andb_true_iff in Hl as [Hc _].
    by apply negb_true_iff, terminator_newline in Hc. }
  rewrite Hdw.
  destruct (exists_last (l := l :: ls)) as (ini & z & Hz); [done|]. 
  rewrite Hz in *. destruct (join_last sep ini z) as [a ->].
  rewrite last_snoc in Hlast.
  assert (Hzp : plainLine z = true).
  { rewrite Forall_app in Hall. destruct Hall as [_ Hzz]. by apply Forall_cons in Hzz as [? _]. }
  assert (Hze : Js.dropWhileEnd Char.isNewline z = z)
    by by apply dropWhileEnd_none, plainLine_newlines.
  rewrite dropWhileEnd_app; rewrite Hze; [done|]. intros ->. by apply Hlast.
Qed.

(** ** Fields of a text block *)

Lemma matchTagLine_tag t rest :
  isTag t = true -> plainLine rest = true ->
  matchTagLine (":" +:+ t +:+ ":" +:+ rest) = Some (t, rest).
Proof.
  intros Ht Hr. unfold plainLine in Hr.
  destruct t as [|d1 [|d2 [|c [|? ?]]]]; try discriminate; simpl in Ht.
  - apply andb_true_iff in Ht as [H1 H2].
    change (matchTagLine (String ":" (String d1 (String d2 (String ":" rest))))
            = Some (String d1 (String d2 ""), rest)).
    unfold matchTagLine. rewrite H1, H2. simpl. unfold restOfLine. by rewrite Hr.
  - apply andb_true_iff in Ht as [[H1 H2]%andb_true_iff H3].
    change (matchTagLine (String ":" (String d1 (String d2 (String c (String ":" rest)))))
            = Some (String d1 (String d2 (String c "")), rest)).
    unfold matchTagLine. rewrite H1, H2, H3. simpl. unfold restOfLine. by rewrite Hr.
Qed.

Lemma lastOccurrence_none t ls :
  Forall (fun l => carries t l = false) ls -> lastOccurrence t ls = None.
Proof.
  induction 1 as [|l ls Hl _ IH]; [done|]. simpl. rewrite IH.
  unfold carries in Hl. destruct (matchTagLine l) as [[t' r]|]; [|done]. by rewrite Hl.
Qed.

Lemma lastOccurrence_tail t pre post v :
  lastOccurrence t post = Some v -> lastOccurrence t (pre ++ post) = Some v.
Proof. intros H. induction pre as [|l pre IH]; [done|]. simpl. by rewrite IH. Qed.

Lemma lastOccurrence_here t rest pre line post :
  matchTagLine line = Some (t, rest) ->
  Forall (fun l => carries t l = false) post ->
  lastOccurrence t (pre ++ line :: post) = Some (openedBy rest post).
Proof.
  intros Hl Hpost. apply lastOccurrence_tail. simpl.
  by rewrite (lastOccurrence_none _ _ Hpost), Hl, String.eqb_refl.
Qed.

Lemma continuation_content conts post :
  Forall (fun l => contentLine l = true) conts ->
  continuation (conts ++ post) = conts ++ continuation post.
Proof.
  induction 1 as [|l ls Hl _ IH]; [done|]. simpl. rewrite IH.
  unfold contentLine in Hl. destruct (matchTagLine l); [by rewrite andb_false_r in Hl|].
  apply andb_true_iff in Hl as [_ Hd]. apply negb_true_iff in Hd. by rewrite Hd.
Qed.

(** ** One property for each key *)

Section Keys.
Context {V : Type}.
Implicit Types (o : Obj.JsObject V) (k : string) (v : V).

Lemma keys_update k v o : Obj.keys (Obj.update k v o) = Obj.keys o.
Proof.
  unfold Obj.keys. induction o as [|[k0 v0] o IH]; [done|]. simpl.
  destruct (String.eqb k k0); simpl; [done|]. by rewrite IH.
Qed.

Lemma keys_insertIndex n k v o :
  Permutation (Obj.keys (Obj.insertIndex n k v o)) (k :: Obj.keys o).
Proof.
  unfold Obj.keys. induction o as [|[k0 v0] o IH]; [done|]. simpl.
  destruct (Obj.arrayIndex k0) as [n'|]; [destruct (n <? n')%N|]; simpl; try done.
  rewrite IH. apply perm_swap.
Qed.

Lemma not_has_keys k o : Obj.has k o = false -> ~ In k (Obj.keys o).
Proof.
  intros H%ObjFacts.has_false Hin. unfold Obj.keys in Hin.
  apply in_map_iff in Hin as ([k' v] & <- & Hin).
  apply ObjFacts.In_get in Hin as [v' Hv']. simpl in H. congruence.
Qed.

Lemma NoDup_keys_set k v o : NoDup (Obj.keys o) -> NoDup (Obj.keys (Obj.set k v o)).
Proof.
  intros Hnd. unfold Obj.set. destruct (Obj.has k o) eqn:Hh.
  - by rewrite keys_update.
  - apply not_has_keys in Hh. destruct (Obj.arrayIndex k) as [n|].
    + rewrite keys_insertIndex. apply NoDup_cons. split; [|done].
      by rewrite list_elem_of_In.
    + unfold Obj.keys. rewrite map_app. simpl.
      apply NoDup_app. split; [done|]. split; [|apply NoDup_singleton].
      intros x Hx Hx'. apply list_elem_of_In in Hx.
      apply list_elem_of_singleton in Hx'. by subst.
Qed.

End Keys.

Lemma NoDup_keys_saveField st :
  NoDup (Obj.keys (tk_fields st)) -> NoDup (Obj.keys (saveField st)).
Proof.
  unfold saveField. destruct (Js.nonEmpty _); [apply NoDup_keys_set|done].
Qed.

Lemma NoDup_keys_fold lines st :
  NoDup (Obj.keys (tk_fields st)) ->
  NoDup (Obj.keys (tk_fields (fold_left tokenStep lines st))).
Proof.
  revert st. induction lines as [|l ls IH]; intros st Hst; [done|].
  cbn [fold_left]. apply IH. unfold tokenStep.
  destruct (matchTagLine l) as [[t r]|]; simpl.
  - by apply NoDup_keys_saveField.
  - by destruct (_ && _).
Qed.

(** The tokenizer keeps one entry for each tag. *)
Lemma NoDup_keys_tokenize lines : NoDup (Obj.keys (tokenize lines)).
Proof.
  unfold tokenize. apply NoDup_keys_saveField, NoDup_keys_fold. simpl. apply NoDup_nil_2.
Qed.

(** ** Repeated tags *)

(** C10. Where a tag line carrying [t] is followed by no other tag line that
    carries [t], the tokenizer maps [t] to the value that line opens: the rest
    of the line and its continuation lines. Whatever stands before the line,
    earlier fields of the same tag included, plays no part, and the result
    holds a single entry for each tag. The result of the tokenizer is the
    field mapping alone: nothing records that a tag came twice. *)
Theorem last_tag_line_wins (block : string) (pre post : list string)
    (line t rest : string) :
  Js.splitLines (stripNewlines block) = pre ++ line :: post ->
  matchTagLine line = Some (t, rest) ->
  Forall (fun l => carries t l = false) post ->
  Obj.get t (parseTextBlock block) = Some (fieldValueOf (openedBy rest post))
  /\ NoDup (Obj.keys (parseTextBlock block)).
Proof.
  intros Hlines Hline Hpost. unfold parseTextBlock. split.
  - by rewrite tokenize_get, Hlines, (lastOccurrence_here _ _ _ _ _ Hline Hpost).
  - apply NoDup_keys_tokenize.
Qed.

Lemma last_tag_line_wins_witness :
  Js.splitLines (stripNewlines
     (Js.join LFs [":20:FIRST"; "LOST"; ":21:X"; ":20:SECOND"; "MORE"; "-"]))
    = [":20:FIRST"; "LOST"; ":21:X"] ++ ":20:SECOND" :: ["MORE"; "-"]
  /\ matchTagLine ":20:SECOND" = Some ("20", "SECOND")
  /\ Forall (fun l => carries "20" l = false) ["MORE"; "-"]
  /\ Obj.get "20" (parseTextBlock
       (Js.join LFs [":20:FIRST"; "LOST"; ":21:X"; ":20:SECOND"; "MORE"; "-"]))
     = Some (Lines ["SECOND"; "MORE"]).
Proof.
  assert (H1 : Js.splitLines (stripNewlines
     (Js.join LFs [":20:FIRST"; "LOST"; ":21:X"; ":20:SECOND"; "MORE"; "-"]))
    = [":20:FIRST"; "LOST"; ":21:X"] ++ ":20:SECOND" :: ["MORE"; "-"]) by reflexivity.
  assert (H2 : matchTagLine ":20:SECOND" = Some ("20", "SECOND")) by reflexivity.
  assert (H3 : Forall (fun l => carries "20" l = false) ["MORE"; "-"]).
  { repeat constructor. }
  split; [exact H1|]. split; [exact H2|]. split; [exact H3|].
  exact (proj1 (last_tag_line_wins _ _ _ _ _ _ H1 H2 H3)).
Defined.

(** ** Multi-line values *)

Lemma join_cons sep x y ys :
  Js.join sep (x :: y :: ys) = x +:+ sep +:+ Js.join sep (y :: ys).
Proof. reflexivity. Qed.

Lemma join_after sep xs post :
  xs <> [] -> Js.join sep (xs ++ post) = Js.join sep xs +:+ linesAfter sep post.
Proof.
  induction xs as [|x xs IH]; [done|]. intros _.
  destruct xs as [|y ys].
  - change ([x] ++ post) with (x :: post). change (Js.join sep [x]) with x.
    clear IH. revert x. induction post as [|p post IHp]; intros x.
    + by rewrite append_nil_r.
    + rewrite join_cons, IHp. reflexivity.
  - change ((x :: y :: ys) ++ post) with (x :: y :: (ys ++ post)).
    rewrite !join_cons, append_assoc, append_assoc. do 2 f_equal. by apply IH.
Qed.

Lemma all_app p (a b : string) : Js.all p (a +:+ b) = Js.all p a && Js.all p b.
Proof.
  induction a as [|c a IH]; [done|]. rewrite append_cons. simpl.
  by rewrite IH, andb_assoc.
Qed.

Lemma digit_not_terminator c : Char.isDigit c = true -> Char.isLineTerminator c = false.
Proof.
  unfold Char.isDigit, Char.isLineTerminator. intros [H1 H2]%andb_true_iff.
  apply N.leb_le in H1. apply N.leb_le in H2.
  repeat (apply orb_false_iff; split); apply N.eqb_neq; lia.
Qed.

Lemma upper_not_terminator c : Char.isUpper c = true -> Char.isLineTerminator c = false.
Proof.
  unfold Char.isUpper, Char.isLineTerminator. intros [H1 H2]%andb_true_iff.
  apply N.leb_le in H1. apply N.leb_le in H2.
  repeat (apply orb_false_iff; split); apply N.eqb_neq; lia.
Qed.

Lemma tag_plain t : isTag t = true -> plainLine t = true.
Proof.
  unfold plainLine.
  destruct t as [|d1 [|d2 [|c [|? ?]]]]; try discriminate; simpl.
  - intros [H1 H2]%andb_true_iff.
    by rewrite (digit_not_terminator _ H1), (digit_not_terminator _ H2).
  - intros [[H1 H2]%andb_true_iff H3]%andb_true_iff.
    by rewrite (digit_not_terminator _ H1), (digit_not_terminator _ H2),
               (upper_not_terminator _ H3).
Qed.

Lemma tagLine_plain t rest :
  isTag t = true -> plainLine rest = true ->
  plainLine (":" +:+ t +:+ ":" +:+ rest) = true.
Proof.
  intros Ht%tag_plain Hr. unfold plainLine in *.
  rewrite append_cons, append_nil_l. simpl. rewrite all_app, Ht. simpl. exact Hr.
Qed.








(** ** The checks of the validator, one by one *)

Lemma formatChecks_spec specs o acc :
  formatChecks specs o acc =
  (acc.1 ++ formatErrors specs o, acc.2 ++ formatWarnings specs o).
Proof.
  unfold formatChecks, formatErrors, formatWarnings, Obj.entries.
  revert acc. induction o as [|[t v] o IH]; intros [e w]; simpl.
  - by rewrite !app_nil_r.
  - rewrite IH. unfold formatStep. simpl.
    destruct (findSpec specs t) as [fs|]; simpl.
    + destruct (tooLong fs v); simpl; by rewrite <- ?app_assoc.
    + by rewrite <- app_assoc.
Qed.

Lemma validateMt103Specifics_spec p acc :
  validateMt103Specifics p acc =
  (e ← check32A (textBlock p);
   Ok (acc.1 ++ e ++ check71A (textBlock p) ++ checkBeneficiary (textBlock p),
       acc.2 ++ checkOrderingCustomer (textBlock p))).
Proof.
  unfold validateMt103Specifics, check32A, check71A, checkBeneficiary,
    checkOrderingCustomer.
  destruct acc as [e w].
  destruct (present "32A" (textBlock p)).
  - destruct (stripped _) as [s|err]; [|done]. rewrite ?bind_Ok.
    destruct (negb (matchesAmount s)); rewrite ?bind_Ok; simpl;
      destruct (present "71A" _); simpl;
      try destruct (negb (isChargeCode _)); simpl;
      destruct (negb (present "59" _) && _ && _); simpl;
      destruct (negb (present "50A" _) && _ && _); simpl;
      by rewrite <- ?app_assoc, ?app_nil_r.
  - rewrite ?bind_Ok; simpl.
    destruct (present "71A" _); simpl;
      try destruct (negb (isChargeCode _)); simpl;
      destruct (negb (present "59" _) && _ && _); simpl;
      destruct (negb (present "50A" _) && _ && _); simpl;
      by rewrite <- ?app_assoc, ?app_nil_r.
Qed.

Lemma balance_fold_Throw o ts err :
  fold_left (balanceStep o) ts (Throw err) = Throw err.
Proof. induction ts as [|t ts IH]; [done|]. cbn [fold_left]. exact IH. Qed.

Lemma balance_fold_spec o ts e w :
  fold_left (balanceStep o) ts (Ok (e, w)) =
  (ws ← checkBalances o ts; Ok (e, w ++ ws)).
Proof.
  revert w. induction ts as [|t ts IH]; intros w.
  - simpl. by rewrite app_nil_r.
  - cbn [fold_left checkBalances]. unfold balanceStep at 2, checkBalance.
    rewrite bind_Ok.
    destruct (present t o).
    + destruct (stripped _) as [s|err]; [|by rewrite !bind_Throw, balance_fold_Throw].
      rewrite ?bind_Ok.
      destruct (negb (matchesBalance s)); rewrite IH; simpl;
        destruct (checkBalances o ts); simpl; rewrite ?bind_Ok, ?bind_Throw;
        by rewrite <- ?app_assoc.
    + rewrite IH, !bind_Ok. by destruct (checkBalances o ts).
Qed.

Lemma validateStatementSpecifics_spec p acc :
  validateStatementSpecifics p acc =
  (w ← checkBalances (textBlock p) balanceFields;
   Ok (acc.1 ++ checkOpening (textBlock p) ++ checkClosing (textBlock p), acc.2 ++ w)).
Proof.
  unfold validateStatementSpecifics, checkOpening, checkClosing.
  destruct acc as [e w].
  destruct (negb (present "60F" _) && _); destruct (negb (present "62F" _) && _);
    cbn [fst snd]; rewrite balance_fold_spec;
    by rewrite <- ?app_assoc, ?app_nil_r.
Qed.

(** The result of the validator for a registered message type *)
Lemma validate_registered p spec :
  MT_SPECS !! ("MT" +:+ Js.replaceFirst "MT" "" (messageType p)) = Some spec ->
  validateMtMessage (inr p) =
  (s ← specificIssues (Js.replaceFirst "MT" "" (messageType p)) (textBlock p);
   Ok {| valid := Nat.eqb (length (mandatoryErrors (spec_fields spec) (textBlock p)
                                   ++ formatErrors (spec_fields spec) (textBlock p)
                                   ++ s.1)) 0;
         res_messageType := messageType p;
         errors := mandatoryErrors (spec_fields spec) (textBlock p)
                   ++ formatErrors (spec_fields spec) (textBlock p) ++ s.1;
         warnings := formatWarnings (spec_fields spec) (textBlock p) ++ s.2;
         parsedFields := Some (textBlock p) |}).
Proof.
  intros Hspec. unfold validateMtMessage, specificIssues. rewrite Hspec.
  rewrite formatChecks_spec. cbn [fst snd app].
  destruct (String.eqb _ "103").
  - rewrite validateMt103Specifics_spec. cbn [fst snd].
    destruct (check32A _) as [e|]; [|done]. rewrite !bind_Ok. cbn [fst snd].
    by rewrite <- !app_assoc.
  - destruct (_ || _).
    + rewrite validateStatementSpecifics_spec. cbn [fst snd].
      destruct (checkBalances _ balanceFields) as [w|]; [|done].
      rewrite !bind_Ok. cbn [fst snd]. by rewrite <- !app_assoc.
    + rewrite !bind_Ok. cbn [fst snd]. by rewrite !app_nil_r.
Qed.

(** ** Present fields: over-length values and unknown tags *)

Lemma noEmptyArray_lines o : noEmptyArray o = true -> noEmptyLines o.
Proof.
  intros H t v Hget. apply ObjFacts.get_In in Hget.
  unfold noEmptyArray in H. rewrite forallb_forall in H.
  specialize (H _ Hget). simpl in H.
  destruct v as [s|[|l ls]]; simpl; eauto; discriminate.
Qed.

Lemma findSpec_Some specs t fs :
  findSpec specs t = Some fs -> In fs specs /\ tag fs = t.
Proof.
  unfold findSpec. intros H. apply find_some in H as [H1 H2].
  split; [done|]. by apply String.eqb_eq.
Qed.

Lemma findSpec_In specs fs : In fs specs -> findSpec specs (tag fs) <> None.
Proof.
  unfold findSpec. intros Hin Hnone.
  apply (find_none _ _ Hnone) in Hin. by rewrite String.eqb_refl in Hin.
Qed.

Lemma mandatoryErrors_field specs o e :
  In e (mandatoryErrors specs o) -> findSpec specs (field e) <> None.
Proof.
  induction specs as [|fs specs IH]; [done|]. simpl.
  unfold findSpec in *. simpl.
  destruct (mandatory fs && missing (tag fs) o).
  - intros [<-|Hin]; simpl.
    + by rewrite String.eqb_refl.
    + destruct (String.eqb (tag fs) (field e)); [done|auto].
  - intros Hin. destruct (String.eqb (tag fs) (field e)); [done|auto].
Qed.

Lemma formatErrors_field specs o e :
  In e (formatErrors specs o) -> findSpec specs (field e) <> None.
Proof.
  unfold formatErrors. intros ([t v] & _ & Hin)%in_flat_map. simpl in Hin.
  destruct (findSpec specs t) as [fs|] eqn:Hfs; [|done].
  destruct (tooLong fs v); [|done].
  destruct Hin as [<-|[]]. simpl. by rewrite Hfs.
Qed.

Lemma formatErrors_In specs o t v fs m :
  In (t, v) (Obj.entries o) -> findSpec specs t = Some fs -> tooLong fs v = Some m ->
  In (fieldTooLongError t m v) (formatErrors specs o).
Proof.
  intros Hin Hfs Hm. unfold formatErrors. apply in_flat_map.
  exists (t, v). split; [done|]. simpl. rewrite Hfs, Hm. by left.
Qed.

Lemma formatWarnings_In specs o t v :
  In (t, v) (Obj.entries o) -> findSpec specs t = None ->
  In (unknownFieldWarning t v) (formatWarnings specs o).
Proof.
  intros Hin Hfs. unfold formatWarnings. apply in_flat_map.
  exists (t, v). split; [done|]. simpl. rewrite Hfs. by left.
Qed.

Lemma registry_type type spec :
  MT_SPECS !! ("MT" +:+ type) = Some spec ->
  (type = "103" /\ spec = MT103_SPEC) \/ (type = "202" /\ spec = MT202_SPEC)
  \/ (type = "940" /\ spec = MT940_SPEC) \/ (type = "950" /\ spec = MT950_SPEC).
Proof.
  intros H. apply MT_SPECS_registered in H.
  destruct H as [[H ->]|[[H ->]|[[H ->]|[H ->]]]];
    apply (f_equal (Js.drop 2)) in H; change (type = Js.drop 2 "MT103") in H
    || change (type = Js.drop 2 "MT202") in H
    || change (type = Js.drop 2 "MT940") in H
    || change (type = Js.drop 2 "MT950") in H; simpl in H; subst; tauto.
Qed.

(** Where the registry gives a maximum length it is not zero. *)
Lemma registry_maxLength type spec fs m :
  MT_SPECS !! ("MT" +:+ type) = Some spec ->
  In fs (spec_fields spec) -> maxLength fs = Some m -> m <> 0.
Proof.
  intros Hspec Hin Hm ->.
  assert (H : forallb (fun fs => match maxLength fs with Some 0 => false | _ => true end)
                      (spec_fields spec) = true).
  { apply registry_type in Hspec.
    destruct Hspec as [[_ ->]|[[_ ->]|[[_ ->]|[_ ->]]]]; reflexivity. }
  rewrite forallb_forall in H. specialize (H _ Hin). by rewrite Hm in H.
Qed.

Lemma check32A_field o e es : check32A o = Ok es -> In e es -> field e = "32A".
Proof.
  unfold check32A. destruct (present "32A" o); [|by intros [= <-]].
  destruct (stripped _) as [s|]; [|done]. rewrite bind_Ok.
  destruct (negb _); intros [= <-]; [|done]. by intros [<-|[]].
Qed.

(** Every error of the type-specific checks names a field of the
    specification. *)
Lemma specificIssues_field type spec o s e :
  MT_SPECS !! ("MT" +:+ type) = Some spec ->
  specificIssues type o = Ok s -> In e s.1 ->
  findSpec (spec_fields spec) (field e) <> None.
Proof.
  intros Hspec Hs Hin. apply registry_type in Hspec.
  destruct Hspec as [[-> ->]|[[-> ->]|[[-> ->]|[-> ->]]]];
    unfold specificIssues in Hs; simpl in Hs.
  - apply bind_Ok_inv in Hs as (es & H32 & [= <-]). simpl in Hin.
    rewrite !in_app_iff in Hin. destruct Hin as [Hin|[Hin|Hin]].
    + by rewrite (check32A_field _ _ _ H32 Hin).
    + unfold check71A in Hin. destruct (_ && _); [|done].
      by destruct Hin as [<-|[]].
    + unfold checkBeneficiary in Hin. destruct (_ && _); [|done].
      by destruct Hin as [<-|[]].
  - injection Hs as <-. done.
  - apply bind_Ok_inv in Hs as (ws & _ & [= <-]). simpl in Hin.
    rewrite in_app_iff in Hin. unfold checkOpening, checkClosing in Hin.
    destruct Hin as [Hin|Hin]; destruct (_ && _); try done;
      by destruct Hin as [<-|[]].
  - apply bind_Ok_inv in Hs as (ws & _ & [= <-]). simpl in Hin.
    rewrite in_app_iff in Hin. unfold checkOpening, checkClosing in Hin.
    destruct Hin as [Hin|Hin]; destruct (_ && _); try done;
      by destruct Hin as [<-|[]].
Qed.

Lemma specificIssues_returns type o :
  noEmptyLines o -> exists s, specificIssues type o = Ok s.
Proof.
  intros Hwf. unfold specificIssues.
  assert (Hb : forall ts, exists w, checkBalances o ts = Ok w).
  { induction ts as [|t ts [w IH]]; simpl; [eauto|].
    unfold checkBalance. destruct (present t o) eqn:Hp.
    - destruct (stripped_present _ _ Hwf Hp) as (s & _ & ->).
      rewrite !bind_Ok, IH, bind_Ok. eauto.
    - rewrite bind_Ok, IH, bind_Ok. eauto. }
  destruct (String.eqb type "103").
  - unfold check32A. destruct (present "32A" o) eqn:Hp.
    + destruct (stripped_present _ _ Hwf Hp) as (s & _ & ->).
      rewrite !bind_Ok. eauto.
    + rewrite bind_Ok. eauto.
  - destruct (_ || _); [|eauto].
    destruct (Hb balanceFields) as [w ->]. rewrite bind_Ok. eauto.
Qed.

Lemma length_zero_In {A} (l : list A) x : In x l -> Nat.eqb (length l) 0 = false.
Proof. by destruct l. Qed.

Lemma join_concat sep ls : Js.join sep ls = String.concat sep ls.
Proof. induction ls as [|x [|y ls] IH]; [done|done|]. by rewrite join_cons, IH. Qed.

Lemma length_concat sep ls :
  String.length (String.concat sep ls)
  = list_sum (map String.length ls) + String.length sep * (length ls - 1).
Proof.
  induction ls as [|x [|y ls] IH]; [simpl; lia|simpl; lia|].
  change (String.concat sep (x :: y :: ls))
    with (x +:+ sep +:+ String.concat sep (y :: ls)).
  rewrite !length_append, IH.
  replace (length (x :: y :: ls) - 1) with (S (length (y :: ls) - 1)) by (simpl; lia).
  rewrite Nat.mul_succ_r.
  change (list_sum (map String.length (x :: y :: ls)))
    with (String.length x + list_sum (map String.length (y :: ls))).
  lia.
Qed.

Lemma joined_lines v :
  joined v = String.concat LFs match v with Scalar s => [s] | Lines ls => ls end.
Proof. destruct v as [s|ls]; [done|]. apply join_concat. Qed.

(** C8. Take a message of a registered type and a field present in its text
    block; its lines are the scalar alone, or the lines of the sequence. The
    length the validator measures is that of the lines joined by line feeds:
    the lengths of the lines and one more for each line feed between them.
    If the specification of the type has an entry for the tag, with a maximum
    length that this length exceeds, the result of the validator holds the
    error with code [FIELD_TOO_LONG] for the tag, whose value is the joined
    text, and is not valid. If the specification has no entry for the tag,
    the result holds the warning with code [UNKNOWN_FIELD] for it and none of
    its errors names the tag. *)
Theorem over_length_is_an_error_unknown_tag_a_warning
    (p : ParsedMtMessage) (spec : MtMessageSpec) (t : string) (v : FieldValue) :
  MT_SPECS !! ("MT" +:+ Js.replaceFirst "MT" "" (messageType p)) = Some spec ->
  noEmptyArray (textBlock p) = true ->
  In (t, v) (Obj.entries (textBlock p)) ->
  let lines := match v with Scalar s => [s] | Lines ls => ls end in
  exists r,
    validateMtMessage (inr p) = Ok r
    /\ (forall fs m,
          findSpec (spec_fields spec) t = Some fs ->
          maxLength fs = Some m ->
          m < list_sum (map String.length lines) + (length lines - 1) ->
          In {| field := t;
                code := "FIELD_TOO_LONG";
                message := "Field " +:+ t +:+ " exceeds maximum length of "
                           +:+ Js.showNat m;
                value := Some (String.concat LFs lines) |} (errors r)
          /\ valid r = false)
    /\ (findSpec (spec_fields spec) t = None ->
          In {| field := t;
                code := "UNKNOWN_FIELD";
                message := "Unknown field tag: " +:+ t;
                value := Some (String.concat LFs lines) |} (warnings r)
          /\ forall e, In e (errors r) -> field e <> t).
Proof.
  intros Hspec Hwf%noEmptyArray_lines Hin lines.
  destruct (specificIssues_returns (Js.replaceFirst "MT" "" (messageType p)) _ Hwf)
    as [s Hs].
  rewrite (validate_registered _ _ Hspec), Hs, bind_Ok.
  eexists. split; [reflexivity|]. simpl. split.
  - intros fs m Hfs Hm Hlen.
    assert (Hlong : tooLong fs v = Some m).
    { unfold tooLong. rewrite Hm.
      apply findSpec_Some in Hfs as [Hfs _].
      pose proof (registry_maxLength _ _ _ _ Hspec Hfs Hm) as Hm0.
      apply Nat.eqb_neq in Hm0.
      assert (Hlt : Nat.ltb m (String.length (joined v)) = true).
      { apply Nat.ltb_lt. rewrite joined_lines, length_concat. fold lines.
        change (String.length LFs) with 1. lia. }
      by rewrite Hm0, Hlt. }
    assert (Hine : In (fieldTooLongError t m v)
                      (mandatoryErrors (spec_fields spec) (textBlock p)
                       ++ formatErrors (spec_fields spec) (textBlock p) ++ s.1)).
    { rewrite !in_app_iff. right; left. by eapply formatErrors_In. }
    unfold fieldTooLongError in Hine. rewrite joined_lines in Hine.
    split; [exact Hine|]. by eapply length_zero_In.
  - intros Hnone. split.
    + rewrite in_app_iff. left.
      pose proof (formatWarnings_In _ _ _ _ Hin Hnone) as Hw.
      unfold unknownFieldWarning in Hw. rewrite joined_lines in Hw. exact Hw.
    + intros e He <-. rewrite !in_app_iff in He.
      destruct He as [He|[He|He]].
      * by apply mandatoryErrors_field in He.
      * by apply formatErrors_field in He.
      * by apply (specificIssues_field _ _ _ _ _ Hspec Hs) in He.
Qed.

Lemma over_length_is_an_error_unknown_tag_a_warning_witness :
  exists r,
    validateMtMessage (inr sampleLongLines) = Ok r
    /\ In {| field := "20";
             code := "FIELD_TOO_LONG";
             message := "Field 20 exceeds maximum length of 16";
             value := Some ("12345678" +:+ LFs +:+ "123456789") |} (errors r)
    /\ valid r = false
    /\ In {| field := "99Z";
             code := "UNKNOWN_FIELD";
             message := "Unknown field tag: 99Z";
             value := Some "what" |} (warnings r)
    /\ forall e, In e (errors r) -> field e <> "99Z".
Proof.
  destruct (over_length_is_an_error_unknown_tag_a_warning
              sampleLongLines MT103_SPEC "20" (Lines ["12345678"; "123456789"]))
    as (r & Hr & Hlong & _).
  { reflexivity. }
  { reflexivity. }
  { vm_compute. tauto. }
  destruct (over_length_is_an_error_unknown_tag_a_warning
              sampleLongLines MT103_SPEC "99Z" (Scalar "what"))
    as (r' & Hr' & _ & Hunknown).
  { reflexivity. }
  { reflexivity. }
  { vm_compute. tauto. }
  assert (E : r' = r) by congruence. subst r'.
  exists r. split; [exact Hr|].
  destruct (Hlong (mkFieldSpec "20" "Sender's Reference" true "16x"
                     "Unique reference assigned by sender" (Some 16)) 16)
    as [H1 H2].
  { reflexivity. }
  { reflexivity. }
  { vm_compute. lia. }
  destruct (Hunknown eq_refl) as [H3 H4].
  split; [exact H1|]. split; [exact H2|]. split; [exact H3|exact H4].
Defined.

(** ** Removing a mandatory tag *)

Lemma present_remove_ne t k o : k <> t -> present k (Obj.remove t o) = present k o.
Proof.
  intros H. unfold present. rewrite ObjFacts.get_remove.
  apply String.eqb_neq in H. by rewrite H.
Qed.

Lemma get_remove_ne t k (o : Obj.JsObject FieldValue) :
  k <> t -> Obj.get k (Obj.remove t o) = Obj.get k o.
Proof.
  intros H. rewrite ObjFacts.get_remove. apply String.eqb_neq in H. by rewrite H.
Qed.

Lemma present_remove_eq t o : present t (Obj.remove t o) = false.
Proof. unfold present. by rewrite ObjFacts.get_remove, String.eqb_refl. Qed.

Lemma missing_remove_eq t o : missing t (Obj.remove t o) = true.
Proof. unfold missing. by rewrite ObjFacts.get_remove, String.eqb_refl. Qed.

Lemma missing_remove_ne t k o : k <> t -> missing k (Obj.remove t o) = missing k o.
Proof.
  intros H. unfold missing. rewrite ObjFacts.get_remove.
  apply String.eqb_neq in H. by rewrite H.
Qed.

Lemma missing_present t o : missing t o = false -> present t o = true.
Proof.
  unfold missing, present. destruct (Obj.get t o) as [[s|ls]|]; try done.
  by intros ->%negb_false_iff.
Qed.

Lemma mandatoryErrors_remove_other specs t o :
  ~ In t (map tag specs) ->
  mandatoryErrors specs (Obj.remove t o) = mandatoryErrors specs o.
Proof.
  induction specs as [|fs specs IH]; [done|]. simpl. intros H.
  rewrite missing_remove_ne by tauto. rewrite IH by tauto. done.
Qed.

(** With distinct tags in the specification, deleting the tag of a mandatory
    field from a text block that lacks none leaves that field as the only
    one missing. *)
Lemma mandatoryErrors_remove specs fs o :
  NoDup (map tag specs) -> mandatoryErrors specs o = [] ->
  In fs specs -> mandatory fs = true ->
  mandatoryErrors specs (Obj.remove (tag fs) o) = [missingFieldError fs].
Proof.
  induction specs as [|fs0 specs IH]; [done|]. simpl.
  intros [Hnot Hnd]%NoDup_cons Hnil [->|Hin] Hm.
  - rewrite Hm, missing_remove_eq. simpl. f_equal.
    rewrite mandatoryErrors_remove_other by by rewrite <- list_elem_of_In.
    by destruct (_ && _).
  - assert (Hne : tag fs0 <> tag fs).
    { intros Heq. apply Hnot. rewrite Heq, list_elem_of_In. by apply in_map. }
    rewrite (missing_remove_ne _ _ _ Hne).
    destruct (mandatory fs0 && missing (tag fs0) o); [done|]. by apply IH.
Qed.

Lemma mandatoryErrors_nil specs fs o :
  mandatoryErrors specs o = [] -> In fs specs -> mandatory fs = true ->
  missing (tag fs) o = false.
Proof.
  induction specs as [|fs0 specs IH]; [done|]. simpl.
  destruct (mandatory fs0 && missing (tag fs0) o) eqn:E; [done|].
  intros Hnil [->|Hin] Hm; [|by apply IH]. by rewrite Hm in E.
Qed.

Lemma flat_map_nil_filter {A B} (f : A -> list B) (P : A -> bool) (l : list A) :
  flat_map f l = [] -> flat_map f (List.filter P l) = [].
Proof.
  induction l as [|x l IH]; [done|]. simpl.
  intros [Hx Hl]%app_eq_nil. destruct (P x); simpl; [rewrite Hx|]; auto.
Qed.

Lemma formatErrors_remove specs t o :
  formatErrors specs o = [] -> formatErrors specs (Obj.remove t o) = [].
Proof. apply flat_map_nil_filter. Qed.

Lemma check32A_remove t o :
  check32A o = Ok [] -> check32A (Obj.remove t o) = Ok [].
Proof.
  unfold check32A. destruct (String.eqb_spec "32A" t) as [<-|Hne].
  - by rewrite present_remove_eq.
  - by rewrite present_remove_ne, get_remove_ne.
Qed.

Lemma check71A_remove t o :
  check71A o = [] -> check71A (Obj.remove t o) = [].
Proof.
  unfold check71A. destruct (String.eqb_spec "71A" t) as [<-|Hne].
  - by rewrite present_remove_eq.
  - by rewrite present_remove_ne, get_remove_ne.
Qed.

Lemma checkBeneficiary_remove t o :
  present "59" o = true ->
  checkBeneficiary (Obj.remove t o) =
  if String.eqb t "59" && negb (present "59A" o) && negb (present "59F" o)
  then [beneficiaryError] else [].
Proof.
  intros H59. unfold checkBeneficiary.
  destruct (String.eqb_spec t "59") as [->|Hne].
  - rewrite present_remove_eq, !present_remove_ne by done. done.
  - rewrite (present_remove_ne t "59") by done. by rewrite H59.
Qed.

Lemma MT103_tags_distinct : NoDup (map tag (spec_fields MT103_SPEC)).
Proof. apply (bool_decide_eq_true_1 _). vm_compute. reflexivity. Qed.

Lemma mandatoryTags_In spec t :
  In t (mandatoryTags spec) ->
  exists fs, In fs (spec_fields spec) /\ mandatory fs = true /\ tag fs = t.
Proof.
  unfold mandatoryTags. intros (fs & <- & [Hin Hm]%filter_In)%in_map_iff. eauto.
Qed.

(** The step behind C5, for any specification registered for the type. *)
Lemma mandatory_tag_removed_from spec p r fs fs59 :
  MT_SPECS !! ("MT" +:+ Js.replaceFirst "MT" "" (messageType p)) = Some spec ->
  Js.replaceFirst "MT" "" (messageType p) = "103" ->
  NoDup (map tag (spec_fields spec)) ->
  In fs59 (spec_fields spec) -> mandatory fs59 = true -> tag fs59 = "59" ->
  In fs (spec_fields spec) -> mandatory fs = true ->
  validateMtMessage (inr p) = Ok r ->
  valid r = true ->
  exists r',
    validateMtMessage (inr (withTextBlock p (Obj.remove (tag fs) (textBlock p)))) = Ok r'
    /\ valid r' = false
    /\ errors r' =
         missingFieldError fs
         :: (if String.eqb (tag fs) "59" && negb (present "59A" (textBlock p))
                && negb (present "59F" (textBlock p))
             then [beneficiaryError] else []).
Proof.
  intros Hspec Htype Hnd Hfs59 Hm59 Ht59 Hfs Hm Hr Hvalid.
  rewrite (validate_registered _ _ Hspec), Htype in Hr.
  apply bind_Ok_inv in Hr as (s & Hs & [= <-]). cbn [valid] in Hvalid.
  apply length_zero_nil in Hvalid.
  apply app_eq_nil in Hvalid as [Hmand [Hfmt Hs1]%app_eq_nil].
  unfold specificIssues in Hs. change (String.eqb "103" "103") with true in Hs.
  cbn iota in Hs.
  apply bind_Ok_inv in Hs as (e32 & H32 & [= <-]). cbn [fst] in Hs1.
  apply app_eq_nil in Hs1 as [-> [H71 Hben]%app_eq_nil].
  assert (H59 : present "59" (textBlock p) = true).
  { apply missing_present. rewrite <- Ht59.
    by apply (mandatoryErrors_nil _ _ _ Hmand). }
  eexists.
  rewrite (validate_registered (withTextBlock p _) spec) by exact Hspec.
  cbn [textBlock messageType withTextBlock]. rewrite Htype.
  unfold specificIssues. change (String.eqb "103" "103") with true. cbn iota.
  rewrite (check32A_remove _ _ H32), bind_Ok. cbn [fst snd].
  rewrite (mandatoryErrors_remove _ _ _ Hnd Hmand Hfs Hm).
  rewrite (formatErrors_remove _ _ _ Hfmt), (check71A_remove _ _ H71).
  rewrite (checkBeneficiary_remove _ _ H59).
  split; [reflexivity|]. cbn [valid errors app]. split; reflexivity.
Qed.

(** C5. Take a message of type MT103 that the validator finds valid, and
    delete one of the tags its specification marks as mandatory from the text
    block. The validator then finds the message not valid. Its errors are the
    error with code [MISSING_FIELD] whose field is that tag and whose message
    names the tag and the name the specification gives it and, when the tag
    is [59] and neither [59A] nor [59F] is present, the beneficiary error
    behind it; there is no other error. *)
Theorem removing_a_mandatory_tag (p : ParsedMtMessage) (r : MtValidationResult)
    (t : string) :
  Js.replaceFirst "MT" "" (messageType p) = "103" ->
  validateMtMessage (inr p) = Ok r ->
  valid r = true ->
  In t (mandatoryTags MT103_SPEC) ->
  exists fs r',
    In fs (spec_fields MT103_SPEC) /\ tag fs = t /\ mandatory fs = true
    /\ validateMtMessage (inr (withTextBlock p (Obj.remove t (textBlock p)))) = Ok r'
    /\ valid r' = false
    /\ errors r' =
         {| field := t;
            code := "MISSING_FIELD";
            message := "Mandatory field " +:+ t +:+ " (" +:+ name fs +:+ ") is missing";
            value := None |}
         :: (if String.eqb t "59" && negb (present "59A" (textBlock p))
                && negb (present "59F" (textBlock p))
             then [ {| field := "59";
                       code := "MISSING_FIELD";
                       message := "Beneficiary customer (field 59, 59A, or 59F) is required";
                       value := None |} ]
             else []).
Proof.
  intros Htype Hr Hvalid Ht.
  destruct (mandatoryTags_In _ _ Ht) as (fs & Hfs & Hm & <-).
  assert (Hspec : MT_SPECS !! ("MT" +:+ Js.replaceFirst "MT" "" (messageType p))
                  = Some MT103_SPEC) by by rewrite Htype.
  destruct (mandatory_tag_removed_from MT103_SPEC p r fs
              (mkFieldSpec "59" "Beneficiary Customer (Account)" true "[/34x]4*35x"
                 "Beneficiary customer with optional account" None)
              Hspec Htype MT103_tags_distinct) as (r' & H1 & H2 & H3);
    try done.
  { vm_compute. tauto. }
  exists fs, r'. repeat split; done.
Qed.

Lemma removing_a_mandatory_tag_witness :
  exists r',
    validateMtMessage
      (inr (withTextBlock sampleValid103 (Obj.remove "59" (textBlock sampleValid103))))
    = Ok r'
    /\ valid r' = false
    /\ errors r' =
         [ {| field := "59";
              code := "MISSING_FIELD";
              message := "Mandatory field 59 (Beneficiary Customer (Account)) is missing";
              value := None |};
           {| field := "59";
              code := "MISSING_FIELD";
              message := "Beneficiary customer (field 59, 59A, or 59F) is required";
              value := None |} ].
Proof.
  destruct (removing_a_mandatory_tag sampleValid103
              {| valid := true; res_messageType := "MT103"; errors := [];
                 warnings := [orderingCustomerWarning];
                 parsedFields := Some (textBlock sampleValid103) |} "59")
    as (fs & r' & Hin & Htag & _ & Hr' & Hvalid & Herrors).
  - reflexivity.
  - vm_compute. reflexivity.
  - reflexivity.
  - vm_compute. tauto.
  - exists r'. split; [exact Hr'|]. split; [exact Hvalid|]. rewrite Herrors.
    assert (Hname : name fs = "Beneficiary Customer (Account)").
    { cbn [spec_fields MT103_SPEC In] in Hin.
      repeat (destruct Hin as [<- | Hin]; [first [discriminate Htag | reflexivity]|]).
      destruct Hin. }
    rewrite Hname. reflexivity.
Defined.

(** ** What the generator refuses *)

Section GeneratorFacts.
Variable toFixed2 : string -> string.

Lemma formatSwiftAmount_Ok a :
  parseFloatIsNaN a = false ->
  formatSwiftAmount toFixed2 a = Ok (Js.replaceFirst "." "," (toFixed2 a)).
Proof. unfold formatSwiftAmount. by intros ->. Qed.

Lemma formatSwiftAmount_Throw a :
  parseFloatIsNaN a = true ->
  formatSwiftAmount toFixed2 a = Throw (Error ("Invalid amount: " +:+ a)).
Proof. unfold formatSwiftAmount. by intros ->. Qed.

Lemma amountLine_result fields :
  (amountIsNaN fields = true /\ exists e, amountLine toFixed2 fields = Throw e)
  \/ (amountIsNaN fields = false /\ exists l, amountLine toFixed2 fields = Ok l).
Proof.
  unfold amountIsNaN, amountLine.
  destruct (fld fields "valueDate"), (fld fields "currency"),
    (fld fields "amount") as [a|]; try (right; eauto; fail).
  destruct (parseFloatIsNaN a) eqn:E.
  - left. rewrite (formatSwiftAmount_Throw _ E). eauto.
  - right. rewrite (formatSwiftAmount_Ok _ E). eauto.
Qed.

Lemma instructedAmountLine_result fields :
  (instructedAmountIsNaN fields = true
   /\ exists e, instructedAmountLine toFixed2 fields = Throw e)
  \/ (instructedAmountIsNaN fields = false
      /\ exists l, instructedAmountLine toFixed2 fields = Ok l).
Proof.
  unfold instructedAmountIsNaN, instructedAmountLine.
  destruct (fld fields "instructedCurrency"),
    (fld fields "instructedAmount") as [a|]; try (right; eauto; fail).
  destruct (parseFloatIsNaN a) eqn:E.
  - left. rewrite (formatSwiftAmount_Throw _ E). eauto.
  - right. rewrite (formatSwiftAmount_Ok _ E). eauto.
Qed.

Lemma content_refused_iff type fields :
  (exists e, generateBlock4 toFixed2 type fields = Throw e)
  <-> contentRefused type fields = true.
Proof.
  unfold generateBlock4, contentRefused.
  destruct (String.eqb type "103").
  { unfold generateMT103Content.
    destruct (truthyIn BANK_OPERATION_CODES _); cbn [negb orb];
      [|rewrite bind_Throw; split; eauto].
    destruct (amountLine_result fields) as [[-> [e ->]]|[-> [l ->]]];
      rewrite ?bind_Ok, ?bind_Throw; cbn [orb]; [split; eauto|].
    destruct (instructedAmountLine_result fields) as [[-> [e ->]]|[-> [l' ->]]];
      rewrite ?bind_Ok, ?bind_Throw; cbn [orb]; [split; eauto|].
    destruct (truthyIn CHARGE_CODES _); cbn [negb];
      rewrite ?bind_Ok, ?bind_Throw; split; eauto; try discriminate.
    by intros [? ?]. }
  destruct (String.eqb type "202").
  { unfold generateMT202Content.
    destruct (amountLine_result fields) as [[-> [e ->]]|[-> [l ->]]];
      rewrite ?bind_Ok, ?bind_Throw; split; eauto; try discriminate.
    by intros [? ?]. }
  destruct (String.eqb type "940"); [rewrite bind_Ok; split; [by intros [? ?]|done]|].
  destruct (String.eqb type "950"); [rewrite bind_Ok; split; [by intros [? ?]|done]|].
  rewrite bind_Throw. split; eauto.
Qed.

Lemma generator_refuses_iff input :
  (exists e, generateMtMessage toFixed2 input = Throw e) <-> refuses input = true.
Proof.
  unfold generateMtMessage, refuses.
  destruct (bic_valid (validateBic (senderBic input))); simpl; [|split; eauto].
  destruct (bic_valid (validateBic (receiverBic input))); simpl; [|split; eauto].
  rewrite <- content_refused_iff.
  destruct (generateBlock4 _ _ _); simpl; split; eauto; by intros [? ?].
Qed.

Lemma generator_returns_iff input :
  (exists out, generateMtMessage toFixed2 input = Ok out) <-> refuses input = false.
Proof.
  rewrite <- not_true_iff_false, <- generator_refuses_iff.
  destruct (generateMtMessage toFixed2 input) as [out|e]; split.
  - intros _ [? ?]; discriminate.
  - eauto.
  - intros [? ?]; discriminate.
  - intros H. exfalso. apply H. eauto.
Qed.

End GeneratorFacts.

Lemma fld_delete k k' (fields : gmap string string) :
  fld (delete k fields) k' = if decide (k = k') then None else fld fields k'.
Proof.
  unfold fld. rewrite lookup_delete. by case_decide.
Qed.

Lemma truthy_CRED : truthyIn BANK_OPERATION_CODES "CRED" = true.
Proof. reflexivity. Qed.

Lemma truthy_SHA : truthyIn CHARGE_CODES "SHA" = true.
Proof. reflexivity. Qed.

(** Taking a value away gives the generator no new reason to refuse. *)
Lemma refuses_withoutField k input :
  refuses input = false -> refuses (withoutField k input) = false.
Proof.
  unfold refuses, withoutField; simpl.
  intros [[H1 H2]%orb_false_iff H3]%orb_false_iff. rewrite H1, H2. simpl.
  revert H3. unfold contentRefused, amountIsNaN, instructedAmountIsNaN.
  rewrite !fld_delete.
  destruct (String.eqb _ "103").
  { intros [[[Ha Hb]%orb_false_iff Hc]%orb_false_iff Hd]%orb_false_iff.
    repeat (apply orb_false_iff; split).
    - case_decide; [exact (f_equal negb truthy_CRED)|done].
    - repeat case_decide; try done;
        destruct (fld (fields input) "valueDate"),
          (fld (fields input) "currency"); done.
    - repeat case_decide; try done;
        destruct (fld (fields input) "instructedCurrency"); done.
    - case_decide; [exact (f_equal negb truthy_SHA)|done]. }
  destruct (String.eqb _ "202"); [|done].
  intros Ha. repeat case_decide; try done;
    destruct (fld (fields input) "valueDate"), (fld (fields input) "currency"); done.
Qed.

(** C2 as stated fails: for an MT103 input without a sender's reference and
    without value date, currency and amount the generator raises nothing and
    returns a message that has neither field 20 nor field 32A. *)
Lemma generator_accepts_missing_mandatory_values :
  fld (fields inputWithoutReference) "senderReference" = None
  /\ fld (fields inputWithoutReference) "valueDate" = None
  /\ forall toFixed2,
       generateMtMessage toFixed2 inputWithoutReference =
       Ok (Js.join CRLF
             [ "{1:F01DEUTDEFFXXXX0000000000}{2:I103CHASUS33XXXXN}{4:";
               ":23B:CRED"; ":59:NAME"; ":71A:SHA"; "-}{5:}" ]).
Proof. split; [reflexivity|]. split; [reflexivity|]. intros toFixed2. reflexivity. Qed.

(** ** Decoding a generated message: the blocks *)

Lemma get_fold_set {V} k (ms : list (string * V)) o :
  Obj.get k (fold_left (fun o m => Obj.set m.1 m.2 o) ms o) =
  match assignedLast k ms with Some v => Some v | None => Obj.get k o end.
Proof.
  revert o. induction ms as [|[k' v'] ms IH]; intros o; [done|].
  cbn [fold_left assignedLast fst snd]. rewrite IH.
  destruct (assignedLast k ms); [done|]. rewrite ObjFacts.get_set. simpl.
  by destruct (String.eqb k k').
Qed.

Lemma scan_plain c inner rest :
  noBrace c = true ->
  scanBlockBody inner (c +:+ rest) =
  (p ← scanBlockBody inner rest; Some (c +:+ p.1, p.2)).
Proof.
  unfold noBrace. induction c as [|x c IH]; intros H.
  - rewrite append_nil_l. by destruct (scanBlockBody inner rest) as [[? ?]|].
  - simpl in H. apply andb_true_iff in H as [Hx Hc].
    apply negb_true_iff, orb_false_iff in Hx as [Hx1 Hx2].
    rewrite append_cons. simpl. rewrite Hx1, Hx2, (IH Hc).
    by destruct (scanBlockBody inner rest) as [[? ?]|].
Qed.

Lemma blockContent_plain c : noBrace c = true -> blockContent c.
Proof.
  intros H rest. rewrite (scan_plain _ _ _ H). simpl. by rewrite append_nil_r.
Qed.

Lemma blockContent_nil : blockContent "".
Proof. by apply blockContent_plain. Qed.

(** A nested pair in front of a content *)
Lemma blockContent_nested x c :
  noBrace x = true -> blockContent c -> blockContent ("{" +:+ x +:+ "}" +:+ c).
Proof.
  intros Hx Hc rest.
  change (("{" +:+ x +:+ "}" +:+ c) +:+ "}" +:+ rest)
    with (String "{" ((x +:+ "}" +:+ c) +:+ "}" +:+ rest)).
  rewrite append_assoc. cbn [scanBlockBody]. simpl Ascii.eqb. cbn iota.
  rewrite (scan_plain _ _ _ Hx).
  change (("}" +:+ c) +:+ "}" +:+ rest) with (String "}" (c +:+ "}" +:+ rest)).
  cbn [scanBlockBody]. simpl Ascii.eqb. cbn iota. rewrite Hc. simpl.
  by rewrite append_cons.
Qed.

(** The search finds a block that stands in front and goes on behind it. *)
Lemma execAll_block d c rest :
  Char.isDigit d = true -> blockContent c ->
  Js.execAll matchBlockAt ("{" +:+ String d ":" +:+ c +:+ "}" +:+ rest) =
  (String d "", c) :: Js.execAll matchBlockAt rest.
Proof.
  intros Hd Hc.
  change ("{" +:+ String d ":" +:+ c +:+ "}" +:+ rest)
    with (String "{" (String d (String ":" (c +:+ "}" +:+ rest)))).
  replace (String d (String ":" (c +:+ "}" +:+ rest)))
    with ((String d (String ":" (c +:+ "}"))) +:+ rest)
    by (by rewrite !append_cons, append_assoc).
  apply execAll_match.
  rewrite !append_cons, append_assoc. unfold matchBlockAt.
  rewrite Hd. simpl. by rewrite Hc.
Qed.

Lemma trim_braced s :
  Js.trim ("{" +:+ s +:+ "}") = "{" +:+ s +:+ "}".
Proof.
  unfold Js.trim. change ("{" +:+ s +:+ "}") with (String "{" (s +:+ "}")).
  rewrite dropWhile_none by done.
  change (String "{" (s +:+ "}")) with (("{" +:+ s) +:+ "}").
  by rewrite dropWhileEnd_app.
Qed.

Lemma execAll_wireBlock d c rest :
  Char.isDigit d = true -> blockContent c ->
  Js.execAll matchBlockAt (wireBlock d c +:+ rest) =
  (String d "", c) :: Js.execAll matchBlockAt rest.
Proof.
  intros Hd Hc. unfold wireBlock. rewrite !append_assoc.
  by apply execAll_block.
Qed.

Lemma execAll_wireMessage c1 c2 c3 c4 :
  blockContent c1 -> blockContent c2 ->
  (forall c, c3 = Some c -> blockContent c) -> blockContent c4 ->
  Js.execAll matchBlockAt (wireMessage c1 c2 c3 c4) =
  [("1", c1); ("2", c2)]
  ++ match c3 with Some c => [("3", c)] | None => [] end
  ++ [("4", c4); ("5", "")].
Proof.
  intros H1 H2 H3 H4. unfold wireMessage.
  rewrite (execAll_wireBlock "1") by done.
  rewrite (execAll_wireBlock "2") by done.
  assert (H45 : Js.execAll matchBlockAt (wireBlock "4" c4 +:+ wireBlock "5" "")
                = [("4", c4); ("5", "")]).
  { rewrite (execAll_wireBlock "4") by done.
    rewrite <- (append_nil_r (wireBlock "5" "")).
    rewrite (execAll_wireBlock "5") by (done || apply blockContent_nil). done. }
  destruct c3 as [c|].
  - rewrite (execAll_wireBlock "3") by (done || by apply H3). by rewrite H45.
  - rewrite append_nil_l. by rewrite H45.
Qed.

Lemma dropWhileEnd_app_id p a b :
  Js.dropWhileEnd p b = b -> b <> "" -> Js.dropWhileEnd p (a +:+ b) = a +:+ b.
Proof. intros Hb Hne. rewrite dropWhileEnd_app; rewrite Hb; done. Qed.

Lemma dropWhileEnd_wireBlock d c :
  Js.dropWhileEnd Char.isWhiteSpace (wireBlock d c) = wireBlock d c.
Proof.
  unfold wireBlock. rewrite <- !append_assoc. by apply dropWhileEnd_app_id.
Qed.

Lemma wireBlock_nonEmpty d c : wireBlock d c <> "".
Proof. done. Qed.

Lemma append_nonEmpty_l (a b : string) : a <> "" -> a +:+ b <> "".
Proof. by destruct a. Qed.

Lemma dropWhile_wireBlock d c r :
  Js.dropWhile Char.isWhiteSpace (wireBlock d c +:+ r) = wireBlock d c +:+ r.
Proof. done. Qed.

Lemma trim_wireMessage c1 c2 c3 c4 :
  Js.trim (wireMessage c1 c2 c3 c4) = wireMessage c1 c2 c3 c4.
Proof.
  unfold Js.trim, wireMessage. rewrite dropWhile_wireBlock.
  assert (H45 : Js.dropWhileEnd Char.isWhiteSpace (wireBlock "4" c4 +:+ wireBlock "5" "")
                = wireBlock "4" c4 +:+ wireBlock "5" "").
  { apply dropWhileEnd_app_id; [apply dropWhileEnd_wireBlock|apply wireBlock_nonEmpty]. }
  assert (H345 : forall b3,
            Js.dropWhileEnd Char.isWhiteSpace (b3 +:+ wireBlock "4" c4 +:+ wireBlock "5" "")
            = b3 +:+ wireBlock "4" c4 +:+ wireBlock "5" "").
  { intros b3. apply dropWhileEnd_app_id; [exact H45|].
    apply append_nonEmpty_l, wireBlock_nonEmpty. }
  apply dropWhileEnd_app_id; [|apply append_nonEmpty_l, wireBlock_nonEmpty].
  apply dropWhileEnd_app_id; [apply H345|].
  destruct c3; [apply append_nonEmpty_l, wireBlock_nonEmpty|].
  rewrite append_nil_l. apply append_nonEmpty_l, wireBlock_nonEmpty.
Qed.

Lemma extractBlocks_wireMessage c1 c2 c3 c4 :
  blockContent c1 -> blockContent c2 ->
  (forall c, c3 = Some c -> blockContent c) -> blockContent c4 ->
  extractBlocks (wireMessage c1 c2 c3 c4) =
  fold_left (fun o m => Obj.set m.1 m.2 o) (assignedBlocks c1 c2 c3 c4) [].
Proof.
  intros H1 H2 H3 H4. unfold extractBlocks.
  rewrite execAll_wireMessage by done. fold (assignedBlocks c1 c2 c3 c4).
  set (blocks := fold_left _ _ _).
  assert (Hget : Obj.get "1" blocks = Some c1).
  { unfold blocks. rewrite get_fold_set. unfold assignedBlocks. by destruct c3. }
  destruct blocks; [discriminate|done].
Qed.

(** The decoder finds the type and the text block of a wire message. *)
Lemma parse_wireMessage c1 c2 c3 c4 :
  blockContent c1 -> blockContent c2 ->
  (forall c, c3 = Some c -> blockContent c) -> blockContent c4 ->
  c2 <> "" -> c4 <> "" ->
  messageType (parseMtMessage (wireMessage c1 c2 c3 c4))
    = ah_messageType (parseApplicationHeader c2)
  /\ textBlock (parseMtMessage (wireMessage c1 c2 c3 c4)) = parseTextBlock c4.
Proof.
  intros H1 H2 H3 H4 Hc2 Hc4. unfold parseMtMessage.
  rewrite trim_wireMessage, extractBlocks_wireMessage by done.
  cbn [messageType textBlock]. unfold getTruthy. rewrite !get_fold_set.
  assert (E2 : assignedLast "2" (assignedBlocks c1 c2 c3 c4) = Some c2).
  { unfold assignedBlocks. by destruct c3. }
  assert (E4 : assignedLast "4" (assignedBlocks c1 c2 c3 c4) = Some c4).
  { unfold assignedBlocks. by destruct c3. }
  rewrite E2, E4.
  destruct c2; [done|]. destruct c4; [done|]. done.
Qed.

(** ** Decoding a generated message: the text block *)

Lemma linesAfter_join sep ys :
  ys <> [] -> linesAfter sep ys = sep +:+ Js.join sep ys.
Proof.
  induction ys as [|y ys IH]; [done|]. intros _. simpl linesAfter.
  destruct ys as [|z zs]; [by rewrite append_nil_r|].
  rewrite IH by done. by rewrite join_cons.
Qed.

Lemma join_app sep xs ys :
  xs <> [] -> ys <> [] ->
  Js.join sep (xs ++ ys) = Js.join sep xs +:+ sep +:+ Js.join sep ys.
Proof. intros Hx Hy. by rewrite join_after, linesAfter_join. Qed.

Lemma concat_physical_nonEmpty f fs : concat (map physicalLines (f :: fs)) <> [].
Proof. done. Qed.

Lemma join_wireLines fs :
  Js.join CRLF (map wireLine fs) = Js.join CRLF (concat (map physicalLines fs)).
Proof.
  induction fs as [|f fs IH]; [done|].
  destruct fs as [|g gs].
  - simpl. by rewrite app_nil_r.
  - change (map wireLine (f :: g :: gs)) with (wireLine f :: wireLine g :: map wireLine gs).
    rewrite join_cons.
    change (wireLine g :: map wireLine gs) with (map wireLine (g :: gs)).
    rewrite IH.
    change (concat (map physicalLines (f :: g :: gs)))
      with (physicalLines f ++ concat (map physicalLines (g :: gs))).
    by rewrite join_app.
Qed.

Lemma contentLine_plain l : contentLine l = true -> plainLine l = true.
Proof. unfold contentLine. by intros [[? _]%andb_true_iff _]%andb_true_iff. Qed.

Lemma wellFormedField_inv f :
  wellFormedField f = true ->
  isTag (wf_tag f) = true /\ plainLine (wf_text f) = true
  /\ Forall (fun l => contentLine l = true) (wf_conts f).
Proof.
  unfold wellFormedField. intros [[Ht Hx]%andb_true_iff Hc]%andb_true_iff.
  split; [done|]. split; [done|]. apply Forall_forall. intros l Hl.
  rewrite forallb_forall in Hc. apply Hc. by apply list_elem_of_In.
Qed.

Lemma physicalLines_plain f :
  wellFormedField f = true -> Forall (fun l => plainLine l = true) (physicalLines f).
Proof.
  intros (Ht & Hx & Hc)%wellFormedField_inv. unfold physicalLines.
  apply Forall_cons. split; [by apply tagLine_plain|].
  eapply Forall_impl; [exact Hc|]. apply contentLine_plain.
Qed.

Lemma blockLines_plain fs :
  Forall (fun f => wellFormedField f = true) fs ->
  Forall (fun l => plainLine l = true) (blockLines fs).
Proof.
  intros H. unfold blockLines. apply Forall_app. split; [|by repeat constructor].
  induction H as [|f fs Hf _ IH]; [constructor|].
  change (concat (map physicalLines (f :: fs)))
    with (physicalLines f ++ concat (map physicalLines fs)).
  apply Forall_app. split; [by apply physicalLines_plain|done].
Qed.

(** The text block of a generated message holds the physical lines of its
    fields. *)
Lemma parseTextBlock_wire fs :
  fs <> [] -> Forall (fun f => wellFormedField f = true) fs ->
  parseTextBlock (CRLF +:+ (Js.join CRLF (map wireLine fs) +:+ CRLF) +:+ "-")
  = tokenize (blockLines fs).
Proof.
  intros Hne Hwf. unfold parseTextBlock.
  assert (Htext : CRLF +:+ (Js.join CRLF (map wireLine fs) +:+ CRLF) +:+ "-"
                  = CRLF +:+ Js.join CRLF (blockLines fs)).
  { unfold blockLines. rewrite join_wireLines.
    rewrite join_app by (done || by destruct fs). by rewrite append_assoc. }
  rewrite Htext.
  rewrite stripNewlines_join; [|done|by apply blockLines_plain|..].
  - rewrite splitLines_join; [done|by right| |by apply blockLines_plain].
    unfold blockLines. by destruct (concat _).
  - unfold blockLines. by destruct fs as [|f fs].
  - unfold blockLines. by rewrite last_snoc.
Qed.

Lemma lastOccurrence_content t conts tail :
  Forall (fun l => contentLine l = true) conts ->
  lastOccurrence t (conts ++ tail) = lastOccurrence t tail.
Proof.
  induction 1 as [|l ls Hl _ IH]; [done|]. simpl. rewrite IH.
  destruct (lastOccurrence t tail); [done|].
  unfold contentLine in Hl. destruct (matchTagLine l); [|done].
  by rewrite andb_false_r in Hl.
Qed.

Lemma blockLines_cons f fs :
  blockLines (f :: fs) =
  (":" +:+ wf_tag f +:+ ":" +:+ wf_text f) :: (wf_conts f ++ blockLines fs).
Proof.
  unfold blockLines.
  change (concat (map physicalLines (f :: fs)))
    with (physicalLines f ++ concat (map physicalLines fs)).
  unfold physicalLines. rewrite <- app_assoc. reflexivity.
Qed.

Lemma continuation_blockLines fs :
  Forall (fun f => wellFormedField f = true) fs -> continuation (blockLines fs) = [].
Proof.
  intros H. destruct H as [|f fs Hf _]; [done|].
  apply wellFormedField_inv in Hf as (Ht & Hx & _).
  rewrite blockLines_cons. cbn [continuation]. by rewrite matchTagLine_tag.
Qed.

Lemma lastOccurrence_blockLines t fs :
  Forall (fun f => wellFormedField f = true) fs ->
  lastOccurrence t (blockLines fs) = valueOf <$> findLast t fs.
Proof.
  induction 1 as [|f fs Hf Hfs IH]; [done|].
  pose proof Hf as (Ht & Hx & Hc)%wellFormedField_inv.
  rewrite blockLines_cons. cbn [lastOccurrence findLast].
  rewrite (lastOccurrence_content _ _ _ Hc), IH.
  rewrite matchTagLine_tag by done.
  destruct (findLast t fs) as [g|]; [done|].
  destruct (String.eqb t (wf_tag f)); [|done].
  cbn [fmap option_fmap option_map]. f_equal.
  unfold openedBy, valueOf. rewrite continuation_content by done.
  by rewrite continuation_blockLines, app_nil_r.
Qed.

(** The tokenizer maps a tag to the value of the last field that has it. *)
Lemma get_blockLines t fs :
  Forall (fun f => wellFormedField f = true) fs ->
  Obj.get t (tokenize (blockLines fs)) = (fun f => fieldValueOf (valueOf f)) <$> findLast t fs.
Proof.
  intros H. rewrite tokenize_get, lastOccurrence_blockLines by done.
  by destruct (findLast t fs).
Qed.

Lemma findLast_In t fs f : findLast t fs = Some f -> In f fs /\ wf_tag f = t.
Proof.
  induction fs as [|g fs IH]; [done|]. simpl.
  destruct (findLast t fs) as [h|].
  - intros [= ->]. destruct IH as [? ?]; [done|]. by split; [right|].
  - destruct (String.eqb_spec t (wf_tag g)); [|done].
    intros [= ->]. by split; [left|].
Qed.

Lemma findLast_app t fs gs :
  findLast t (fs ++ gs) =
  match findLast t gs with Some g => Some g | None => findLast t fs end.
Proof.
  induction fs as [|f fs IH].
  - simpl. by destruct (findLast t gs).
  - simpl. rewrite IH. by destruct (findLast t gs).
Qed.

Lemma findLast_none t fs :
  Forall (fun f => String.eqb t (wf_tag f) = false) fs -> findLast t fs = None.
Proof. induction 1 as [|f fs Hf _ IH]; [done|]. simpl. by rewrite IH, Hf. Qed.

Lemma In_get_NoDup {V} t (v : V) (o : Obj.JsObject V) :
  NoDup (Obj.keys o) -> In (t, v) o -> Obj.get t o = Some v.
Proof.
  unfold Obj.keys. induction o as [|[k w] o IH]; [done|]. simpl.
  intros [Hk Hnd]%NoDup_cons [[= -> ->]|Hin].
  - by rewrite String.eqb_refl.
  - destruct (String.eqb_spec t k) as [->|_]; [|by apply IH].
    exfalso. apply Hk. apply list_elem_of_In, in_map_iff. by exists (k, v).
Qed.

(** Every entry of the text block is the value of a field. *)
Lemma entry_blockLines t v fs :
  Forall (fun f => wellFormedField f = true) fs ->
  In (t, v) (Obj.entries (tokenize (blockLines fs))) ->
  exists f, In f fs /\ wf_tag f = t /\ v = fieldValueOf (valueOf f).
Proof.
  intros Hwf Hin. unfold Obj.entries in Hin.
  apply In_get_NoDup in Hin; [|apply NoDup_keys_tokenize].
  rewrite get_blockLines in Hin by done.
  destruct (findLast t fs) as [f|] eqn:E; [|done].
  injection Hin as <-. apply findLast_In in E as [? ?]. eauto.
Qed.

(** ** Validating a generated message *)

Section WireFields.
Variable fs : list WireField.
Hypothesis Hwf : Forall (fun f => wellFormedField f = true) fs.

Lemma firstLine_valueOf f :
  Js.nonEmpty (wf_text f) = true ->
  firstLine (fieldValueOf (valueOf f)) = Some (wf_text f).
Proof.
  intros H. unfold valueOf. rewrite H. simpl.
  unfold fieldValueOf. by destruct (wf_conts f).
Qed.

Lemma missing_valueOf f :
  Js.nonEmpty (wf_text f) = true ->
  match fieldValueOf (valueOf f) with
  | Scalar s => Js.nonEmpty s
  | Lines ls => negb (Nat.eqb (length ls) 0)
  end = true.
Proof.
  intros H. unfold valueOf. rewrite H. simpl.
  unfold fieldValueOf. by destruct (wf_conts f).
Qed.

Lemma supplied_get t :
  suppliedIn fs t = true ->
  exists f, findLast t fs = Some f /\ Js.nonEmpty (wf_text f) = true
            /\ Obj.get t (tokenize (blockLines fs)) = Some (fieldValueOf (valueOf f)).
Proof.
  unfold suppliedIn. rewrite get_blockLines by done.
  destruct (findLast t fs) as [f|]; [|done]. intros H. by exists f.
Qed.

Lemma supplied_not_missing t :
  suppliedIn fs t = true -> missing t (tokenize (blockLines fs)) = false.
Proof.
  intros (f & _ & Hne & Hget)%supplied_get. unfold missing. rewrite Hget.
  pose proof (missing_valueOf f Hne) as H.
  destruct (fieldValueOf (valueOf f)).
  - by rewrite H.
  - by apply negb_true_iff in H.
Qed.

Lemma supplied_present t :
  suppliedIn fs t = true -> present t (tokenize (blockLines fs)) = true.
Proof. intros H. by apply missing_present, supplied_not_missing. Qed.

Lemma passes_first t ok :
  textPasses fs t ok = true ->
  exists s, present t (tokenize (blockLines fs)) = true
            /\ Obj.get t (tokenize (blockLines fs)) ≫= firstLine = Some s
            /\ ok s = true.
Proof.
  unfold textPasses. destruct (findLast t fs) as [f|] eqn:E; [|done].
  intros [Hne Hok]%andb_true_iff. exists (wf_text f).
  split; [apply supplied_present; unfold suppliedIn; by rewrite E|].
  rewrite get_blockLines, E by done. simpl. by rewrite firstLine_valueOf.
Qed.

Lemma mandatoryErrors_wire spec :
  Forall (fun t => suppliedIn fs t = true) (mandatoryTags spec) ->
  mandatoryErrors (spec_fields spec) (tokenize (blockLines fs)) = [].
Proof.
  unfold mandatoryTags. induction (spec_fields spec) as [|s specs IH]; [done|].
  simpl. destruct (mandatory s); simpl.
  - intros [Hs Hrest]%Forall_cons. rewrite (supplied_not_missing _ Hs). auto.
  - auto.
Qed.

Lemma formatErrors_wire specs :
  Forall (fun f => withinLimit specs f = true) fs ->
  formatErrors specs (tokenize (blockLines fs)) = [].
Proof.
  intros Hlim. unfold formatErrors.
  assert (H : forall e, In e (Obj.entries (tokenize (blockLines fs))) ->
            match findSpec specs e.1 with
            | Some s => match tooLong s e.2 with
                        | Some m => [fieldTooLongError e.1 m e.2]
                        | None => []
                        end
            | None => []
            end = []).
  { intros [t v] Hin. simpl.
    destruct (entry_blockLines _ _ _ Hwf Hin) as (f & Hf & <- & ->).
    rewrite Forall_forall in Hlim. apply list_elem_of_In, Hlim in Hf.
    unfold withinLimit in Hf. destruct (findSpec specs (wf_tag f)); [|done].
    by destruct (tooLong _ _). }
  induction (Obj.entries (tokenize (blockLines fs))) as [|e es IH]; [done|].
  simpl. rewrite (H e) by by left. apply IH. intros e' He'. apply H. by right.
Qed.

Lemma check32A_wire :
  textPasses fs "32A" (fun s => matchesAmount (Js.removeWhiteSpace s)) = true ->
  check32A (tokenize (blockLines fs)) = Ok [].
Proof.
  intros (s & Hp & Hs & Hok)%passes_first. unfold check32A.
  rewrite Hp, Hs. simpl. by rewrite Hok.
Qed.

Lemma check71A_wire :
  textPasses fs "71A" (fun s => isChargeCode (Some s)) = true ->
  check71A (tokenize (blockLines fs)) = [].
Proof.
  intros (s & Hp & Hs & Hok)%passes_first. unfold check71A.
  by rewrite Hp, Hs, Hok.
Qed.

Lemma checkBeneficiary_wire :
  suppliedIn fs "59" = true -> checkBeneficiary (tokenize (blockLines fs)) = [].
Proof. intros H%supplied_present. unfold checkBeneficiary. by rewrite H. Qed.

Lemma checkOpening_wire :
  suppliedIn fs "60F" = true -> checkOpening (tokenize (blockLines fs)) = [].
Proof. intros H%supplied_present. unfold checkOpening. by rewrite H. Qed.

Lemma checkClosing_wire :
  suppliedIn fs "62F" = true -> checkClosing (tokenize (blockLines fs)) = [].
Proof. intros H%supplied_present. unfold checkClosing. by rewrite H. Qed.

End WireFields.

Lemma checkBalances_returns o ts :
  noEmptyLines o -> exists w, checkBalances o ts = Ok w.
Proof.
  intros Hne. induction ts as [|t ts [w IH]]; simpl; [eauto|].
  unfold checkBalance. destruct (present t o) eqn:Hp.
  - destruct (stripped_present _ _ Hne Hp) as (s & _ & ->).
    rewrite !bind_Ok, IH, bind_Ok. eauto.
  - rewrite bind_Ok, IH, bind_Ok. eauto.
Qed.

(** A record of a registered type whose text block holds well-formed fields,
    the mandatory ones among them and all within their limits, is valid. *)
Lemma valid_wire type spec p fs :
  MT_SPECS !! ("MT" +:+ type) = Some spec ->
  messageType p = "MT" +:+ type ->
  textBlock p = tokenize (blockLines fs) ->
  Forall (fun f => wellFormedField f = true) fs ->
  Forall (fun t => suppliedIn fs t = true) (mandatoryTags spec) ->
  Forall (fun f => withinLimit (spec_fields spec) f = true) fs ->
  specificsPass type fs = true ->
  exists r, validateMtMessage (inr p) = Ok r /\ valid r = true.
Proof.
  intros Hspec Htype Htext Hwf Hmand Hlim Hpass.
  assert (Hkey : Js.replaceFirst "MT" "" (messageType p) = type).
  { by rewrite Htype, replaceFirst_MT. }
  rewrite (validate_registered p spec) by by rewrite Hkey.
  rewrite Hkey, Htext.
  rewrite (mandatoryErrors_wire fs Hwf) by done.
  rewrite (formatErrors_wire fs Hwf) by done.
  assert (Hs : exists w, specificIssues type (tokenize (blockLines fs)) = Ok ([], w)).
  { unfold specificIssues. unfold specificsPass in Hpass.
    apply registry_type in Hspec.
    destruct Hspec as [[-> ->]|[[-> ->]|[[-> ->]|[-> ->]]]].
    - change (String.eqb "103" "103") with true in *. cbn iota in *.
      apply andb_true_iff in Hpass as [H32 H71].
      rewrite (check32A_wire fs Hwf H32), bind_Ok.
      rewrite (check71A_wire fs Hwf H71).
      rewrite (checkBeneficiary_wire fs Hwf).
      + eauto.
      + rewrite Forall_forall in Hmand. apply Hmand, list_elem_of_In.
        vm_compute. repeat (first [left; reflexivity | right]).
    - change (String.eqb "202" "103") with false. cbn iota.
      change (String.eqb "202" "940" || String.eqb "202" "950") with false.
      cbn iota. eauto.
    - change (String.eqb "940" "103") with false. cbn iota.
      change (String.eqb "940" "940" || String.eqb "940" "950") with true.
      cbn iota.
      destruct (checkBalances_returns (tokenize (blockLines fs)) balanceFields)
        as [w ->]; [apply tokenize_noEmptyLines|].
      rewrite bind_Ok.
      rewrite (checkOpening_wire fs Hwf), (checkClosing_wire fs Hwf).
      + eauto.
      + rewrite Forall_forall in Hmand. apply Hmand, list_elem_of_In.
        vm_compute. repeat (first [left; reflexivity | right]).
      + rewrite Forall_forall in Hmand. apply Hmand, list_elem_of_In.
        vm_compute. repeat (first [left; reflexivity | right]).
    - change (String.eqb "950" "103") with false. cbn iota.
      change (String.eqb "950" "940" || String.eqb "950" "950") with true.
      cbn iota.
      destruct (checkBalances_returns (tokenize (blockLines fs)) balanceFields)
        as [w ->]; [apply tokenize_noEmptyLines|].
      rewrite bind_Ok.
      rewrite (checkOpening_wire fs Hwf), (checkClosing_wire fs Hwf).
      + eauto.
      + rewrite Forall_forall in Hmand. apply Hmand, list_elem_of_In.
        vm_compute. repeat (first [left; reflexivity | right]).
      + rewrite Forall_forall in Hmand. apply Hmand, list_elem_of_In.
        vm_compute. repeat (first [left; reflexivity | right]). }
  destruct Hs as [w ->]. rewrite bind_Ok. eexists. split; [reflexivity|]. done.
Qed.

(** ** The fields the generator writes *)

Lemma optLine_wire t v :
  optLine (":" +:+ t +:+ ":") v = map wireLine (optField t v).
Proof.
  destruct v as [x|]; [|done]. simpl. unfold wireLine, physicalLines. simpl.
  by rewrite !append_assoc.
Qed.

Lemma partyLine_wire t account name :
  partyLine (":" +:+ t +:+ ":") account name = map wireLine (partyField t account name).
Proof.
  destruct account as [a|], name as [n|]; simpl; try done;
    unfold wireLine, physicalLines; simpl; rewrite ?join_cons; simpl;
    by rewrite !append_assoc, ?append_nil_r.
Qed.

Lemma statementLines_wire fields :
  statementLines fields = map wireLine (statementFields fields).
Proof.
  unfold statementLines, statementFields.
  destruct (fld fields "statementLines") as [v|]; [|done].
  rewrite map_map. by apply map_ext.
Qed.

Lemma fld_lookup fields k v : fld fields k = Some v -> Js.nonEmpty v = true.
Proof.
  unfold fld. destruct (fields !! k) as [x|]; [|done].
  destruct (Js.nonEmpty x) eqn:E; [|done]. by intros [= <-].
Qed.

(** ** No brace in what the generator writes *)

Lemma noBrace_app a b : noBrace (a +:+ b) = noBrace a && noBrace b.
Proof. apply all_app. Qed.

Lemma noBrace_join sep ls :
  noBrace sep = true -> Forall (fun l => noBrace l = true) ls ->
  noBrace (Js.join sep ls) = true.
Proof.
  intros Hsep. induction 1 as [|l ls Hl Hls IH]; [done|].
  destruct ls as [|l' ls']; [done|].
  rewrite join_cons, !noBrace_app, Hl, Hsep. exact IH.
Qed.

Lemma digit_not_brace c : Char.isDigit c = true -> negb (Char.isBrace c) = true.
Proof.
  unfold Char.isDigit, Char.isBrace, Char.code. intros [H1 H2]%andb_true_iff.
  apply N.leb_le in H2.
  destruct (Ascii.eqb_spec c "{") as [->|_]; [done|].
  destruct (Ascii.eqb_spec c "}") as [->|_]; done.
Qed.

Lemma upper_not_brace c : Char.isUpper c = true -> negb (Char.isBrace c) = true.
Proof.
  unfold Char.isUpper, Char.isBrace, Char.code. intros [H1 H2]%andb_true_iff.
  apply N.leb_le in H2.
  destruct (Ascii.eqb_spec c "{") as [->|_]; [done|].
  destruct (Ascii.eqb_spec c "}") as [->|_]; done.
Qed.

Lemma tag_noBrace t : isTag t = true -> noBrace t = true.
Proof.
  unfold noBrace.
  destruct t as [|d1 [|d2 [|c [|? ?]]]]; try discriminate; simpl.
  - intros [H1 H2]%andb_true_iff.
    by rewrite (digit_not_brace _ H1), (digit_not_brace _ H2).
  - intros [[H1 H2]%andb_true_iff H3]%andb_true_iff.
    by rewrite (digit_not_brace _ H1), (digit_not_brace _ H2), (upper_not_brace _ H3).
Qed.

Lemma safeField_inv f :
  safeField f = true ->
  wellFormedField f = true /\ noBrace (wf_text f) = true
  /\ Forall (fun l => noBrace l = true) (wf_conts f).
Proof.
  unfold safeField. intros [[Hw Hx]%andb_true_iff Hc]%andb_true_iff.
  split; [done|]. split; [done|]. apply Forall_forall. intros l Hl.
  rewrite forallb_forall in Hc. apply Hc. by apply list_elem_of_In.
Qed.

Lemma safeField_wellFormed fs :
  Forall (fun f => safeField f = true) fs ->
  Forall (fun f => wellFormedField f = true) fs.
Proof.
  intros H. eapply Forall_impl; [exact H|]. by intros f (? & _)%safeField_inv.
Qed.

Lemma noBrace_wireLine f : safeField f = true -> noBrace (wireLine f) = true.
Proof.
  intros (Hw & Hx & Hc)%safeField_inv.
  apply wellFormedField_inv in Hw as (Ht & _ & _).
  unfold wireLine, physicalLines. apply noBrace_join; [done|].
  apply Forall_cons. split; [|done].
  rewrite !noBrace_app, (tag_noBrace _ Ht), Hx. done.
Qed.

Lemma noBrace_textBlockOf fs :
  Forall (fun f => safeField f = true) fs -> noBrace (textBlockOf fs) = true.
Proof.
  intros H. unfold textBlockOf. rewrite !noBrace_app.
  rewrite noBrace_join; [done|done|].
  apply Forall_map. eapply Forall_impl; [exact H|]. apply noBrace_wireLine.
Qed.

(** ** Valid identifiers *)

Lemma exactly_all n cls s r :
  exactly n cls s = Some r ->
  exists p, s = p +:+ r /\ Js.all cls p = true.
Proof.
  revert s. induction n as [|n IH]; intros s; simpl.
  - intros [= ->]. by exists "".
  - destruct s as [|c s]; [done|]. destruct (cls c) eqn:E; [|done].
    intros (p & -> & Hp)%IH. exists (String c p). simpl. by rewrite E.
Qed.

Lemma all_impl (p q : ascii -> bool) s :
  (forall c, p c = true -> q c = true) -> Js.all p s = true -> Js.all q s = true.
Proof.
  intros H. induction s as [|c s IH]; [done|]. simpl.
  intros [Hc Hs]%andb_true_iff. by rewrite (H _ Hc), IH.
Qed.

Lemma upperOrDigit_not_brace c :
  Char.isUpperOrDigit c = true -> negb (Char.isBrace c) = true.
Proof.
  unfold Char.isUpperOrDigit. intros [H|H]%orb_true_iff.
  - by apply upper_not_brace.
  - by apply digit_not_brace.
Qed.

Lemma bicPattern_noBrace s : matchesBicPattern s = true -> noBrace s = true.
Proof.
  unfold matchesBicPattern.
  destruct (exactly 4 _ s) as [s1|] eqn:E1; [|done].
  destruct (exactly 2 Char.isUpper s1) as [s2|] eqn:E2; [|done].
  destruct (exactly 2 Char.isUpperOrDigit s2) as [s3|] eqn:E3; [|done].
  apply exactly_all in E1 as (p1 & -> & H1).
  apply exactly_all in E2 as (p2 & -> & H2).
  apply exactly_all in E3 as (p3 & -> & H3).
  apply (all_impl _ _ _ upper_not_brace) in H1, H2.
  apply (all_impl _ _ _ upperOrDigit_not_brace) in H3.
  intros Hm.
  assert (H4 : noBrace s3 = true).
  { destruct s3 as [|c s3]; [done|].
    destruct (exactly 3 Char.isUpperOrDigit (String c s3)) as [s4|] eqn:E4; [|done].
    destruct s4; [|done].
    apply exactly_all in E4 as (p4 & -> & H4).
    rewrite append_nil_r. by apply (all_impl _ _ _ upperOrDigit_not_brace). }
  rewrite !noBrace_app. unfold noBrace at 1 2 3. by rewrite H1, H2, H3, H4.
Qed.

Lemma snoc_if_nil {A} (c : bool) (l : list A) x :
  (if c then l ++ [x] else l) = [] -> c = false /\ l = [].
Proof. destruct c; [by destruct l|done]. Qed.

(** A valid identifier is normalized to a text without brace. *)
Lemma bic_valid_noBrace b :
  bic_valid (validateBic b) = true ->
  noBrace (normalizeBicTo12 (normalized (validateBic b))) = true.
Proof.
  unfold validateBic.
  destruct (negb (Js.nonEmpty (normalizeBic b))); [done|].
  cbn [bic_valid normalized]. intros H%length_zero_nil.
  apply snoc_if_nil in H as [_ H]. apply snoc_if_nil in H as [_ H].
  apply snoc_if_nil in H as [Hpat _]. apply negb_false_iff in Hpat.
  apply bicPattern_noBrace in Hpat. unfold normalizeBicTo12.
  destruct (Nat.eqb _ 8); [by rewrite noBrace_app, Hpat|].
  destruct (Nat.eqb _ 11); [by rewrite noBrace_app, Hpat|done].
Qed.

(** ** The generator writes a wire message *)

Lemma valuesSafe_fld fields keys k v :
  valuesSafe fields keys = true -> In k keys -> fld fields k = Some v ->
  plainLine v = true /\ noBrace v = true.
Proof.
  unfold valuesSafe. rewrite forallb_forall. intros H Hk Hv.
  specialize (H k Hk). rewrite Hv in H. by apply andb_true_iff in H.
Qed.

Lemma generateBlock1_wire S :
  generateBlock1 S = wireBlock "1" ("F01" +:+ S +:+ "0000000000").
Proof. unfold generateBlock1, wireBlock. by rewrite !append_assoc. Qed.

Lemma generateBlock2_wire type R :
  generateBlock2 type R = wireBlock "2" ("I" +:+ type +:+ R +:+ "N").
Proof. unfold generateBlock2, wireBlock. by rewrite !append_assoc. Qed.

Lemma generateBlock3_wire fields :
  generateBlock3 fields =
  match block3Content fields with Some c => wireBlock "3" c | None => "" end.
Proof.
  unfold generateBlock3, block3Content, wireBlock.
  destruct (fld fields "uetr"), (fld fields "mur"); simpl;
    by rewrite ?append_assoc, ?append_nil_r.
Qed.

Lemma block4_wire content :
  "{4:" +:+ CRLF +:+ content +:+ "-}" = wireBlock "4" (CRLF +:+ content +:+ "-").
Proof. unfold wireBlock. by rewrite !append_assoc. Qed.

Lemma blockContent_subfield key x c :
  noBrace key = true -> noBrace x = true -> blockContent c ->
  blockContent (("{" +:+ key +:+ x +:+ "}") +:+ c).
Proof.
  intros Hk Hx Hc.
  replace (("{" +:+ key +:+ x +:+ "}") +:+ c) with ("{" +:+ (key +:+ x) +:+ "}" +:+ c)
    by (by rewrite !append_assoc).
  apply blockContent_nested; [|done]. by rewrite noBrace_app, Hk, Hx.
Qed.

Lemma blockContent_block3 fields c :
  valuesSafe fields ["uetr"; "mur"] = true ->
  block3Content fields = Some c -> blockContent c.
Proof.
  intros Hsafe. unfold block3Content.
  assert (Hu : forall x, fld fields "uetr" = Some x -> noBrace x = true).
  { intros x Hx. eapply valuesSafe_fld in Hx as [_ Hx]; [done|exact Hsafe|].
    simpl; tauto. }
  assert (Hm : forall x, fld fields "mur" = Some x -> noBrace x = true).
  { intros x Hx. eapply valuesSafe_fld in Hx as [_ Hx]; [done|exact Hsafe|].
    simpl; tauto. }
  destruct (fld fields "uetr") as [u|], (fld fields "mur") as [m|];
    intros [= <-].
  - apply (blockContent_subfield "121:" u); [done|by apply Hu|].
    rewrite <- (append_nil_r (_ +:+ m +:+ _)).
    apply (blockContent_subfield "108:" m); [done|by apply Hm|apply blockContent_nil].
  - apply (blockContent_subfield "121:" u); [done|by apply Hu|apply blockContent_nil].
  - rewrite append_nil_l. rewrite <- (append_nil_r (_ +:+ m +:+ _)).
    apply (blockContent_subfield "108:" m); [done|by apply Hm|apply blockContent_nil].
Qed.

Lemma substring_0_0 s : substring 0 0 s = "".
Proof. by destruct s. Qed.

Lemma applicationHeader_type type spec R :
  MT_SPECS !! ("MT" +:+ type) = Some spec ->
  ah_messageType (parseApplicationHeader ("I" +:+ type +:+ R +:+ "N")) = "MT" +:+ type
  /\ noBrace type = true.
Proof.
  intros H%registry_type.
  destruct H as [[-> _]|[[-> _]|[[-> _]|[-> _]]]]; (split; [|reflexivity]);
    unfold parseApplicationHeader, Js.slice, Js.charAt; simpl;
    by rewrite !substring_0_0.
Qed.

(** Generating, decoding and validating, for fields that are in order *)
Lemma roundtrip_wire toFixed2 type spec input fs :
  bic_valid (validateBic (senderBic input)) = true ->
  bic_valid (validateBic (receiverBic input)) = true ->
  valuesSafe (fields input) ["uetr"; "mur"] = true ->
  Js.replaceFirst "MT" "" (in_messageType input) = type ->
  MT_SPECS !! ("MT" +:+ type) = Some spec ->
  generateBlock4 toFixed2 type (fields input) = Ok (wireBlock "4" (textBlockOf fs)) ->
  fs <> [] ->
  Forall (fun f => safeField f = true) fs ->
  Forall (fun t => suppliedIn fs t = true) (mandatoryTags spec) ->
  Forall (fun f => withinLimit (spec_fields spec) f = true) fs ->
  specificsPass type fs = true ->
  exists out r,
    generateMtMessage toFixed2 input = Ok out
    /\ validateMtMessage (inl out) = Ok r
    /\ valid r = true.
Proof.
  intros Hs Hr Hsafe Htype Hspec Hb4 Hne Hfs Hmand Hlim Hpass.
  set (S := normalizeBicTo12 (normalized (validateBic (senderBic input)))).
  set (R := normalizeBicTo12 (normalized (validateBic (receiverBic input)))).
  exists (wireMessage ("F01" +:+ S +:+ "0000000000") ("I" +:+ type +:+ R +:+ "N")
            (block3Content (fields input)) (textBlockOf fs)).
  assert (Hgen : generateMtMessage toFixed2 input =
    Ok (wireMessage ("F01" +:+ S +:+ "0000000000") ("I" +:+ type +:+ R +:+ "N")
          (block3Content (fields input)) (textBlockOf fs))).
  { unfold generateMtMessage. rewrite Hs, Hr, Htype, Hb4. cbn [negb]. rewrite bind_Ok.
    rewrite generateBlock1_wire, generateBlock2_wire, generateBlock3_wire.
    reflexivity. }
  destruct (applicationHeader_type type spec R Hspec) as [Hah Htb].
  destruct (parse_wireMessage ("F01" +:+ S +:+ "0000000000") ("I" +:+ type +:+ R +:+ "N")
              (block3Content (fields input)) (textBlockOf fs)) as [Hmt Htext].
  - apply blockContent_plain. rewrite !noBrace_app. unfold S.
    by rewrite bic_valid_noBrace.
  - apply blockContent_plain. rewrite !noBrace_app, Htb. unfold R.
    by rewrite bic_valid_noBrace.
  - intros c Hc. by eapply blockContent_block3.
  - apply blockContent_plain. by apply noBrace_textBlockOf.
  - done.
  - done.
  - rewrite Hah in Hmt. unfold textBlockOf in Htext at 2.
    rewrite parseTextBlock_wire in Htext by (done || by apply safeField_wellFormed).
    destruct (valid_wire type spec _ fs Hspec Hmt Htext) as (r & Hv & Hvalid);
      try done; [by apply safeField_wellFormed|].
    exists r. by rewrite validate_string.
Qed.

(** ** The fields of each message type *)

Lemma findLast_optField t t' v :
  findLast t (optField t' v) =
  if String.eqb t t' then (fun x => mkWireField t' x []) <$> v else None.
Proof. destruct v; simpl; by destruct (String.eqb t t'). Qed.

Lemma findLast_partyField t t' a n :
  findLast t (partyField t' a n) =
  if String.eqb t t' then head (partyField t' a n) else None.
Proof. destruct a, n; simpl; by destruct (String.eqb t t'). Qed.

Lemma findLast_statementFields t fields :
  String.eqb t "61" = false -> findLast t (statementFields fields) = None.
Proof.
  intros E. apply findLast_none. unfold statementFields.
  destruct (fld fields "statementLines"); [|constructor].
  apply Forall_map. apply Forall_forall. by intros.
Qed.

(** Evaluates the comparisons of literal tags. *)
Ltac eval_eqb :=
  repeat match goal with
         | |- context [String.eqb ?a ?b] =>
             let r := eval vm_compute in (String.eqb a b) in
             change (String.eqb a b) with r
         end;
  cbv iota.

(** Finds the last field of a tag in the fields of a message. *)
Ltac find_last :=
  rewrite ?findLast_app, ?findLast_optField, ?findLast_partyField;
  rewrite ?findLast_statementFields by reflexivity;
  eval_eqb.

Lemma supplied_fld fields k :
  supplied fields k = true -> exists v, fld fields k = Some v /\ Js.nonEmpty v = true.
Proof.
  unfold supplied. destruct (fld fields k) as [v|] eqn:E; [|done].
  intros _. exists v. split; [done|]. by eapply fld_lookup.
Qed.

Lemma within_fld fields k m v :
  within fields k m = true -> fld fields k = Some v -> String.length v <= m.
Proof. unfold within. intros H Hv. rewrite Hv in H. by apply Nat.leb_le. Qed.

Lemma Forall_optField (P : WireField -> Prop) t v :
  (forall x, v = Some x -> P (mkWireField t x [])) -> Forall P (optField t v).
Proof. destruct v; [|constructor]. intros H. repeat constructor. by apply H. Qed.

Lemma safeField_opt t x :
  isTag t = true -> plainLine x = true -> noBrace x = true ->
  safeField (mkWireField t x []) = true.
Proof.
  intros Ht Hp Hb. unfold safeField, wellFormedField. simpl. by rewrite Ht, Hp, Hb.
Qed.

Lemma safe_optField fields keys t k :
  valuesSafe fields keys = true -> In k keys -> isTag t = true ->
  Forall (fun f => safeField f = true) (optField t (fld fields k)).
Proof.
  intros Hsafe Hk Ht. apply Forall_optField. intros x Hx.
  destruct (valuesSafe_fld _ _ _ _ Hsafe Hk Hx). by apply safeField_opt.
Qed.

Lemma splitChar_all p c v :
  Js.all p v = true -> Forall (fun l => Js.all p l = true) (Js.splitChar c v).
Proof.
  induction v as [|x v IH]; [by repeat constructor|]. simpl.
  intros [Hx Hv]%andb_true_iff. specialize (IH Hv).
  destruct (Ascii.eqb x c); [by constructor|].
  destruct (Js.splitChar c v) as [|l ls]; simpl.
  - repeat constructor. simpl. by rewrite Hx.
  - apply Forall_cons in IH as [Hl Hls]. constructor; [|done]. simpl. by rewrite Hx, Hl.
Qed.

Lemma safe_statementFields fields keys :
  valuesSafe fields keys = true -> In "statementLines" keys ->
  Forall (fun f => safeField f = true) (statementFields fields).
Proof.
  intros Hsafe Hk. unfold statementFields.
  destruct (fld fields "statementLines") as [v|] eqn:E; [|constructor].
  destruct (valuesSafe_fld _ _ _ _ Hsafe Hk E) as [Hp Hb].
  apply Forall_map.
  pose proof (splitChar_all _ "|" v Hp) as H1.
  pose proof (splitChar_all _ "|" v Hb) as H2.
  rewrite Forall_forall in H1, H2. apply Forall_forall. intros l Hl.
  apply safeField_opt; [done|by apply H1|by apply H2].
Qed.

Lemma withinLimit_unlimited specs t text conts s :
  findSpec specs t = Some s -> maxLength s = None ->
  withinLimit specs (mkWireField t text conts) = true.
Proof. intros Hs Hm. unfold withinLimit, tooLong. simpl. by rewrite Hs, Hm. Qed.

Lemma withinLimit_unknown specs t text conts :
  findSpec specs t = None -> withinLimit specs (mkWireField t text conts) = true.
Proof. intros Hs. unfold withinLimit. simpl. by rewrite Hs. Qed.

Lemma withinLimit_limited specs t x s m :
  findSpec specs t = Some s -> maxLength s = Some m -> String.length x <= m ->
  withinLimit specs (mkWireField t x []) = true.
Proof.
  intros Hs Hm Hlen. unfold withinLimit, tooLong. simpl. rewrite Hs, Hm.
  replace (joined (fieldValueOf (valueOf (mkWireField t x [])))) with x.
  - apply Nat.ltb_ge in Hlen. rewrite Hlen. by rewrite andb_false_r.
  - unfold valueOf. simpl. by destruct x.
Qed.

Lemma limit_statementFields specs fields s :
  findSpec specs "61" = Some s -> maxLength s = None ->
  Forall (fun f => withinLimit specs f = true) (statementFields fields).
Proof.
  intros Hs Hm. unfold statementFields.
  destruct (fld fields "statementLines"); [|constructor].
  apply Forall_map, Forall_forall. intros l _. by eapply withinLimit_unlimited.
Qed.

Lemma generateMT940Content_wire fields :
  generateMT940Content fields = Js.join CRLF (map wireLine (fields940 fields)) +:+ CRLF.
Proof.
  unfold generateMT940Content. rewrite <- !app_assoc. unfold fields940.
  rewrite !map_app, <- !optLine_wire, <- statementLines_wire. reflexivity.
Qed.

Lemma generateMT950Content_wire fields :
  generateMT950Content fields = Js.join CRLF (map wireLine (fields950 fields)) +:+ CRLF.
Proof.
  unfold generateMT950Content. rewrite <- !app_assoc. unfold fields950.
  rewrite !map_app, <- !optLine_wire, <- statementLines_wire. reflexivity.
Qed.

Ltac in_keys := simpl; repeat (first [left; reflexivity | right]).

Lemma roundtrip_940 toFixed2 input :
  bic_valid (validateBic (senderBic input)) = true ->
  bic_valid (validateBic (receiverBic input)) = true ->
  valuesSafe (fields input) ["uetr"; "mur"] = true ->
  Js.replaceFirst "MT" "" (in_messageType input) = "940" ->
  readyStatement (fields input) = true ->
  exists out r,
    generateMtMessage toFixed2 input = Ok out
    /\ validateMtMessage (inl out) = Ok r
    /\ valid r = true.
Proof.
  intros Hs Hr Hsafe3 Htype Hready. unfold readyStatement in Hready.
  rewrite !andb_true_iff in Hready.
  destruct Hready as (((((((Hready & H1) & Hw1) & H2) & Hw2) & H3) & H4) & H5).
  destruct (supplied_fld _ _ H1) as (ref & Href & Hrefne).
  destruct (supplied_fld _ _ H2) as (acc & Hacc & Haccne).
  destruct (supplied_fld _ _ H3) as (num & Hnum & Hnumne).
  destruct (supplied_fld _ _ H4) as (ob & Hob & Hobne).
  destruct (supplied_fld _ _ H5) as (cb & Hcb & Hcbne).
  apply (roundtrip_wire toFixed2 "940" MT940_SPEC input (fields940 (fields input)));
    try done.
  - unfold generateBlock4. simpl String.eqb. cbv iota. rewrite bind_Ok.
    by rewrite generateMT940Content_wire, block4_wire.
  - unfold fields940. rewrite Href. done.
  - unfold fields940. repeat (apply Forall_app; split);
      try (eapply safe_optField; [exact Hready|in_keys|reflexivity]).
    eapply safe_statementFields; [exact Hready|in_keys].
  - change (mandatoryTags MT940_SPEC) with ["20"; "25"; "28C"; "60F"; "62F"].
    repeat (apply Forall_cons; split); try apply Forall_nil;
      unfold suppliedIn, fields940; find_last;
      rewrite ?Href, ?Hacc, ?Hnum, ?Hob, ?Hcb;
      destruct (fld (fields input) "closingAvailableBalance");
      cbn [fmap option_fmap option_map wf_text]; first [assumption | exact I].
  - unfold fields940. repeat (apply Forall_app; split);
      try (eapply limit_statementFields; reflexivity);
      apply Forall_optField; intros x Hx;
      try (eapply withinLimit_unlimited; reflexivity).
    + eapply withinLimit_limited; [reflexivity|reflexivity|].
      by eapply within_fld.
    + eapply withinLimit_limited; [reflexivity|reflexivity|].
      by eapply within_fld.
Qed.

Lemma roundtrip_950 toFixed2 input :
  bic_valid (validateBic (senderBic input)) = true ->
  bic_valid (validateBic (receiverBic input)) = true ->
  valuesSafe (fields input) ["uetr"; "mur"] = true ->
  Js.replaceFirst "MT" "" (in_messageType input) = "950" ->
  readyStatement (fields input) = true ->
  exists out r,
    generateMtMessage toFixed2 input = Ok out
    /\ validateMtMessage (inl out) = Ok r
    /\ valid r = true.
Proof.
  intros Hs Hr Hsafe3 Htype Hready. unfold readyStatement in Hready.
  rewrite !andb_true_iff in Hready.
  destruct Hready as (((((((Hready & H1) & Hw1) & H2) & Hw2) & H3) & H4) & H5).
  destruct (supplied_fld _ _ H1) as (ref & Href & Hrefne).
  destruct (supplied_fld _ _ H2) as (acc & Hacc & Haccne).
  destruct (supplied_fld _ _ H3) as (num & Hnum & Hnumne).
  destruct (supplied_fld _ _ H4) as (ob & Hob & Hobne).
  destruct (supplied_fld _ _ H5) as (cb & Hcb & Hcbne).
  apply (roundtrip_wire toFixed2 "950" MT950_SPEC input (fields950 (fields input)));
    try done.
  - unfold generateBlock4. simpl String.eqb. cbv iota. rewrite bind_Ok.
    by rewrite generateMT950Content_wire, block4_wire.
  - unfold fields950. rewrite Href. done.
  - unfold fields950. repeat (apply Forall_app; split);
      try (eapply safe_optField; [exact Hready|in_keys|reflexivity]).
    eapply safe_statementFields; [exact Hready|in_keys].
  - change (mandatoryTags MT950_SPEC) with ["20"; "25"; "28C"; "60F"; "62F"].
    repeat (apply Forall_cons; split); try apply Forall_nil;
      unfold suppliedIn, fields950; find_last;
      rewrite ?Href, ?Hacc, ?Hnum, ?Hob, ?Hcb;
      cbn [fmap option_fmap option_map wf_text]; first [assumption | exact I].
  - unfold fields950. repeat (apply Forall_app; split);
      try (eapply limit_statementFields; reflexivity);
      apply Forall_optField; intros x Hx;
      try (eapply withinLimit_unlimited; reflexivity).
    + eapply withinLimit_limited; [reflexivity|reflexivity|].
      eapply within_fld; [|exact Hx]; assumption.
    + eapply withinLimit_limited; [reflexivity|reflexivity|].
      eapply within_fld; [|exact Hx]; assumption.
Qed.

Lemma findLast_amountField toFixed2 t fields :
  findLast t (amountField toFixed2 fields) =
  if String.eqb t "32A" then head (amountField toFixed2 fields) else None.
Proof.
  unfold amountField.
  destruct (fld fields "valueDate"), (fld fields "currency"), (fld fields "amount");
    simpl; by destruct (String.eqb t "32A").
Qed.

Lemma findLast_instructedField toFixed2 t fields :
  findLast t (instructedField toFixed2 fields) =
  if String.eqb t "33B" then head (instructedField toFixed2 fields) else None.
Proof.
  unfold instructedField.
  destruct (fld fields "instructedCurrency"), (fld fields "instructedAmount");
    simpl; by destruct (String.eqb t "33B").
Qed.

Lemma wireSafe_inv v : wireSafe v = true -> plainLine v = true /\ noBrace v = true.
Proof. unfold wireSafe. by intros [? ?]%andb_true_iff. Qed.

Lemma plainLine_app a b : plainLine (a +:+ b) = plainLine a && plainLine b.
Proof. apply all_app. Qed.

Lemma amountReady_inv toFixed2 fields shape :
  amountReady toFixed2 fields shape = true ->
  exists d c a,
    fld fields "valueDate" = Some d /\ fld fields "currency" = Some c
    /\ fld fields "amount" = Some a /\ parseFloatIsNaN a = false
    /\ wireSafe (formatted toFixed2 a) = true
    /\ (shape = true ->
        matchesAmount (Js.removeWhiteSpace (d +:+ c +:+ formatted toFixed2 a)) = true).
Proof.
  unfold amountReady.
  destruct (fld fields "valueDate") as [d|]; [|done].
  destruct (fld fields "currency") as [c|]; [|done].
  destruct (fld fields "amount") as [a|]; [|done].
  intros [[Hn Hs]%andb_true_iff Hm]%andb_true_iff.
  exists d, c, a. repeat split; try done.
  - by apply negb_true_iff.
  - intros ->. done.
Qed.

Lemma amountLine_wire toFixed2 fields shape :
  amountReady toFixed2 fields shape = true ->
  amountLine toFixed2 fields = Ok (map wireLine (amountField toFixed2 fields)).
Proof.
  intros (d & c & a & Hd & Hc & Ha & Hn & _)%amountReady_inv.
  unfold amountLine, amountField. rewrite Hd, Hc, Ha.
  by rewrite (formatSwiftAmount_Ok _ _ Hn).
Qed.

Lemma safe_amountField toFixed2 fields keys shape :
  valuesSafe fields keys = true -> In "valueDate" keys -> In "currency" keys ->
  amountReady toFixed2 fields shape = true ->
  Forall (fun f => safeField f = true) (amountField toFixed2 fields).
Proof.
  intros Hsafe Hkd Hkc (d & c & a & Hd & Hc & Ha & _ & Hf & _)%amountReady_inv.
  unfold amountField. rewrite Hd, Hc, Ha. repeat constructor.
  destruct (valuesSafe_fld _ _ _ _ Hsafe Hkd Hd) as [Hd1 Hd2].
  destruct (valuesSafe_fld _ _ _ _ Hsafe Hkc Hc) as [Hc1 Hc2].
  apply wireSafe_inv in Hf as [Hf1 Hf2].
  apply safeField_opt; [done|..].
  - by rewrite !plainLine_app, Hd1, Hc1, Hf1.
  - by rewrite !noBrace_app, Hd2, Hc2, Hf2.
Qed.

Lemma limit_amountField toFixed2 specs fields s :
  findSpec specs "32A" = Some s -> maxLength s = None ->
  Forall (fun f => withinLimit specs f = true) (amountField toFixed2 fields).
Proof.
  intros Hs Hm. unfold amountField.
  destruct (fld fields "valueDate"), (fld fields "currency"), (fld fields "amount");
    repeat constructor.
  by eapply withinLimit_unlimited.
Qed.

Lemma generateMT202Content_wire toFixed2 fields :
  amountReady toFixed2 fields false = true ->
  generateMT202Content toFixed2 fields =
  Ok (Js.join CRLF (map wireLine (fields202 toFixed2 fields)) +:+ CRLF).
Proof.
  intros Ha. unfold generateMT202Content.
  rewrite (amountLine_wire _ _ _ Ha), bind_Ok. rewrite <- !app_assoc.
  unfold fields202. rewrite !map_app, <- !optLine_wire. reflexivity.
Qed.

Lemma nonEmpty_app_l (a b : string) : Js.nonEmpty a = true -> Js.nonEmpty (a +:+ b) = true.
Proof. by destruct a. Qed.

Lemma roundtrip_202 toFixed2 input :
  bic_valid (validateBic (senderBic input)) = true ->
  bic_valid (validateBic (receiverBic input)) = true ->
  valuesSafe (fields input) ["uetr"; "mur"] = true ->
  Js.replaceFirst "MT" "" (in_messageType input) = "202" ->
  ready202 toFixed2 (fields input) = true ->
  exists out r,
    generateMtMessage toFixed2 input = Ok out
    /\ validateMtMessage (inl out) = Ok r
    /\ valid r = true.
Proof.
  intros Hs Hr Hsafe3 Htype Hready. unfold ready202 in Hready.
  rewrite !andb_true_iff in Hready.
  destruct Hready as (((((((Hready & H1) & Hw1) & H2) & Hw2) & Ha) & H3) & Hw3).
  destruct (supplied_fld _ _ H1) as (ref & Href & Hrefne).
  destruct (supplied_fld _ _ H2) as (rel & Hrel & Hrelne).
  destruct (supplied_fld _ _ H3) as (ben & Hben & Hbenne).
  pose proof Ha as (d & c & a & Hd & Hc & Hamt & Hn & Hf & _)%amountReady_inv.
  apply (roundtrip_wire toFixed2 "202" MT202_SPEC input (fields202 toFixed2 (fields input)));
    try done.
  - unfold generateBlock4. simpl String.eqb. cbv iota.
    rewrite (generateMT202Content_wire _ _ Ha), bind_Ok. by rewrite block4_wire.
  - unfold fields202. rewrite Href. done.
  - unfold fields202. repeat (apply Forall_app; split);
      try (eapply safe_optField; [exact Hready|in_keys|reflexivity]).
    eapply safe_amountField; [exact Hready|in_keys|in_keys|exact Ha].
  - change (mandatoryTags MT202_SPEC) with ["20"; "21"; "32A"; "58A"].
    repeat (apply Forall_cons; split); try apply Forall_nil;
      unfold suppliedIn, fields202; find_last;
      rewrite ?findLast_amountField; eval_eqb;
      rewrite ?Href, ?Hrel, ?Hben; unfold amountField; rewrite ?Hd, ?Hc, ?Hamt;
      destruct (fld (fields input) "senderToReceiverInfo");
      cbn [fmap option_fmap option_map wf_text head];
      first [assumption | exact I | idtac].
    all: apply nonEmpty_app_l; by eapply fld_lookup.
  - unfold fields202. repeat (apply Forall_app; split);
      try (eapply limit_amountField; reflexivity);
      apply Forall_optField; intros x Hx;
      try (eapply withinLimit_unlimited; reflexivity).
    + eapply withinLimit_limited; [reflexivity|reflexivity|].
      eapply within_fld; [|exact Hx]; assumption.
    + eapply withinLimit_limited; [reflexivity|reflexivity|].
      eapply within_fld; [|exact Hx]; assumption.
    + eapply withinLimit_limited; [reflexivity|reflexivity|].
      eapply within_fld; [|exact Hx]; assumption.
Qed.

Lemma instructedAmountLine_wire toFixed2 fields :
  instructedReady toFixed2 fields = true ->
  instructedAmountLine toFixed2 fields =
  Ok (map wireLine (instructedField toFixed2 fields)).
Proof.
  unfold instructedReady, instructedAmountLine, instructedField.
  destruct (fld fields "instructedCurrency") as [c|]; [|done].
  destruct (fld fields "instructedAmount") as [a|]; [|done].
  intros [Hn%negb_true_iff _]%andb_true_iff.
  by rewrite (formatSwiftAmount_Ok _ _ Hn).
Qed.

Lemma findLast_single t f :
  findLast t [f] = if String.eqb t (wf_tag f) then Some f else None.
Proof. reflexivity. Qed.

Lemma safe_instructedField toFixed2 fields keys :
  valuesSafe fields keys = true -> In "instructedCurrency" keys ->
  instructedReady toFixed2 fields = true ->
  Forall (fun f => safeField f = true) (instructedField toFixed2 fields).
Proof.
  intros Hsafe Hk. unfold instructedReady, instructedField.
  destruct (fld fields "instructedCurrency") as [c|] eqn:Hc; [|constructor].
  destruct (fld fields "instructedAmount") as [a|]; [|constructor].
  intros [_ [Hf1 Hf2]%wireSafe_inv]%andb_true_iff.
  destruct (valuesSafe_fld _ _ _ _ Hsafe Hk Hc) as [Hc1 Hc2].
  repeat constructor. apply safeField_opt; [done|..].
  - by rewrite plainLine_app, Hc1, Hf1.
  - by rewrite noBrace_app, Hc2, Hf2.
Qed.

Lemma limit_instructedField toFixed2 specs fields s :
  findSpec specs "33B" = Some s -> maxLength s = None ->
  Forall (fun f => withinLimit specs f = true) (instructedField toFixed2 fields).
Proof.
  intros Hs Hm. unfold instructedField.
  destruct (fld fields "instructedCurrency"), (fld fields "instructedAmount");
    repeat constructor.
  by eapply withinLimit_unlimited.
Qed.

Lemma safe_partyField fields keys t ak nk :
  valuesSafe fields keys = true -> In ak keys -> In nk keys -> isTag t = true ->
  nameLine fields ak nk = true ->
  Forall (fun f => safeField f = true) (partyField t (fld fields ak) (fld fields nk)).
Proof.
  intros Hsafe Hak Hnk Ht. unfold nameLine.
  destruct (fld fields ak) as [a|] eqn:Ha, (fld fields nk) as [n|] eqn:Hn;
    intros Hline; simpl; repeat constructor.
  - destruct (valuesSafe_fld _ _ _ _ Hsafe Hak Ha) as [Ha1 Ha2].
    destruct (valuesSafe_fld _ _ _ _ Hsafe Hnk Hn) as [Hn1 Hn2].
    unfold safeField, wellFormedField. simpl.
    change (plainLine ("/" +:+ a)) with (plainLine a).
    change (noBrace ("/" +:+ a)) with (noBrace a).
    by rewrite Ht, Ha1, Ha2, Hline, Hn2.
  - destruct (valuesSafe_fld _ _ _ _ Hsafe Hak Ha) as [Ha1 Ha2].
    unfold safeField, wellFormedField. simpl.
    change (plainLine ("/" +:+ a)) with (plainLine a).
    change (noBrace ("/" +:+ a)) with (noBrace a).
    by rewrite Ht, Ha1, Ha2.
  - destruct (valuesSafe_fld _ _ _ _ Hsafe Hnk Hn) as [Hn1 Hn2].
    by apply safeField_opt.
Qed.

Lemma limit_partyField specs t a n s :
  findSpec specs t = Some s -> maxLength s = None ->
  Forall (fun f => withinLimit specs f = true) (partyField t a n).
Proof.
  intros Hs Hm. destruct a, n; simpl; repeat constructor;
    by eapply withinLimit_unlimited.
Qed.

Lemma some_or_none {A} (o : option A) :
  match o with Some g => Some g | None => None end = o.
Proof. by destruct o. Qed.

Lemma suppliedParty fields t ak nk :
  supplied fields ak || supplied fields nk = true ->
  match head (partyField t (fld fields ak) (fld fields nk)) with
  | Some f => Js.nonEmpty (wf_text f)
  | None => false
  end = true.
Proof.
  unfold supplied.
  destruct (fld fields ak) as [a|] eqn:Ha, (fld fields nk) as [n|] eqn:Hn;
    try done; intros _; simpl.
  by eapply fld_lookup.
Qed.

Lemma chargeCode_cases s :
  isChargeCode (Some s) = true -> s = "BEN" \/ s = "OUR" \/ s = "SHA".
Proof.
  simpl. intros [[H|H]%orb_true_iff|H]%orb_true_iff;
    apply String.eqb_eq in H; auto.
Qed.

Lemma chargeCode_truthy s :
  isChargeCode (Some s) = true -> truthyIn CHARGE_CODES s = true.
Proof. by intros [-> | [-> | ->]]%chargeCode_cases; vm_compute. Qed.

Lemma opCode_safe fields keys :
  valuesSafe fields keys = true -> In "bankOperationCode" keys ->
  plainLine (opCodeOf fields) = true /\ noBrace (opCodeOf fields) = true.
Proof.
  intros Hsafe Hk. unfold opCodeOf.
  destruct (fld fields "bankOperationCode") as [v|] eqn:E; [|done].
  by eapply valuesSafe_fld.
Qed.

Lemma opCode_nonEmpty fields : Js.nonEmpty (opCodeOf fields) = true.
Proof.
  unfold opCodeOf. destruct (fld fields "bankOperationCode") as [v|] eqn:E; [|done].
  by eapply fld_lookup.
Qed.

Lemma generateMT103Content_wire toFixed2 fields :
  truthyIn BANK_OPERATION_CODES (opCodeOf fields) = true ->
  amountReady toFixed2 fields true = true ->
  instructedReady toFixed2 fields = true ->
  truthyIn CHARGE_CODES (chargesOf fields) = true ->
  generateMT103Content toFixed2 fields =
  Ok (Js.join CRLF (map wireLine (fields103 toFixed2 fields)) +:+ CRLF).
Proof.
  intros Hop Ha Hi Hch. unfold generateMT103Content.
  fold (opCodeOf fields). fold (chargesOf fields). rewrite Hop, Hch. cbn [negb].
  rewrite (amountLine_wire _ _ _ Ha), bind_Ok.
  rewrite (instructedAmountLine_wire _ _ Hi), bind_Ok.
  rewrite <- !app_assoc. unfold fields103.
  rewrite !map_app, <- !optLine_wire, <- !partyLine_wire. reflexivity.
Qed.

Lemma roundtrip_103 toFixed2 input :
  bic_valid (validateBic (senderBic input)) = true ->
  bic_valid (validateBic (receiverBic input)) = true ->
  valuesSafe (fields input) ["uetr"; "mur"] = true ->
  Js.replaceFirst "MT" "" (in_messageType input) = "103" ->
  ready103 toFixed2 (fields input) = true ->
  exists out r,
    generateMtMessage toFixed2 input = Ok out
    /\ validateMtMessage (inl out) = Ok r
    /\ valid r = true.
Proof.
  intros Hs Hr Hsafe3 Htype Hready. unfold ready103 in Hready.
  rewrite !andb_true_iff in Hready.
  destruct Hready as
    (((((((((((Hready & H1) & Hw1) & Hop) & Ha) & Hi) & Hben) & Hn1) & Hn2)
        & Hw2) & Hch) & Hw3).
  destruct (supplied_fld _ _ H1) as (ref & Href & Hrefne).
  pose proof Ha as (d & c & a & Hd & Hc & Hamt & Hn & Hf & Hshape)%amountReady_inv.
  specialize (Hshape eq_refl).
  pose proof (chargeCode_truthy _ Hch) as Hcht.
  apply (roundtrip_wire toFixed2 "103" MT103_SPEC input (fields103 toFixed2 (fields input)));
    try done.
  - unfold generateBlock4. simpl String.eqb. cbv iota.
    rewrite (generateMT103Content_wire _ _ Hop Ha Hi Hcht), bind_Ok.
    by rewrite block4_wire.
  - unfold fields103. rewrite Href. done.
  - unfold fields103. repeat (apply Forall_app; split);
      try (eapply safe_optField; [exact Hready|in_keys|reflexivity]).
    + repeat constructor.
      destruct (opCode_safe _ _ Hready ltac:(in_keys)). by apply safeField_opt.
    + eapply safe_amountField; [exact Hready|in_keys|in_keys|exact Ha].
    + eapply safe_instructedField; [exact Hready|in_keys|exact Hi].
    + eapply safe_partyField; [exact Hready|in_keys|in_keys|reflexivity|exact Hn1].
    + eapply safe_partyField; [exact Hready|in_keys|in_keys|reflexivity|exact Hn2].
    + repeat constructor.
      by destruct (chargeCode_cases _ Hch) as [-> | [-> | ->]].
  - change (mandatoryTags MT103_SPEC) with ["20"; "23B"; "32A"; "59"; "71A"].
    repeat apply Forall_cons_2; try apply Forall_nil_2;
      unfold suppliedIn, fields103; find_last;
      rewrite ?findLast_amountField, ?findLast_instructedField, ?findLast_single;
      cbn [wf_tag]; eval_eqb.
    all: rewrite ?some_or_none.
    + by rewrite Href.
    + apply opCode_nonEmpty.
    + unfold amountField. rewrite Hd, Hc, Hamt. cbn [head wf_text].
      apply nonEmpty_app_l. by eapply fld_lookup.
    + by apply suppliedParty.
    + by destruct (chargeCode_cases _ Hch) as [-> | [-> | ->]].
  - unfold fields103. repeat (apply Forall_app; split);
      try (eapply limit_amountField; reflexivity);
      try (eapply limit_instructedField; reflexivity);
      try (eapply limit_partyField; reflexivity);
      try (repeat constructor; eapply withinLimit_unlimited; reflexivity);
      apply Forall_optField; intros x Hx;
      try (eapply withinLimit_unlimited; reflexivity).
    + eapply withinLimit_limited; [reflexivity|reflexivity|].
      eapply within_fld; [|exact Hx]; assumption.
    + eapply withinLimit_limited; [reflexivity|reflexivity|].
      eapply within_fld; [|exact Hx]; assumption.
    + eapply withinLimit_limited; [reflexivity|reflexivity|].
      eapply within_fld; [|exact Hx]; assumption.
  - unfold specificsPass. change (String.eqb "103" "103") with true. cbv iota.
    unfold textPasses, fields103. find_last.
    rewrite ?findLast_amountField, ?findLast_instructedField, ?findLast_single.
    cbn [wf_tag]. eval_eqb. rewrite ?some_or_none.
    unfold amountField. rewrite Hd, Hc, Hamt. cbn [head wf_text].
    rewrite Hshape, Hch, nonEmpty_app_l, !andb_true_r.
    + by destruct (chargeCode_cases _ Hch) as [-> | [-> | ->]].
    + by eapply fld_lookup.
Qed.

(** C1, as the generator has it: for an input that is ready for the round
    trip (valid sender and receiver identifiers; in a value that is written
    no brace and no line terminator, that is no carriage return, line feed,
    line separator U+2028 or paragraph separator U+2029, which the dot of the
    tag pattern refuses; the mandatory values of the type supplied and the
    values within the maximum lengths of their fields; for MT103 and MT202 a
    numeric amount, and for MT103 an operation code and a charge code of the
    code sets, an amount field of the shape the validator tests and names
    that read as continuation lines), generateMtMessage returns a message,
    and validateMtMessage on that message returns a result with valid =
    true. *)
Theorem generated_message_validates toFixed2 input :
  roundTripReady toFixed2 input = true ->
  exists out r,
    generateMtMessage toFixed2 input = Ok out
    /\ validateMtMessage (inl out) = Ok r
    /\ valid r = true.
Proof.
  unfold roundTripReady. cbv zeta.
  intros [[[Hs Hr]%andb_true_iff H3]%andb_true_iff Hready]%andb_true_iff.
  destruct (String.eqb_spec (Js.replaceFirst "MT" "" (in_messageType input)) "103")
    as [E|_]; [by apply roundtrip_103|].
  destruct (String.eqb_spec (Js.replaceFirst "MT" "" (in_messageType input)) "202")
    as [E|_]; [by apply roundtrip_202|].
  destruct (String.eqb_spec (Js.replaceFirst "MT" "" (in_messageType input)) "940")
    as [E|_]; [by apply roundtrip_940|].
  destruct (String.eqb_spec (Js.replaceFirst "MT" "" (in_messageType input)) "950")
    as [E|_]; [by apply roundtrip_950|].
  discriminate.
Qed.

Lemma generated_message_validates_witness :
  roundTripReady (fun _ => "1000.00") sampleInput103 = true
  /\ exists out r,
       generateMtMessage (fun _ => "1000.00") sampleInput103 = Ok out
       /\ validateMtMessage (inl out) = Ok r
       /\ valid r = true.
Proof.
  split; [vm_compute; reflexivity|].
  apply (generated_message_validates (fun _ => "1000.00") sampleInput103).
  vm_compute. reflexivity.
Defined.

(** C1 as stated fails: an MT940 input with valid identifiers that supplies
    every mandatory value is generated without complaint, and the validator
    rejects the generated message, because the generator writes the
    seventeen characters of the transaction reference into field 20, whose
    maximum length is sixteen. *)
Lemma generated_statement_is_rejected :
  bic_valid (validateBic (senderBic inputLongReference)) = true
  /\ bic_valid (validateBic (receiverBic inputLongReference)) = true
  /\ Forall (fun k => supplied (fields inputLongReference) k = true)
       [ "transactionReference"; "accountId"; "statementNumber";
         "openingBalance"; "closingBalance" ]
  /\ forall toFixed2,
       exists out r,
         generateMtMessage toFixed2 inputLongReference = Ok out
         /\ validateMtMessage (inl out) = Ok r
         /\ valid r = false
         /\ map code (errors r) = ["FIELD_TOO_LONG"].
Proof.
  split; [vm_compute; reflexivity|]. split; [vm_compute; reflexivity|].
  split; [repeat apply Forall_cons_2; try apply Forall_nil_2; vm_compute; reflexivity|].
  intros toFixed2. eexists. eexists.
  split; [vm_compute; reflexivity|]. split; [vm_compute; reflexivity|].
  split; vm_compute; reflexivity.
Qed.

(** * Properties of the further functions *)

(** ** Identifiers: normal form *)

Lemma toUpperCase_app a b :
  Js.toUpperCase (a +:+ b) = Js.toUpperCase a +:+ Js.toUpperCase b.
Proof.
  induction a as [|c a IH]; [done|]. rewrite append_cons. simpl.
  by rewrite IH, append_assoc.
Qed.







Lemma normal_drop k s :
  Js.all normalChar s = true -> Js.all normalChar (Js.drop k s) = true.
Proof.
  revert k. induction s as [|c s IH]; intros k; [by destruct k|].
  destruct k as [|k]; [done|]. simpl. intros [_ Hs]%andb_true_iff. by apply IH.
Qed.



(** ** Identifiers: validation *)

Lemma exactly_length n cls s r :
  exactly n cls s = Some r -> String.length s = n + String.length r.
Proof.
  revert s. induction n as [|n IH]; intros s; simpl; [by intros [= ->]|].
  destruct s as [|c s]; [done|]. destruct (cls c); [|done].
  intros H%IH. simpl. lia.
Qed.

Lemma bicPattern_length s :
  matchesBicPattern s = true -> String.length s = 8 \/ String.length s = 11.
Proof.
  unfold matchesBicPattern.
  destruct (exactly 4 _ s) as [s1|] eqn:E1; [|done].
  destruct (exactly 2 Char.isUpper s1) as [s2|] eqn:E2; [|done].
  destruct (exactly 2 Char.isUpperOrDigit s2) as [s3|] eqn:E3; [|done].
  apply exactly_length in E1, E2, E3.
  destruct s3 as [|c3 s3]; [simpl in *; lia|].
  destruct (exactly 3 _ (String c3 s3)) as [s4|] eqn:E4; [|done].
  apply exactly_length in E4. destruct s4; [|done]. simpl in *. lia.
Qed.

Lemma length_nonEmpty s n : String.length s = S n -> Js.nonEmpty s = true.
Proof. by destruct s. Qed.

Lemma length_substring i k s :
  i + k <= String.length s -> String.length (substring i k s) = k.
Proof.
  revert i k. induction s as [|c s IH]; intros i k; simpl.
  - intros H. assert (i = 0) as -> by lia. assert (k = 0) as -> by lia. done.
  - intros H. destruct i as [|i]; [|apply IH; lia].
    destruct k as [|k]; [done|]. simpl. rewrite IH; [done|lia].
Qed.

Lemma COUNTRY_names_nonEmpty k v :
  COUNTRY_CODES !! k = Some v ->
  Js.nonEmpty (k, v).2 = true /\ String.length (k, v).1 = 2.
Proof.
  unfold COUNTRY_CODES. intros H%elem_of_list_to_map_2.
  revert H. generalize (k, v). apply Forall_forall.
  repeat (apply Forall_cons_2; [done|]). apply Forall_nil_2.
Qed.

Lemma truthy_country k :
  String.length k = 2 ->
  truthyIn COUNTRY_CODES k = true <-> exists name, COUNTRY_CODES !! k = Some name.
Proof.
  intros Hk. unfold truthyIn. destruct (COUNTRY_CODES !! k) as [v|] eqn:E.
  - apply COUNTRY_names_nonEmpty in E as [E _]. cbn [fst snd] in E. rewrite E.
    split; eauto.
  - split; [|by intros [? ?]]. intros H%bool_decide_eq_true.
    unfold objectPrototypeKeys in H. rewrite !elem_of_cons, elem_of_nil in H.
    repeat (destruct H as [->|H]; [done|]). done.
Qed.

(** X2: what validateBic accepts. The identifier is valid exactly when its
    normal form matches the pattern (four letters, two letters, two letters
    or digits and, optionally, three more letters or digits), the two
    letters of the country are a key of the country table and the location
    code begins with neither 0 nor 1. The separate length check adds
    nothing: the pattern already fixes 8 or 11 characters. A valid result
    has no error message. *)
Theorem validateBic_valid_iff (b : string) :
  (bic_valid (validateBic b) = true <->
     matchesBicPattern (normalizeBic b) = true
     /\ (exists name, COUNTRY_CODES !! countryCode (parseBic b) = Some name)
     /\ Js.charAt 0 (locationCode (parseBic b)) <> "0"
     /\ Js.charAt 0 (locationCode (parseBic b)) <> "1")
  /\ (bic_valid (validateBic b) = true ->
        bic_errors (validateBic b) = []
        /\ (String.length (normalizeBic b) = 8 \/ String.length (normalizeBic b) = 11)).
Proof.
  unfold validateBic, parseBic. cbv zeta. cbn [countryCode locationCode].
  set (n := normalizeBic b).
  destruct (matchesBicPattern n) eqn:Hpat.
  - pose proof (bicPattern_length _ Hpat) as Hlen.
    assert (Hne : Js.nonEmpty n = true) by (destruct Hlen; by eapply length_nonEmpty).
    assert (Hcc : String.length (Js.slice 4 6 n) = 2).
    { unfold Js.slice. apply length_substring. lia. }
    assert (Hloc : String.length (Js.slice 6 8 n) = 2).
    { unfold Js.slice. apply length_substring. lia. }
    rewrite Hne. cbn [negb bic_valid bic_errors].
    assert (E1 : (negb (Nat.eqb (String.length n) 8) && negb (Nat.eqb (String.length n) 11))
                 = false).
    { destruct Hlen as [-> | ->]; done. }
    rewrite E1. rewrite (length_nonEmpty _ _ Hcc), (length_nonEmpty _ _ Hloc).
    cbn [andb app].
    pose proof (truthy_country _ Hcc) as Htr.
    destruct (truthyIn COUNTRY_CODES (Js.slice 4 6 n)) eqn:Et; cbn [negb].
    + assert (Hname : exists name, COUNTRY_CODES !! Js.slice 4 6 n = Some name)
        by by apply Htr.
      destruct (String.eqb_spec (Js.charAt 0 (Js.slice 6 8 n)) "0") as [E0|E0].
      { cbn [orb app length Nat.eqb]. split; [|done]. split; [done|]. tauto. }
      destruct (String.eqb_spec (Js.charAt 0 (Js.slice 6 8 n)) "1") as [E9|E9].
      { cbn [orb app length Nat.eqb]. split; [|done]. split; [done|]. tauto. }
      cbn [orb length Nat.eqb]. split; [|done]. split; [done|]. done.
    + assert (Hno : ~ exists name, COUNTRY_CODES !! Js.slice 4 6 n = Some name).
      { intros H. apply Htr in H. done. }
      destruct (String.eqb _ "0" || String.eqb _ "1");
        cbn [app length Nat.eqb]; (split; [|done]); (split; [done|]); tauto.
  - assert (Hinv : forall (c1 c2 : bool) (l : list string) x y z,
      Nat.eqb (length (if c2 then (if c1 then (l ++ [x]) ++ [y] else l ++ [x]) ++ [z]
                       else if c1 then (l ++ [x]) ++ [y] else l ++ [x])) 0 = false).
    { intros [] [] l x y z; rewrite ?length_app; simpl; apply Nat.eqb_neq; lia. }
    destruct (negb (Js.nonEmpty n)); cbn [bic_valid negb].
    + split; [|done]. split; [done|]. intros [? _]. done.
    + rewrite Hinv. split; [|done]. split; [done|]. intros [? _]. done.
Qed.




(** ** Identifiers: components and head office *)

Lemma substring_all s : substring 0 (String.length s) s = s.
Proof. induction s as [|c s IH]; [done|]. simpl. by rewrite IH. Qed.

Lemma substring_split i j k s :
  substring i j s +:+ substring (i + j) k s = substring i (j + k) s.
Proof.
  revert i j k. induction s as [|c s IH]; intros i j k.
  - destruct i, j, k; done.
  - destruct i as [|i]; cbn [substring Nat.add].
    + destruct j as [|j]; cbn [substring Nat.add]; [by rewrite append_nil_l|].
      rewrite append_cons. f_equal. apply (IH 0 j k).
    + apply IH.
Qed.

(** X5: parseBic cuts the normal form at 4, 6 and 8. For a normal form that is
    not empty these are the components validateBic reports; for an empty one
    validateBic reports an empty branch code where parseBic has [XXX]. The
    four components of an identifier of 11 characters, put together, are its
    normal form; those of one of 8 characters are its head-office
    identifier. *)
Theorem parseBic_components (b : string) :
  (normalizeBic b <> "" -> components (validateBic b) = parseBic b)
  /\ (normalizeBic b = "" ->
        branchCode (components (validateBic b)) = ""
        /\ branchCode (parseBic b) = "XXX")
  /\ (String.length (normalizeBic b) = 11 ->
        institutionCode (parseBic b) +:+ countryCode (parseBic b)
        +:+ locationCode (parseBic b) +:+ branchCode (parseBic b) = normalizeBic b)
  /\ (String.length (normalizeBic b) = 8 ->
        institutionCode (parseBic b) +:+ countryCode (parseBic b)
        +:+ locationCode (parseBic b) +:+ branchCode (parseBic b) = getHeadOfficeBic b).
Proof.
  unfold validateBic, parseBic, getHeadOfficeBic. cbv zeta.
  cbn [institutionCode countryCode locationCode branchCode].
  set (n := normalizeBic b). unfold Js.slice. cbn [Nat.sub].
  split; [|split; [|split]].
  - intros Hn. destruct n; [done|]. done.
  - intros ->. done.
  - intros Hlen. rewrite Hlen. cbn [Nat.eqb].
    rewrite (substring_split 6 2 3), (substring_split 4 2 5), (substring_split 0 4 7).
    cbn [Nat.add]. rewrite <- Hlen. apply substring_all.
  - intros Hlen. rewrite Hlen. cbn [Nat.eqb].
    rewrite <- !append_assoc.
    rewrite (substring_split 0 4 2). cbn [Nat.add].
    rewrite (substring_split 0 6 2). cbn [Nat.add].
    rewrite <- Hlen. by rewrite substring_all.
Qed.







(** X7: every identifier validateBic accepts has a country: getCountryFromBic
    returns the name the country table gives the country code of its
    components. *)
Theorem valid_bic_has_country (b : string) :
  bic_valid (validateBic b) = true ->
  exists name,
    getCountryFromBic b = Some name
    /\ COUNTRY_CODES !! countryCode (components (validateBic b)) = Some name.
Proof.
  intros Hv. unfold getCountryFromBic. cbv zeta.
  revert Hv. unfold validateBic. cbv zeta. set (n := normalizeBic b).
  destruct (negb (Js.nonEmpty n)); [done|].
  cbn [bic_valid components countryCode]. intros H%length_zero_nil.
  apply snoc_if_nil in H as [_ H]. apply snoc_if_nil in H as [Hc H].
  apply snoc_if_nil in H as [Hpat _]. apply negb_false_iff in Hpat.
  pose proof (bicPattern_length _ Hpat) as Hlen.
  assert (Hcc : String.length (Js.slice 4 6 n) = 2).
  { unfold Js.slice. apply length_substring. lia. }
  rewrite (length_nonEmpty _ _ Hcc) in Hc. cbn [andb] in Hc.
  apply negb_false_iff in Hc. apply (truthy_country _ Hcc) in Hc as [name Hname].
  exists name. split; [|done].
  replace (Nat.leb 6 (String.length n)) with true; [done|].
  symmetry. apply Nat.leb_le. lia.
Qed.

Lemma valid_bic_has_country_witness :
  exists name,
    getCountryFromBic "deut deff" = Some name
    /\ COUNTRY_CODES !! countryCode (components (validateBic "deut deff")) = Some name.
Proof. apply (valid_bic_has_country "deut deff"). vm_compute. reflexivity. Defined.

(** A short identifier has no country. *)
Lemma getCountryFromBic_short b :
  String.length (normalizeBic b) < 6 -> getCountryFromBic b = None.
Proof.
  intros H. unfold getCountryFromBic. cbv zeta.
  replace (Nat.leb 6 (String.length (normalizeBic b))) with false; [done|].
  symmetry. apply Nat.leb_gt. lia.
Qed.

(** ** Decoding a generated message: the whole record *)

Lemma parse_wire c1 c2 c3 c4 :
  blockContent c1 -> blockContent c2 ->
  (forall c, c3 = Some c -> blockContent c /\ c <> "") -> blockContent c4 ->
  c1 <> "" -> c2 <> "" -> c4 <> "" ->
  parseMtMessage (wireMessage c1 c2 c3 c4) =
  {| messageType := ah_messageType (parseApplicationHeader c2);
     basicHeader := parseBasicHeader c1;
     applicationHeader := parseApplicationHeader c2;
     userHeader := parseUserHeader <$> c3;
     textBlock := parseTextBlock c4;
     trailers := None;
     rawMessage := wireMessage c1 c2 c3 c4 |}.
Proof.
  intros H1 H2 H3 H4 Hc1 Hc2 Hc4. unfold parseMtMessage.
  rewrite trim_wireMessage, extractBlocks_wireMessage; try done;
    [|intros c Hc; by apply H3].
  unfold getTruthy. rewrite !get_fold_set.
  assert (E1 : assignedLast "1" (assignedBlocks c1 c2 c3 c4) = Some c1).
  { unfold assignedBlocks. by destruct c3. }
  assert (E2 : assignedLast "2" (assignedBlocks c1 c2 c3 c4) = Some c2).
  { unfold assignedBlocks. by destruct c3. }
  assert (E3 : assignedLast "3" (assignedBlocks c1 c2 c3 c4) = c3).
  { unfold assignedBlocks. by destruct c3. }
  assert (E4 : assignedLast "4" (assignedBlocks c1 c2 c3 c4) = Some c4).
  { unfold assignedBlocks. by destruct c3. }
  assert (E5 : assignedLast "5" (assignedBlocks c1 c2 c3 c4) = Some "").
  { unfold assignedBlocks. by destruct c3. }
  rewrite E1, E2, E3, E4, E5.
  destruct c1; [done|]. destruct c2; [done|]. destruct c4; [done|].
  cbn [Js.nonEmpty]. f_equal.
  destruct c3 as [c|]; [|done].
  destruct (H3 c eq_refl) as [_ Hc]. destruct c; done.
Qed.

Lemma wire_103 toFixed2 fields :
  ready103 toFixed2 fields = true ->
  generateBlock4 toFixed2 "103" fields
    = Ok (wireBlock "4" (textBlockOf (fields103 toFixed2 fields)))
  /\ fields103 toFixed2 fields <> []
  /\ Forall (fun f => safeField f = true) (fields103 toFixed2 fields).
Proof.
  intros Hready. unfold ready103 in Hready.
  rewrite !andb_true_iff in Hready.
  destruct Hready as
    (((((((((((Hready & H1) & Hw1) & Hop) & Ha) & Hi) & Hben) & Hn1) & Hn2)
        & Hw2) & Hch) & Hw3).
  destruct (supplied_fld _ _ H1) as (ref & Href & Hrefne).
  pose proof (chargeCode_truthy _ Hch) as Hcht.
  split; [|split].
  - unfold generateBlock4. simpl String.eqb. cbv iota.
    rewrite (generateMT103Content_wire _ _ Hop Ha Hi Hcht), bind_Ok.
    by rewrite block4_wire.
  - unfold fields103. rewrite Href. done.
  - unfold fields103. repeat (apply Forall_app; split);
      try (eapply safe_optField; [exact Hready|in_keys|reflexivity]).
    + repeat constructor.
      destruct (opCode_safe _ _ Hready ltac:(in_keys)). by apply safeField_opt.
    + eapply safe_amountField; [exact Hready|in_keys|in_keys|exact Ha].
    + eapply safe_instructedField; [exact Hready|in_keys|exact Hi].
    + eapply safe_partyField; [exact Hready|in_keys|in_keys|reflexivity|exact Hn1].
    + eapply safe_partyField; [exact Hready|in_keys|in_keys|reflexivity|exact Hn2].
    + repeat constructor.
      by destruct (chargeCode_cases _ Hch) as [-> | [-> | ->]].
Qed.

Lemma wire_202 toFixed2 fields :
  ready202 toFixed2 fields = true ->
  generateBlock4 toFixed2 "202" fields
    = Ok (wireBlock "4" (textBlockOf (fields202 toFixed2 fields)))
  /\ fields202 toFixed2 fields <> []
  /\ Forall (fun f => safeField f = true) (fields202 toFixed2 fields).
Proof.
  intros Hready. unfold ready202 in Hready.
  rewrite !andb_true_iff in Hready.
  destruct Hready as (((((((Hready & H1) & Hw1) & H2) & Hw2) & Ha) & H3) & Hw3).
  destruct (supplied_fld _ _ H1) as (ref & Href & Hrefne).
  split; [|split].
  - unfold generateBlock4. simpl String.eqb. cbv iota.
    rewrite (generateMT202Content_wire _ _ Ha), bind_Ok. by rewrite block4_wire.
  - unfold fields202. rewrite Href. done.
  - unfold fields202. repeat (apply Forall_app; split);
      try (eapply safe_optField; [exact Hready|in_keys|reflexivity]).
    eapply safe_amountField; [exact Hready|in_keys|in_keys|exact Ha].
Qed.

Lemma wire_940 toFixed2 fields :
  readyStatement fields = true ->
  generateBlock4 toFixed2 "940" fields = Ok (wireBlock "4" (textBlockOf (fields940 fields)))
  /\ fields940 fields <> []
  /\ Forall (fun f => safeField f = true) (fields940 fields).
Proof.
  intros Hready. unfold readyStatement in Hready.
  rewrite !andb_true_iff in Hready.
  destruct Hready as (((((((Hready & H1) & Hw1) & H2) & Hw2) & H3) & H4) & H5).
  destruct (supplied_fld _ _ H1) as (ref & Href & Hrefne).
  split; [|split].
  - unfold generateBlock4. simpl String.eqb. cbv iota. rewrite bind_Ok.
    by rewrite generateMT940Content_wire, block4_wire.
  - unfold fields940. rewrite Href. done.
  - unfold fields940. repeat (apply Forall_app; split);
      try (eapply safe_optField; [exact Hready|in_keys|reflexivity]).
    eapply safe_statementFields; [exact Hready|in_keys].
Qed.

Lemma wire_950 toFixed2 fields :
  readyStatement fields = true ->
  generateBlock4 toFixed2 "950" fields = Ok (wireBlock "4" (textBlockOf (fields950 fields)))
  /\ fields950 fields <> []
  /\ Forall (fun f => safeField f = true) (fields950 fields).
Proof.
  intros Hready. unfold readyStatement in Hready.
  rewrite !andb_true_iff in Hready.
  destruct Hready as (((((((Hready & H1) & Hw1) & H2) & Hw2) & H3) & H4) & H5).
  destruct (supplied_fld _ _ H1) as (ref & Href & Hrefne).
  split; [|split].
  - unfold generateBlock4. simpl String.eqb. cbv iota. rewrite bind_Ok.
    by rewrite generateMT950Content_wire, block4_wire.
  - unfold fields950. rewrite Href. done.
  - unfold fields950. repeat (apply Forall_app; split);
      try (eapply safe_optField; [exact Hready|in_keys|reflexivity]).
    eapply safe_statementFields; [exact Hready|in_keys].
Qed.

(** The type of an input that is ready *)
Lemma ready_type toFixed2 input :
  roundTripReady toFixed2 input = true ->
  let type := Js.replaceFirst "MT" "" (in_messageType input) in
  type = "103" \/ type = "202" \/ type = "940" \/ type = "950".
Proof.
  unfold roundTripReady. cbv zeta. intros [_ H]%andb_true_iff.
  destruct (String.eqb_spec (Js.replaceFirst "MT" "" (in_messageType input)) "103");
    [tauto|].
  destruct (String.eqb_spec (Js.replaceFirst "MT" "" (in_messageType input)) "202");
    [tauto|].
  destruct (String.eqb_spec (Js.replaceFirst "MT" "" (in_messageType input)) "940");
    [tauto|].
  destruct (String.eqb_spec (Js.replaceFirst "MT" "" (in_messageType input)) "950");
    [tauto|done].
Qed.

Lemma ready_block4 toFixed2 input :
  roundTripReady toFixed2 input = true ->
  let type := Js.replaceFirst "MT" "" (in_messageType input) in
  let fs := fieldsOf toFixed2 type (fields input) in
  generateBlock4 toFixed2 type (fields input) = Ok (wireBlock "4" (textBlockOf fs))
  /\ fs <> []
  /\ Forall (fun f => safeField f = true) fs.
Proof.
  intros Hready. pose proof (ready_type _ _ Hready) as Htype.
  unfold roundTripReady in Hready. cbv zeta in *.
  apply andb_true_iff in Hready as [_ Hready]. unfold fieldsOf.
  destruct Htype as [E|[E|[E|E]]]; rewrite E in *; simpl String.eqb in *; cbv iota in *.
  - by apply wire_103.
  - by apply wire_202.
  - by apply wire_940.
  - by apply wire_950.
Qed.

Lemma valid_bic_terminal b :
  bic_valid (validateBic b) = true ->
  normalizeBicTo12 (normalized (validateBic b)) = terminalOf b
  /\ String.length (terminalOf b) = 12
  /\ noBrace (terminalOf b) = true.
Proof.
  intros Hv. pose proof (bic_valid_noBrace _ Hv) as Hb. revert Hv Hb.
  unfold validateBic, terminalOf. cbv zeta. set (n := normalizeBic b).
  destruct (negb (Js.nonEmpty n)); [done|].
  cbn [bic_valid normalized]. intros H%length_zero_nil Hb.
  apply snoc_if_nil in H as [_ H]. apply snoc_if_nil in H as [_ H].
  apply snoc_if_nil in H as [Hpat _]. apply negb_false_iff in Hpat.
  split; [done|]. split; [|done].
  unfold normalizeBicTo12.
  destruct (bicPattern_length _ Hpat) as [E|E]; rewrite E; cbn [Nat.eqb];
    rewrite length_append, E; done.
Qed.

(** What the generator returns for an input that is ready *)
Lemma ready_wire toFixed2 input :
  roundTripReady toFixed2 input = true ->
  let type := Js.replaceFirst "MT" "" (in_messageType input) in
  let fs := fieldsOf toFixed2 type (fields input) in
  let out := wireMessage ("F01" +:+ terminalOf (senderBic input) +:+ "0000000000")
               ("I" +:+ type +:+ terminalOf (receiverBic input) +:+ "N")
               (block3Content (fields input)) (textBlockOf fs) in
  generateMtMessage toFixed2 input = Ok out
  /\ parseMtMessage out =
     {| messageType :=
          ah_messageType (parseApplicationHeader
            ("I" +:+ type +:+ terminalOf (receiverBic input) +:+ "N"));
        basicHeader :=
          parseBasicHeader ("F01" +:+ terminalOf (senderBic input) +:+ "0000000000");
        applicationHeader :=
          parseApplicationHeader ("I" +:+ type +:+ terminalOf (receiverBic input) +:+ "N");
        userHeader := parseUserHeader <$> block3Content (fields input);
        textBlock := tokenize (blockLines fs);
        trailers := None;
        rawMessage := out |}
  /\ fs <> []
  /\ Forall (fun f => wellFormedField f = true) fs.
Proof.
  intros Hready. cbv zeta.
  destruct (ready_block4 _ _ Hready) as (Hb4 & Hne & Hsafe).
  pose proof (ready_type _ _ Hready) as Htype. cbv zeta in *.
  set (type := Js.replaceFirst "MT" "" (in_messageType input)) in *.
  set (fs := fieldsOf toFixed2 type (fields input)) in *.
  unfold roundTripReady in Hready.
  apply andb_true_iff in Hready as [Hready _].
  apply andb_true_iff in Hready as [Hready H3].
  apply andb_true_iff in Hready as [Hs Hr].
  destruct (valid_bic_terminal _ Hs) as (ES & LS & BS).
  destruct (valid_bic_terminal _ Hr) as (ER & LR & BR).
  assert (Hwf : Forall (fun f => wellFormedField f = true) fs).
  { by apply safeField_wellFormed. }
  split; [|split; [|done]].
  - unfold generateMtMessage. rewrite Hs, Hr. cbn [negb].
    fold type. rewrite Hb4, bind_Ok, ES, ER.
    rewrite generateBlock1_wire, generateBlock2_wire, generateBlock3_wire.
    reflexivity.
  - rewrite parse_wire.
    + f_equal. unfold textBlockOf. by rewrite parseTextBlock_wire.
    + apply blockContent_plain. by rewrite !noBrace_app, BS.
    + apply blockContent_plain. rewrite !noBrace_app, BR.
      by destruct Htype as [-> | [-> | [-> | ->]]].
    + intros c Hc. split; [by eapply blockContent_block3|].
      unfold block3Content in Hc.
      destruct (fld (fields input) "uetr"), (fld (fields input) "mur");
        try done; injection Hc as <-; done.
    + apply blockContent_plain. by apply noBrace_textBlockOf.
    + done.
    + done.
    + unfold textBlockOf. done.
Qed.

(** ** What the generator writes *)

Section GeneratorWrites.
Variable toFixed2 : string -> string.

Lemma amountLine_written fields :
  amountIsNaN fields = false ->
  amountLine toFixed2 fields = Ok (map wireLine (amountField toFixed2 fields)).
Proof.
  unfold amountIsNaN, amountLine, amountField.
  destruct (fld fields "valueDate"), (fld fields "currency"),
    (fld fields "amount") as [a|]; try done.
  intros Hn. by rewrite (formatSwiftAmount_Ok _ _ Hn).
Qed.

Lemma instructedAmountLine_written fields :
  instructedAmountIsNaN fields = false ->
  instructedAmountLine toFixed2 fields
  = Ok (map wireLine (instructedField toFixed2 fields)).
Proof.
  unfold instructedAmountIsNaN, instructedAmountLine, instructedField.
  destruct (fld fields "instructedCurrency"),
    (fld fields "instructedAmount") as [a|]; try done.
  intros Hn. by rewrite (formatSwiftAmount_Ok _ _ Hn).
Qed.

Lemma block4_written type fields :
  contentRefused type fields = false ->
  generateBlock4 toFixed2 type fields
  = Ok (wireBlock "4" (textBlockOf (fieldsOf toFixed2 type fields))).
Proof.
  unfold contentRefused, generateBlock4, fieldsOf, textBlockOf.
  destruct (String.eqb type "103").
  { intros [[[Hop Ha]%orb_false_iff Hi]%orb_false_iff Hch]%orb_false_iff.
    unfold generateMT103Content. rewrite Hop, Hch.
    rewrite (amountLine_written _ Ha), bind_Ok.
    rewrite (instructedAmountLine_written _ Hi), bind_Ok.
    rewrite <- !app_assoc. unfold fields103, opCodeOf, chargesOf.
    rewrite !map_app, <- !optLine_wire, <- !partyLine_wire.
    rewrite bind_Ok. by rewrite block4_wire. }
  destruct (String.eqb type "202").
  { intros Ha. unfold generateMT202Content.
    rewrite (amountLine_written _ Ha), !bind_Ok. rewrite <- !app_assoc.
    unfold fields202. rewrite !map_app, <- !optLine_wire. by rewrite block4_wire. }
  destruct (String.eqb type "940").
  { intros _. by rewrite bind_Ok, generateMT940Content_wire, block4_wire. }
  destruct (String.eqb type "950"); [|done].
  intros _. by rewrite bind_Ok, generateMT950Content_wire, block4_wire.
Qed.

Lemma generator_written input out :
  generateMtMessage toFixed2 input = Ok out ->
  out = wireMessage
          ("F01" +:+ terminalOf (senderBic input) +:+ "0000000000")
          ("I" +:+ Js.replaceFirst "MT" "" (in_messageType input)
               +:+ terminalOf (receiverBic input) +:+ "N")
          (block3Content (fields input))
          (textBlockOf (fieldsOf toFixed2 (Js.replaceFirst "MT" "" (in_messageType input))
                          (fields input))).
Proof.
  intros Hout.
  assert (Hr : refuses input = false) by (apply (generator_returns_iff toFixed2); eauto).
  unfold refuses in Hr.
  apply orb_false_iff in Hr as [[Hs%negb_false_iff Hr%negb_false_iff]%orb_false_iff Hc].
  destruct (valid_bic_terminal _ Hs) as (ES & _).
  destruct (valid_bic_terminal _ Hr) as (ER & _).
  unfold generateMtMessage in Hout. rewrite Hs, Hr in Hout. cbn [negb] in Hout.
  rewrite (block4_written _ _ Hc), bind_Ok, ES, ER in Hout.
  rewrite generateBlock1_wire, generateBlock2_wire, generateBlock3_wire in Hout.
  by injection Hout as <-.
Qed.

End GeneratorWrites.

Lemma refuses_spelled input :
  refuses input = true
  <-> bic_valid (validateBic (senderBic input)) = false
      \/ bic_valid (validateBic (receiverBic input)) = false
      \/ ~ In (Js.replaceFirst "MT" "" (in_messageType input)) ["103"; "202"; "940"; "950"]
      \/ (Js.replaceFirst "MT" "" (in_messageType input) = "103"
          /\ (truthyIn BANK_OPERATION_CODES
                (default "CRED" (fld (fields input) "bankOperationCode")) = false
              \/ truthyIn CHARGE_CODES
                   (default "SHA" (fld (fields input) "charges")) = false
              \/ instructedAmountIsNaN (fields input) = true))
      \/ ((Js.replaceFirst "MT" "" (in_messageType input) = "103"
           \/ Js.replaceFirst "MT" "" (in_messageType input) = "202")
          /\ amountIsNaN (fields input) = true).
Proof.
  unfold refuses, contentRefused.
  set (type := Js.replaceFirst "MT" "" (in_messageType input)).
  destruct (bic_valid (validateBic (senderBic input))); cbn [negb orb]; [|tauto].
  destruct (bic_valid (validateBic (receiverBic input))); cbn [negb orb]; [|tauto].
  destruct (String.eqb_spec type "103") as [->|H103].
  { destruct (truthyIn BANK_OPERATION_CODES _), (truthyIn CHARGE_CODES _),
      (amountIsNaN _), (instructedAmountIsNaN _); cbn; split; try tauto;
      intros [?|[?|[H|[H|H]]]]; try done; try (exfalso; apply H; tauto);
      try (destruct H as [_ [?|[?|?]]]; done); try (destruct H as [_ ?]; done). }
  destruct (String.eqb_spec type "202") as [->|H202].
  { destruct (amountIsNaN _); split; try tauto;
      intros [?|[?|[H|[H|H]]]]; try done; try (exfalso; apply H; cbn; tauto);
      try (destruct H as [? _]; done); try (destruct H as [_ ?]; done). }
  destruct (String.eqb_spec type "940") as [->|H940].
  { split; [done|]. intros [?|[?|[H|[H|H]]]]; try done;
      try (exfalso; apply H; cbn; tauto); try (destruct H as [? _]; done).
    destruct H as [[?|?] _]; done. }
  destruct (String.eqb_spec type "950") as [->|H950].
  { split; [done|]. intros [?|[?|[H|[H|H]]]]; try done;
      try (exfalso; apply H; cbn; tauto); try (destruct H as [? _]; done).
    destruct H as [[?|?] _]; done. }
  split; [|done]. intros _. right; right; left. cbn. intuition congruence.
Qed.

Lemma In_tag_optField t t' v :
  In t (map wf_tag (optField t' v)) <-> t = t' /\ v <> None.
Proof. destruct v; simpl; intuition congruence. Qed.

Lemma In_tag_partyField t t' a n :
  In t (map wf_tag (partyField t' a n)) <-> t = t' /\ (a <> None \/ n <> None).
Proof. destruct a, n; simpl; intuition congruence. Qed.

Lemma In_tag_amountField toFixed2 t fields :
  In t (map wf_tag (amountField toFixed2 fields))
  <-> t = "32A"
      /\ supplied fields "valueDate" && supplied fields "currency"
         && supplied fields "amount" = true.
Proof.
  unfold amountField, supplied.
  destruct (fld fields "valueDate"), (fld fields "currency"), (fld fields "amount");
    simpl; intuition congruence.
Qed.

Lemma In_tag_instructedField toFixed2 t fields :
  In t (map wf_tag (instructedField toFixed2 fields)) -> t = "33B".
Proof.
  unfold instructedField.
  destruct (fld fields "instructedCurrency"), (fld fields "instructedAmount");
    simpl; intuition congruence.
Qed.

Lemma In_tag_statementFields t fields :
  In t (map wf_tag (statementFields fields)) -> t = "61".
Proof.
  unfold statementFields. destruct (fld fields "statementLines") as [v|]; [|done].
  rewrite map_map. cbn [wf_tag]. intros (? & <- & _)%in_map_iff. done.
Qed.

Lemma supplied_Some fields k : supplied fields k = true <-> fld fields k <> None.
Proof. unfold supplied. destruct (fld fields k); intuition congruence. Qed.

(** A mandatory field is among the fields written exactly when its values
    are supplied. *)
Lemma mandatory_written toFixed2 type spec t fields :
  MT_SPECS !! ("MT" +:+ type) = Some spec ->
  In t (mandatoryTags spec) ->
  In t (map wf_tag (fieldsOf toFixed2 type fields)) <-> suppliedFor type t fields = true.
Proof.
  intros Hspec Ht.
  destruct (registry_type _ _ Hspec) as [[-> ->]|[[-> ->]|[[-> ->]|[-> ->]]]];
    vm_compute in Ht;
    repeat (destruct Ht as [<- | Ht]; [|]); try destruct Ht;
    unfold fieldsOf, suppliedFor; cbn [String.eqb Ascii.eqb Bool.eqb];
    unfold fields103, fields202, fields940, fields950;
    rewrite !map_app, !in_app_iff, !In_tag_optField, ?In_tag_partyField,
      ?In_tag_amountField, ?orb_true_iff, ?supplied_Some; cbn [map wf_tag In];
    (split;
     [ intros H; repeat (destruct H as [H|H]);
         try (apply In_tag_instructedField in H);
         try (apply In_tag_statementFields in H);
         try match type of H with _ /\ _ => destruct H as [? ?] end;
         try done; try congruence; tauto
     | try tauto ]).
Qed.

(** C2, as the code has it. The generator raises exactly when an identifier
    is not a valid BIC, the message type with its first [MT] taken out is
    none of [103], [202], [940] and [950], the look-up of an MT103 code (the
    one supplied, or the default [CRED] or [SHA]) in its table is falsy, or
    an amount that is to be written is not a number. A mandatory value that
    is not supplied is no reason to raise. What the generator returns is the
    wire message whose text block holds the fields of the supplied values:
    a mandatory field is among them exactly when its values are supplied, and
    is left out otherwise. If the generator returns a message for an input,
    it returns one for the input with any one value taken away. *)
Theorem generator_raises_only_on_bad_values (toFixed2 : string -> string)
    (input : MtMessageInput) :
  let type := Js.replaceFirst "MT" "" (in_messageType input) in
  let written := fieldsOf toFixed2 type (fields input) in
  ((exists e, generateMtMessage toFixed2 input = Throw e)
   <-> bic_valid (validateBic (senderBic input)) = false
       \/ bic_valid (validateBic (receiverBic input)) = false
       \/ ~ In type ["103"; "202"; "940"; "950"]
       \/ (type = "103"
           /\ (truthyIn BANK_OPERATION_CODES
                 (default "CRED" (fld (fields input) "bankOperationCode")) = false
               \/ truthyIn CHARGE_CODES
                    (default "SHA" (fld (fields input) "charges")) = false
               \/ instructedAmountIsNaN (fields input) = true))
       \/ ((type = "103" \/ type = "202") /\ amountIsNaN (fields input) = true))
  /\ (forall out,
        generateMtMessage toFixed2 input = Ok out ->
        out = wireMessage
                ("F01" +:+ terminalOf (senderBic input) +:+ "0000000000")
                ("I" +:+ type +:+ terminalOf (receiverBic input) +:+ "N")
                (block3Content (fields input))
                (textBlockOf written)
        /\ forall spec t,
             MT_SPECS !! ("MT" +:+ type) = Some spec ->
             In t (mandatoryTags spec) ->
             (In t (map wf_tag written) <-> suppliedFor type t (fields input) = true))
  /\ (forall k,
        (exists out, generateMtMessage toFixed2 input = Ok out) ->
        exists out', generateMtMessage toFixed2 (withoutField k input) = Ok out').
Proof.
  cbv zeta. split; [|split].
  - rewrite <- refuses_spelled. apply generator_refuses_iff.
  - intros out Hout. split; [by apply generator_written|].
    intros spec t Hspec Ht. by eapply mandatory_written.
  - intros k H. apply generator_returns_iff. apply refuses_withoutField.
    by apply (generator_returns_iff toFixed2).
Qed.

Lemma generator_raises_only_on_bad_values_witness :
  exists out,
    generateMtMessage (fun _ => "0.00") inputInheritedCode = Ok out
    /\ out = wireMessage "F01DEUTDEFFXXXX0000000000" "I103CHASUS33XXXXN" None
               (textBlockOf [ mkWireField "23B" "constructor" [];
                              mkWireField "59" "NAME" [];
                              mkWireField "71A" "SHA" [] ])
    /\ (In "20" (map wf_tag (fieldsOf (fun _ => "0.00") "103" (fields inputInheritedCode)))
        <-> suppliedFor "103" "20" (fields inputInheritedCode) = true)
    /\ suppliedFor "103" "20" (fields inputInheritedCode) = false.
Proof.
  pose proof (generator_raises_only_on_bad_values (fun _ => "0.00") inputInheritedCode)
    as (_ & Hwritten & _).
  destruct (Hwritten
              (Js.join CRLF
                 [ "{1:F01DEUTDEFFXXXX0000000000}{2:I103CHASUS33XXXXN}{4:";
                   ":23B:constructor"; ":59:NAME"; ":71A:SHA"; "-}{5:}" ]))
    as [Hout Hmandatory].
  { vm_compute. reflexivity. }
  eexists. split; [vm_compute; reflexivity|].
  split; [exact Hout|]. split; [|reflexivity].
  apply (Hmandatory MT103_SPEC "20"); [reflexivity|vm_compute; tauto].
Defined.

(** ** Decoding a generated message: the headers *)

(** Names the characters of a string of known length. *)
Ltac explode s H :=
  repeat (destruct s as [|? s]; [discriminate H|]); destruct s; [|discriminate H].

Lemma basicHeader_terminal S :
  String.length S = 12 ->
  parseBasicHeader ("F01" +:+ S +:+ "0000000000") =
  {| applicationId := "F"; serviceId := "01"; ltAddress := S;
     sessionNumber := "0000"; sequenceNumber := "000000" |}.
Proof. intros H. explode S H. reflexivity. Qed.

Lemma applicationHeader_terminal type R :
  String.length type = 3 -> String.length R = 12 ->
  parseApplicationHeader ("I" +:+ type +:+ R +:+ "N") =
  {| inputOutput := "I"; ah_messageType := "MT" +:+ type;
     receiverAddress := Some R; priority := Some "N";
     deliveryMonitor := Some ""; obsolescencePeriod := Some "";
     inputTime := None; inputDate := None; mir := None;
     outputDate := None; outputTime := None |}.
Proof. intros Ht H. explode type Ht. explode R H. reflexivity. Qed.

(** X8: the headers of a generated message, decoded. For an input that is
    ready for the round trip the decoder finds in the generated message:
    application F, service 01, the sender's identifier in its normal form,
    filled up to twelve characters, as terminal address, session 0000 and
    sequence 000000; an input header of the generated type with the
    receiver's twelve characters, priority N and nothing behind it; no
    trailers, because block 5 is written empty; and the message itself as
    raw message. *)
Theorem generated_headers_decode (toFixed2 : string -> string) (input : MtMessageInput) :
  roundTripReady toFixed2 input = true ->
  exists out,
    generateMtMessage toFixed2 input = Ok out
    /\ getMessageType (parseMtMessage out)
         = "MT" +:+ Js.replaceFirst "MT" "" (in_messageType input)
    /\ basicHeader (parseMtMessage out) =
         {| applicationId := "F"; serviceId := "01";
            ltAddress := normalizeBicTo12 (normalizeBic (senderBic input));
            sessionNumber := "0000"; sequenceNumber := "000000" |}
    /\ applicationHeader (parseMtMessage out) =
         {| inputOutput := "I";
            ah_messageType := "MT" +:+ Js.replaceFirst "MT" "" (in_messageType input);
            receiverAddress := Some (normalizeBicTo12 (normalizeBic (receiverBic input)));
            priority := Some "N"; deliveryMonitor := Some "";
            obsolescencePeriod := Some "";
            inputTime := None; inputDate := None; mir := None;
            outputDate := None; outputTime := None |}
    /\ String.length (normalizeBicTo12 (normalizeBic (senderBic input))) = 12
    /\ String.length (normalizeBicTo12 (normalizeBic (receiverBic input))) = 12
    /\ trailers (parseMtMessage out) = None
    /\ rawMessage (parseMtMessage out) = out.
Proof.
  intros Hready.
  destruct (ready_wire _ _ Hready) as (Hgen & Hparse & _).
  pose proof (ready_type _ _ Hready) as Htype. cbv zeta in *.
  eexists. split; [exact Hgen|]. rewrite Hparse.
  cbn [getMessageType messageType basicHeader applicationHeader trailers rawMessage].
  unfold roundTripReady in Hready.
  apply andb_true_iff in Hready as [Hready _].
  apply andb_true_iff in Hready as [Hready _].
  apply andb_true_iff in Hready as [Hs Hr].
  destruct (valid_bic_terminal _ Hs) as (_ & LS & _).
  destruct (valid_bic_terminal _ Hr) as (_ & LR & _).
  unfold terminalOf in *.
  assert (Ht : String.length (Js.replaceFirst "MT" "" (in_messageType input)) = 3).
  { by destruct Htype as [-> | [-> | [-> | ->]]]. }
  rewrite (basicHeader_terminal _ LS), (applicationHeader_terminal _ _ Ht LR).
  done.
Qed.

Lemma generated_headers_decode_witness :
  exists out,
    generateMtMessage (fun _ => "1000.00") sampleInput103 = Ok out
    /\ getMessageType (parseMtMessage out)
         = "MT" +:+ Js.replaceFirst "MT" "" (in_messageType sampleInput103)
    /\ basicHeader (parseMtMessage out) =
         {| applicationId := "F"; serviceId := "01";
            ltAddress := normalizeBicTo12 (normalizeBic (senderBic sampleInput103));
            sessionNumber := "0000"; sequenceNumber := "000000" |}
    /\ applicationHeader (parseMtMessage out) =
         {| inputOutput := "I";
            ah_messageType :=
              "MT" +:+ Js.replaceFirst "MT" "" (in_messageType sampleInput103);
            receiverAddress :=
              Some (normalizeBicTo12 (normalizeBic (receiverBic sampleInput103)));
            priority := Some "N"; deliveryMonitor := Some "";
            obsolescencePeriod := Some "";
            inputTime := None; inputDate := None; mir := None;
            outputDate := None; outputTime := None |}
    /\ String.length (normalizeBicTo12 (normalizeBic (senderBic sampleInput103))) = 12
    /\ String.length (normalizeBicTo12 (normalizeBic (receiverBic sampleInput103))) = 12
    /\ trailers (parseMtMessage out) = None
    /\ rawMessage (parseMtMessage out) = out.
Proof.
  apply (generated_headers_decode (fun _ => "1000.00") sampleInput103).
  vm_compute. reflexivity.
Defined.

(** ** The type of a decoded message *)

Lemma toUpper_fixed c : Js.toUpperCase (Char.toUpper c) = Char.toUpper c.
Proof. destruct c as [[] [] [] [] [] [] [] []]; vm_compute; reflexivity. Qed.

Lemma toUpperCase_fixed s : Js.toUpperCase (Js.toUpperCase s) = Js.toUpperCase s.
Proof.
  induction s as [|c s IH]; [done|]. simpl.
  by rewrite toUpperCase_app, toUpper_fixed, IH.
Qed.

Lemma prefix_MT s :
  String.prefix "MT" s = true -> exists s', s = "MT" +:+ s'.
Proof.
  intros H%String.prefix_correct.
  destruct s as [|a [|b s']]; try discriminate H.
  cbn in H. rewrite substring_0_0 in H. injection H as -> ->. by exists s'.
Qed.

Lemma toUpper_head c u r :
  Char.toUpper c +:+ u = String c r -> Char.toUpper c = String c "" /\ u = r.
Proof.
  destruct c as [[] [] [] [] [] [] [] []]; cbv; intros [= H]; try done;
    by rewrite H.
Qed.

(** A text that is in upper case once its first [MT] is taken out was in
    upper case with it. *)
Lemma replaceFirst_upper s :
  Js.toUpperCase (Js.replaceFirst "MT" "" s) = Js.replaceFirst "MT" "" s ->
  Js.toUpperCase s = s.
Proof.
  induction s as [|c s IH]; [done|].
  cbn [Js.replaceFirst].
  destruct (String.prefix "MT" (String c s)) eqn:E.
  - apply prefix_MT in E as [s' E]. simpl in E. injection E as -> ->.
    intros H. change (Js.toUpperCase s' = s') in H.
    change (Js.toUpperCase ("MT" +:+ s') = "MT" +:+ s').
    rewrite toUpperCase_app, H. reflexivity.
  - cbn [Js.toUpperCase]. intros H. apply toUpper_head in H as [Hc Hs].
    rewrite Hc, append_cons, append_nil_l. by rewrite (IH Hs).
Qed.

(** X9: isMessageType accepts the type of a generated message as the input
    named it. For an input that is ready for the round trip, the decoded
    message is of the type the input asked for, and of a type [t] exactly
    when [t], in upper case and without its first [MT], is the type without
    [MT]. *)
Theorem generated_type_is_recognised (toFixed2 : string -> string)
    (input : MtMessageInput) :
  roundTripReady toFixed2 input = true ->
  exists out,
    generateMtMessage toFixed2 input = Ok out
    /\ isMessageType (parseMtMessage out) (in_messageType input) = true
    /\ forall t,
         isMessageType (parseMtMessage out) t = true <->
         Js.replaceFirst "MT" "" (Js.toUpperCase t)
           = Js.replaceFirst "MT" "" (in_messageType input).
Proof.
  intros Hready.
  destruct (ready_wire _ _ Hready) as (Hgen & Hparse & _).
  pose proof (ready_type _ _ Hready) as Htype. cbv zeta in *.
  eexists. split; [exact Hgen|]. rewrite Hparse. unfold isMessageType.
  cbn [messageType].
  unfold roundTripReady in Hready.
  apply andb_true_iff in Hready as [Hready _].
  apply andb_true_iff in Hready as [Hready _].
  apply andb_true_iff in Hready as [_ Hr].
  destruct (valid_bic_terminal _ Hr) as (_ & LR & _).
  assert (Ht : String.length (Js.replaceFirst "MT" "" (in_messageType input)) = 3).
  { by destruct Htype as [-> | [-> | [-> | ->]]]. }
  rewrite (applicationHeader_terminal _ _ Ht LR). cbn [ah_messageType].
  rewrite replaceFirst_MT.
  assert (Hup : Js.toUpperCase (in_messageType input) = in_messageType input).
  { apply replaceFirst_upper. by destruct Htype as [-> | [-> | [-> | ->]]]. }
  split.
  - rewrite Hup. apply String.eqb_refl.
  - intros t. rewrite String.eqb_eq. split; intros H; by rewrite H.
Qed.

Lemma generated_type_is_recognised_witness :
  exists out,
    generateMtMessage (fun _ => "1000.00") sampleInput103 = Ok out
    /\ isMessageType (parseMtMessage out) (in_messageType sampleInput103) = true
    /\ forall t,
         isMessageType (parseMtMessage out) t = true <->
         Js.replaceFirst "MT" "" (Js.toUpperCase t)
           = Js.replaceFirst "MT" "" (in_messageType sampleInput103).
Proof.
  apply (generated_type_is_recognised (fun _ => "1000.00") sampleInput103).
  vm_compute. reflexivity.
Defined.

(** X10: the spellings isMessageType takes. The case of the type asked for
    does not matter: two spellings with the same upper-case form get the same
    answer, and so do a spelling and its upper-case form. For a type whose
    upper-case form holds no [MT], a prefix [MT] in any case ([MT], [Mt],
    [mT], [mt]) changes nothing. *)
Theorem isMessageType_spellings (p : ParsedMtMessage) (t : string) :
  (forall u, Js.toUpperCase u = Js.toUpperCase t ->
             isMessageType p u = isMessageType p t)
  /\ isMessageType p (Js.toUpperCase t) = isMessageType p t
  /\ (Js.replaceFirst "MT" "" (Js.toUpperCase t) = Js.toUpperCase t ->
      forall pre, Js.toUpperCase pre = "MT" ->
                  isMessageType p (pre +:+ t) = isMessageType p t).
Proof.
  unfold isMessageType. cbv zeta. split; [|split].
  - by intros u ->.
  - by rewrite toUpperCase_fixed.
  - intros H pre Hpre. by rewrite toUpperCase_app, Hpre, replaceFirst_MT, H.
Qed.

Lemma isMessageType_spellings_witness :
  isMessageType sampleValid103 "mt103" = isMessageType sampleValid103 "MT103"
  /\ isMessageType sampleValid103 "Mt103" = isMessageType sampleValid103 "103"
  /\ isMessageType sampleValid103 "103" = true.
Proof.
  split; [|split; [|reflexivity]].
  - apply (proj1 (isMessageType_spellings sampleValid103 "MT103") "mt103").
    reflexivity.
  - apply (proj2 (proj2 (isMessageType_spellings sampleValid103 "103")) eq_refl "Mt").
    reflexivity.
Defined.

(** ** Decoding a generated message: the user header *)

Lemma scanToClose_plain u rest :
  noBrace u = true -> scanToClose (u +:+ "}" +:+ rest) = Some (u, rest).
Proof.
  induction u as [|c u IH]; [done|]. rewrite append_cons. simpl.
  intros [Hc Hu]%andb_true_iff. rewrite (IH Hu).
  unfold Char.isBrace in Hc. apply negb_true_iff, orb_false_iff in Hc as [_ Hc].
  by rewrite Hc.
Qed.

Lemma execAll_subField a b c u rest :
  Char.isDigit a = true -> Char.isDigit b = true -> Char.isDigit c = true ->
  noBrace u = true ->
  Js.execAll (matchSubFieldAt Char.isDigit)
    ("{" +:+ String a (String b (String c ":")) +:+ u +:+ "}" +:+ rest)
  = (String a (String b (String c "")), u)
    :: Js.execAll (matchSubFieldAt Char.isDigit) rest.
Proof.
  intros Ha Hb Hc Hu.
  change ("{" +:+ String a (String b (String c ":")) +:+ u +:+ "}" +:+ rest)
    with (String "{" (String a (String b (String c ":")) +:+ u +:+ "}" +:+ rest)).
  replace (String a (String b (String c ":")) +:+ u +:+ "}" +:+ rest)
    with ((String a (String b (String c ":")) +:+ u +:+ "}") +:+ rest)
    by (by rewrite !append_assoc).
  apply execAll_match. rewrite !append_assoc.
  change (String a (String b (String c ":")) +:+ u +:+ "}" +:+ rest)
    with (String a (String b (String c (String ":" (u +:+ "}" +:+ rest))))).
  cbn [matchSubFieldAt]. rewrite Ha, Hb, Hc.
  change (Ascii.eqb "{" "{") with true. change (Ascii.eqb ":" ":") with true.
  cbn [andb]. by rewrite (scanToClose_plain _ _ Hu).
Qed.

Lemma execAll_subField_end :
  Js.execAll (matchSubFieldAt Char.isDigit) "" = [].
Proof. reflexivity. Qed.

(** X11: the user header of a generated message, decoded. The decoder returns
    no user header when neither a UETR nor a MUR was supplied; otherwise it
    returns the UETR under 121 and the MUR under 108. With both, 108 comes
    first among the keys, although the generator writes 121 first: the keys
    are array indices. *)
Theorem generated_user_header_decodes (toFixed2 : string -> string)
    (input : MtMessageInput) :
  roundTripReady toFixed2 input = true ->
  exists out,
    generateMtMessage toFixed2 input = Ok out
    /\ userHeader (parseMtMessage out) =
       match fld (fields input) "uetr", fld (fields input) "mur" with
       | None, None => None
       | Some u, None => Some [("121", u)]
       | None, Some m => Some [("108", m)]
       | Some u, Some m => Some [("108", m); ("121", u)]
       end.
Proof.
  intros Hready.
  destruct (ready_wire _ _ Hready) as (Hgen & Hparse & _). cbv zeta in *.
  eexists. split; [exact Hgen|]. rewrite Hparse. cbn [userHeader].
  unfold roundTripReady in Hready.
  apply andb_true_iff in Hready as [Hready _].
  apply andb_true_iff in Hready as [_ Hsafe].
  assert (Hu : forall x, fld (fields input) "uetr" = Some x -> noBrace x = true).
  { intros x Hx. eapply valuesSafe_fld in Hx as [_ Hx]; [done|exact Hsafe|].
    simpl; tauto. }
  assert (Hm : forall x, fld (fields input) "mur" = Some x -> noBrace x = true).
  { intros x Hx. eapply valuesSafe_fld in Hx as [_ Hx]; [done|exact Hsafe|].
    simpl; tauto. }
  unfold block3Content, parseUserHeader.
  destruct (fld (fields input) "uetr") as [u|], (fld (fields input) "mur") as [m|];
    cbn [fmap option_fmap option_map]; [| | |done].
  - change ("{121:" +:+ u +:+ "}") with ("{" +:+ "121:" +:+ u +:+ "}").
    rewrite <- (append_nil_r ("{108:" +:+ m +:+ "}")).
    change ("{108:" +:+ m +:+ "}") with ("{" +:+ "108:" +:+ m +:+ "}").
    rewrite !append_assoc.
    rewrite execAll_subField by (done || by apply Hu).
    rewrite execAll_subField by (done || by apply Hm).
    reflexivity.
  - change ("{121:" +:+ u +:+ "}") with ("{" +:+ "121:" +:+ u +:+ "}").
    rewrite !append_assoc.
    rewrite execAll_subField by (done || by apply Hu).
    reflexivity.
  - rewrite append_nil_l.
    rewrite <- (append_nil_r ("{108:" +:+ m +:+ "}")).
    change ("{108:" +:+ m +:+ "}") with ("{" +:+ "108:" +:+ m +:+ "}").
    rewrite !append_assoc.
    rewrite execAll_subField by (done || by apply Hm).
    reflexivity.
Qed.

Lemma generated_user_header_decodes_witness :
  exists out,
    generateMtMessage (fun a => a) sampleInput940 = Ok out
    /\ userHeader (parseMtMessage out) =
       match fld (fields sampleInput940) "uetr", fld (fields sampleInput940) "mur" with
       | None, None => None
       | Some u, None => Some [("121", u)]
       | None, Some m => Some [("108", m)]
       | Some u, Some m => Some [("108", m); ("121", u)]
       end.
Proof.
  apply (generated_user_header_decodes (fun a => a) sampleInput940).
  vm_compute. reflexivity.
Defined.

(** ** Decoding a generated message: the fields *)

Lemma tag_not_inherited t :
  isTag t = true -> bool_decide (t ∈ objectPrototypeKeys) = false.
Proof.
  intros Ht. apply bool_decide_eq_false. unfold objectPrototypeKeys.
  rewrite !elem_of_cons, elem_of_nil.
  intros H. repeat (destruct H as [->|H]; [discriminate Ht|]). done.
Qed.

(** For a tag, getFieldValue is the own property of the text block. *)
Lemma getFieldValue_tag p t :
  isTag t = true -> getFieldValue p t = Own <$> Obj.get t (textBlock p).
Proof.
  intros Ht. unfold getFieldValue. rewrite (tag_not_inherited _ Ht).
  by destruct (Obj.get t (textBlock p)).
Qed.

Lemma value_scalar t x : fieldValueOf (valueOf (mkWireField t x [])) = Scalar x.
Proof. by destruct x. Qed.

Lemma value_opt t (v : option string) :
  Own <$> ((fun f => fieldValueOf (valueOf f))
             <$> ((fun x => mkWireField t x []) <$> v))
  = (fun x => Own (Scalar x)) <$> v.
Proof. destruct v as [x|]; [|done]. cbn. by rewrite value_scalar. Qed.

Lemma value_party fields t ak nk :
  Own <$> ((fun f => fieldValueOf (valueOf f))
             <$> head (partyField t (fld fields ak) (fld fields nk)))
  = decodedParty (fld fields ak) (fld fields nk).
Proof.
  destruct (fld fields ak) as [a|] eqn:Ha, (fld fields nk) as [n|] eqn:Hn;
    cbn; try done.
  by rewrite value_scalar.
Qed.

(** Reads a tag of the decoded text block off the fields that were written. *)
Ltac decode_tag Hparse Hwf :=
  rewrite getFieldValue_tag by reflexivity;
  rewrite Hparse; cbn [textBlock]; rewrite get_blockLines by exact Hwf;
  unfold fieldsOf; eval_eqb;
  unfold fields103, fields202, fields940, fields950; find_last;
  rewrite ?findLast_amountField, ?findLast_instructedField, ?findLast_single;
  cbn [wf_tag]; eval_eqb; rewrite ?some_or_none.

(** X12: the fields of a generated MT103, decoded. For an MT103 input that is
    ready for the round trip, so that no value that is written holds a brace
    or a line terminator (carriage return, line feed, U+2028, U+2029),
    getFieldValue on the decoded message returns
    each value under the tag the generator wrote it to: the sender's
    reference under 20, the operation code (CRED when none is supplied)
    under 23B, value date, currency and formatted amount as one text under
    32A, the instructed amount under 33B, the charge code (SHA when none is
    supplied) under 71A, the optional values under 52A, 53A, 54A, 56A, 57A,
    70 and 72, and the parties under 50K and 59 as two lines (account and
    name) or, without an account, as the name alone. *)
Theorem generated_mt103_fields_decode (toFixed2 : string -> string)
    (input : MtMessageInput) :
  roundTripReady toFixed2 input = true ->
  Js.replaceFirst "MT" "" (in_messageType input) = "103" ->
  exists out,
    generateMtMessage toFixed2 input = Ok out
    /\ let p := parseMtMessage out in
       let f := fld (fields input) in
       let scalar := fun x => Own (Scalar x) in
       getFieldValue p "20" = scalar <$> f "senderReference"
       /\ getFieldValue p "23B" = Some (scalar (default "CRED" (f "bankOperationCode")))
       /\ getFieldValue p "32A" =
            match f "valueDate", f "currency", f "amount" with
            | Some d, Some c, Some a =>
                Some (scalar (d +:+ c +:+ Js.replaceFirst "." "," (toFixed2 a)))
            | _, _, _ => None
            end
       /\ getFieldValue p "33B" =
            match f "instructedCurrency", f "instructedAmount" with
            | Some c, Some a => Some (scalar (c +:+ Js.replaceFirst "." "," (toFixed2 a)))
            | _, _ => None
            end
       /\ getFieldValue p "50K"
            = decodedParty (f "orderingCustomerAccount") (f "orderingCustomerName")
       /\ getFieldValue p "52A" = scalar <$> f "orderingInstitution"
       /\ getFieldValue p "53A" = scalar <$> f "sendersCorrespondent"
       /\ getFieldValue p "54A" = scalar <$> f "receiversCorrespondent"
       /\ getFieldValue p "56A" = scalar <$> f "intermediaryInstitution"
       /\ getFieldValue p "57A" = scalar <$> f "accountWithInstitution"
       /\ getFieldValue p "59" = decodedParty (f "beneficiaryAccount") (f "beneficiaryName")
       /\ getFieldValue p "70" = scalar <$> f "remittanceInfo"
       /\ getFieldValue p "71A" = Some (scalar (default "SHA" (f "charges")))
       /\ getFieldValue p "72" = scalar <$> f "senderToReceiverInfo".
Proof.
  intros Hready Htype.
  destruct (ready_wire _ _ Hready) as (Hgen & Hparse & _ & Hwf). cbv zeta in *.
  rewrite Htype in *.
  eexists. split; [exact Hgen|].
  repeat split; decode_tag Hparse Hwf;
    rewrite ?value_opt, ?value_party; try done.
  - cbn. by rewrite value_scalar.
  - unfold amountField.
    destruct (fld (fields input) "valueDate"), (fld (fields input) "currency"),
      (fld (fields input) "amount"); cbn; try done.
    by rewrite value_scalar.
  - unfold instructedField.
    destruct (fld (fields input) "instructedCurrency"),
      (fld (fields input) "instructedAmount"); cbn; try done.
    by rewrite value_scalar.
  - cbn. by rewrite value_scalar.
Qed.

Lemma generated_mt103_fields_decode_witness :
  exists out,
    generateMtMessage (fun _ => "1000.00") sampleInput103 = Ok out
    /\ let p := parseMtMessage out in
       let f := fld (fields sampleInput103) in
       let scalar := fun x => Own (Scalar x) in
       getFieldValue p "20" = scalar <$> f "senderReference"
       /\ getFieldValue p "23B" = Some (scalar (default "CRED" (f "bankOperationCode")))
       /\ getFieldValue p "32A" =
            match f "valueDate", f "currency", f "amount" with
            | Some d, Some c, Some a =>
                Some (scalar (d +:+ c
                              +:+ Js.replaceFirst "." "," ((fun _ => "1000.00") a)))
            | _, _, _ => None
            end
       /\ getFieldValue p "33B" =
            match f "instructedCurrency", f "instructedAmount" with
            | Some c, Some a =>
                Some (scalar (c +:+ Js.replaceFirst "." "," ((fun _ => "1000.00") a)))
            | _, _ => None
            end
       /\ getFieldValue p "50K"
            = decodedParty (f "orderingCustomerAccount") (f "orderingCustomerName")
       /\ getFieldValue p "52A" = scalar <$> f "orderingInstitution"
       /\ getFieldValue p "53A" = scalar <$> f "sendersCorrespondent"
       /\ getFieldValue p "54A" = scalar <$> f "receiversCorrespondent"
       /\ getFieldValue p "56A" = scalar <$> f "intermediaryInstitution"
       /\ getFieldValue p "57A" = scalar <$> f "accountWithInstitution"
       /\ getFieldValue p "59" = decodedParty (f "beneficiaryAccount") (f "beneficiaryName")
       /\ getFieldValue p "70" = scalar <$> f "remittanceInfo"
       /\ getFieldValue p "71A" = Some (scalar (default "SHA" (f "charges")))
       /\ getFieldValue p "72" = scalar <$> f "senderToReceiverInfo".
Proof.
  apply (generated_mt103_fields_decode (fun _ => "1000.00") sampleInput103);
    vm_compute; reflexivity.
Defined.

(** X13: the fields of a generated MT202, decoded. For an MT202 input that is
    ready for the round trip, so that no value that is written holds a brace
    or a line terminator (carriage return, line feed, U+2028, U+2029),
    getFieldValue on the decoded message returns the references under 20 and
    21, value date, currency and formatted amount as one text under 32A,
    and the institutions and the information for the receiver under 52A,
    53A, 54A, 56A, 57A, 58A and 72. *)
Theorem generated_mt202_fields_decode (toFixed2 : string -> string)
    (input : MtMessageInput) :
  roundTripReady toFixed2 input = true ->
  Js.replaceFirst "MT" "" (in_messageType input) = "202" ->
  exists out,
    generateMtMessage toFixed2 input = Ok out
    /\ let p := parseMtMessage out in
       let f := fld (fields input) in
       let scalar := fun x => Own (Scalar x) in
       getFieldValue p "20" = scalar <$> f "transactionReference"
       /\ getFieldValue p "21" = scalar <$> f "relatedReference"
       /\ getFieldValue p "32A" =
            match f "valueDate", f "currency", f "amount" with
            | Some d, Some c, Some a =>
                Some (scalar (d +:+ c +:+ Js.replaceFirst "." "," (toFixed2 a)))
            | _, _, _ => None
            end
       /\ getFieldValue p "52A" = scalar <$> f "orderingInstitution"
       /\ getFieldValue p "53A" = scalar <$> f "sendersCorrespondent"
       /\ getFieldValue p "54A" = scalar <$> f "receiversCorrespondent"
       /\ getFieldValue p "56A" = scalar <$> f "intermediary"
       /\ getFieldValue p "57A" = scalar <$> f "accountWithInstitution"
       /\ getFieldValue p "58A" = scalar <$> f "beneficiaryInstitution"
       /\ getFieldValue p "72" = scalar <$> f "senderToReceiverInfo".
Proof.
  intros Hready Htype.
  destruct (ready_wire _ _ Hready) as (Hgen & Hparse & _ & Hwf). cbv zeta in *.
  rewrite Htype in *.
  eexists. split; [exact Hgen|].
  repeat split; decode_tag Hparse Hwf;
    rewrite ?value_opt, ?value_party; try done.
  unfold amountField.
  destruct (fld (fields input) "valueDate"), (fld (fields input) "currency"),
    (fld (fields input) "amount"); cbn; try done.
  by rewrite value_scalar.
Qed.

Lemma generated_mt202_fields_decode_witness :
  exists out,
    generateMtMessage (fun _ => "250000.00") sampleInput202 = Ok out
    /\ let p := parseMtMessage out in
       let f := fld (fields sampleInput202) in
       let scalar := fun x => Own (Scalar x) in
       getFieldValue p "20" = scalar <$> f "transactionReference"
       /\ getFieldValue p "21" = scalar <$> f "relatedReference"
       /\ getFieldValue p "32A" =
            match f "valueDate", f "currency", f "amount" with
            | Some d, Some c, Some a =>
                Some (scalar (d +:+ c
                              +:+ Js.replaceFirst "." "," ((fun _ => "250000.00") a)))
            | _, _, _ => None
            end
       /\ getFieldValue p "52A" = scalar <$> f "orderingInstitution"
       /\ getFieldValue p "53A" = scalar <$> f "sendersCorrespondent"
       /\ getFieldValue p "54A" = scalar <$> f "receiversCorrespondent"
       /\ getFieldValue p "56A" = scalar <$> f "intermediary"
       /\ getFieldValue p "57A" = scalar <$> f "accountWithInstitution"
       /\ getFieldValue p "58A" = scalar <$> f "beneficiaryInstitution"
       /\ getFieldValue p "72" = scalar <$> f "senderToReceiverInfo".
Proof.
  apply (generated_mt202_fields_decode (fun _ => "250000.00") sampleInput202);
    vm_compute; reflexivity.
Defined.

Lemma splitChar_cons sep s : exists l ls, Js.splitChar sep s = l :: ls.
Proof.
  induction s as [|c s IH]; [by eexists _, _|].
  destruct IH as (l & ls & IH). simpl.
  destruct (Ascii.eqb c sep); [eauto|]. rewrite IH. simpl. eauto.
Qed.

Lemma findLast_map_61 (ls : list string) :
  findLast "61" (map (fun line => mkWireField "61" line []) ls) =
  match ls with
  | [] => None
  | _ => Some (mkWireField "61" (List.last ls "") [])
  end.
Proof.
  induction ls as [|l ls IH]; [done|]. cbn [map findLast]. rewrite IH.
  destruct ls; done.
Qed.

Lemma findLast_statement61 fields :
  findLast "61" (statementFields fields) =
  (fun v => mkWireField "61" (List.last (Js.splitChar "|" v) "") [])
    <$> fld fields "statementLines".
Proof.
  unfold statementFields. destruct (fld fields "statementLines") as [v|]; [|done].
  rewrite findLast_map_61. cbn [fmap option_fmap option_map].
  by destruct (splitChar_cons "|" v) as (l & ls & ->).
Qed.

(** X14: the fields of a generated statement (MT940 or MT950), decoded. For
    an input that is ready for the round trip, so that no value that is
    written holds a brace or a line terminator (carriage return, line feed,
    U+2028, U+2029), getFieldValue on the decoded message returns the
    reference under 20, the account under 25, the statement number under
    28C, the balances under 60F and 62F and, for MT940 only, the available
    balance under 64. Of the statement lines, which the generator writes as
    one field 61 each, the decoder keeps the last one alone. *)
Theorem generated_statement_fields_decode (toFixed2 : string -> string)
    (input : MtMessageInput) :
  roundTripReady toFixed2 input = true ->
  Js.replaceFirst "MT" "" (in_messageType input) = "940"
  \/ Js.replaceFirst "MT" "" (in_messageType input) = "950" ->
  exists out,
    generateMtMessage toFixed2 input = Ok out
    /\ let p := parseMtMessage out in
       let f := fld (fields input) in
       let scalar := fun x => Own (Scalar x) in
       getFieldValue p "20" = scalar <$> f "transactionReference"
       /\ getFieldValue p "25" = scalar <$> f "accountId"
       /\ getFieldValue p "28C" = scalar <$> f "statementNumber"
       /\ getFieldValue p "60F" = scalar <$> f "openingBalance"
       /\ getFieldValue p "61" =
            (fun v => scalar (List.last (Js.splitChar "|" v) "")) <$> f "statementLines"
       /\ getFieldValue p "62F" = scalar <$> f "closingBalance"
       /\ getFieldValue p "64" =
            if String.eqb (Js.replaceFirst "MT" "" (in_messageType input)) "940"
            then scalar <$> f "closingAvailableBalance" else None.
Proof.
  intros Hready Htype.
  destruct (ready_wire _ _ Hready) as (Hgen & Hparse & _ & Hwf). cbv zeta in *.
  eexists. split; [exact Hgen|].
  destruct Htype as [Htype|Htype]; rewrite Htype in *;
    repeat split; decode_tag Hparse Hwf;
    rewrite ?findLast_statement61, ?value_opt; try done;
    destruct (fld (fields input) "statementLines"); cbn;
    by rewrite ?value_scalar.
Qed.

Lemma generated_statement_fields_decode_witness :
  exists out,
    generateMtMessage (fun a => a) sampleInput940 = Ok out
    /\ let p := parseMtMessage out in
       let f := fld (fields sampleInput940) in
       let scalar := fun x => Own (Scalar x) in
       getFieldValue p "20" = scalar <$> f "transactionReference"
       /\ getFieldValue p "25" = scalar <$> f "accountId"
       /\ getFieldValue p "28C" = scalar <$> f "statementNumber"
       /\ getFieldValue p "60F" = scalar <$> f "openingBalance"
       /\ getFieldValue p "61" =
            (fun v => scalar (List.last (Js.splitChar "|" v) "")) <$> f "statementLines"
       /\ getFieldValue p "62F" = scalar <$> f "closingBalance"
       /\ getFieldValue p "64" =
            if String.eqb (Js.replaceFirst "MT" "" (in_messageType sampleInput940)) "940"
            then scalar <$> f "closingAvailableBalance" else None.
Proof.
  apply (generated_statement_fields_decode (fun a => a) sampleInput940);
    [vm_compute; reflexivity|left; vm_compute; reflexivity].
Defined.

(** ** The validator on messages of every registered type *)

Lemma mandatoryErrors_In specs fs o :
  In fs specs -> mandatory fs = true -> missing (tag fs) o = true ->
  In (missingFieldError fs) (mandatoryErrors specs o).
Proof.
  induction specs as [|fs0 specs IH]; [done|]. simpl.
  intros [->|Hin] Hm Hmiss.
  - rewrite Hm, Hmiss. by left.
  - destruct (mandatory fs0 && missing (tag fs0) o); [right|]; by apply IH.
Qed.

Lemma mandatoryErrors_complete specs o :
  (forall fs, In fs specs -> mandatory fs = true -> missing (tag fs) o = false) ->
  mandatoryErrors specs o = [].
Proof.
  induction specs as [|fs0 specs IH]; [done|]. simpl. intros H.
  destruct (mandatory fs0) eqn:Hm; simpl.
  - rewrite (H fs0) by (done || by left). apply IH. intros fs Hin. apply H. by right.
  - apply IH. intros fs Hin. apply H. by right.
Qed.

Lemma mandatoryErrors_code specs o e :
  In e (mandatoryErrors specs o) -> code e = "MISSING_FIELD".
Proof.
  induction specs as [|fs0 specs IH]; [done|]. simpl.
  destruct (mandatory fs0 && missing (tag fs0) o); [|done].
  intros [<-|H]; [done|by apply IH].
Qed.

Lemma formatErrors_code specs o e :
  In e (formatErrors specs o) -> code e = "FIELD_TOO_LONG".
Proof.
  unfold formatErrors. intros ([t v] & _ & H)%in_flat_map. simpl in H.
  destruct (findSpec specs t) as [fs|]; [|done].
  destruct (tooLong fs v); [|done]. by destruct H as [<-|[]].
Qed.

Lemma formatErrors_nil_iff specs o :
  formatErrors specs o = [] <->
  (forall t v fs, In (t, v) (Obj.entries o) -> findSpec specs t = Some fs ->
                  tooLong fs v = None).
Proof.
  unfold formatErrors, Obj.entries. induction o as [|[t v] o IH]; simpl.
  - split; [by intros _ ? ? ? []|done].
  - split.
    + intros [Hx Ho]%app_eq_nil t' v' fs [[= <- <-]|Hin] Hfs.
      * rewrite Hfs in Hx. by destruct (tooLong fs v).
      * by apply (proj1 IH Ho t' v' fs).
    + intros H. rewrite (proj2 IH) by (intros t' v' fs Hin; apply H; by right).
      rewrite app_nil_r.
      destruct (findSpec specs t) as [fs|] eqn:Hfs; [|done].
      by rewrite (H t v fs) by (done || by left).
Qed.

(** X15: a mandatory field that is missing is an error for every registered
    type. Whatever the raw message, if the decoded type has a specification
    and the text block lacks a field the specification marks mandatory (no
    property for the tag, or an empty text), the validator returns the
    missing-field error for that field and the result is not valid. *)
Theorem missing_mandatory_field_is_an_error (raw : string) (spec : MtMessageSpec)
    (fs : MtFieldSpec) :
  MT_SPECS !! ("MT" +:+ Js.replaceFirst "MT" "" (messageType (parseMtMessage raw)))
    = Some spec ->
  In fs (spec_fields spec) ->
  mandatory fs = true ->
  missing (tag fs) (textBlock (parseMtMessage raw)) = true ->
  exists r,
    validateMtMessage (inl raw) = Ok r
    /\ valid r = false
    /\ In {| field := tag fs; code := "MISSING_FIELD";
             message := "Mandatory field " +:+ tag fs +:+ " (" +:+ name fs
                        +:+ ") is missing";
             value := None |} (errors r).
Proof.
  intros Hspec Hin Hm Hmiss.
  rewrite validate_string, (validate_registered _ _ Hspec).
  destruct (specificIssues_returns
              (Js.replaceFirst "MT" "" (messageType (parseMtMessage raw)))
              (textBlock (parseMtMessage raw)) (parse_noEmptyLines raw)) as [s ->].
  rewrite bind_Ok. eexists. split; [reflexivity|].
  cbn [valid errors].
  pose proof (mandatoryErrors_In _ _ _ Hin Hm Hmiss) as H.
  split.
  - eapply length_zero_In. apply in_or_app. left. exact H.
  - apply in_or_app. left. exact H.
Qed.

Lemma missing_mandatory_field_is_an_error_witness :
  exists r,
    validateMtMessage
      (inl (Js.join LFs
              [ "{1:F01TESTXXXX0000000000}{2:I940TESTXXXXXXXXN}{4:";
                ":20:STMT1"; ":25:ACC"; ":28C:1/1"; ":60M:C240101USD1,00";
                ":62F:C240101USD1,00"; "-}" ])) = Ok r
    /\ valid r = false
    /\ In {| field := "60F"; code := "MISSING_FIELD";
             message := "Mandatory field 60F (Opening Balance (First)) is missing";
             value := None |} (errors r).
Proof.
  apply (missing_mandatory_field_is_an_error _ MT940_SPEC
           (mkFieldSpec "60F" "Opening Balance (First)" true "1!a6!n3!a15d"
              "First opening balance" None)).
  - vm_compute. reflexivity.
  - vm_compute. tauto.
  - reflexivity.
  - vm_compute. reflexivity.
Defined.

Lemma opening_present o :
  missing "60F" o = false -> checkOpening o = [].
Proof. intros H%missing_present. unfold checkOpening. by rewrite H. Qed.

Lemma closing_present o :
  missing "62F" o = false -> checkClosing o = [].
Proof. intros H%missing_present. unfold checkClosing. by rewrite H. Qed.

(** X16: what makes an MT202, MT940 or MT950 valid. For these types the
    result is valid exactly when no mandatory field is missing and no value
    is longer than the maximum length of its field, and every error has the
    code MISSING_FIELD or FIELD_TOO_LONG. The checks of the balances of a
    statement never decide: a balance of the wrong shape is a warning, and
    the requirement of an opening and a closing balance (60F or 60M, 62F or
    62M) is covered by 60F and 62F being mandatory, so that a statement with
    60M in place of 60F is not valid. *)
Theorem plain_types_validity (raw : string) (spec : MtMessageSpec) :
  let p := parseMtMessage raw in
  let type := Js.replaceFirst "MT" "" (messageType p) in
  type = "202" \/ type = "940" \/ type = "950" ->
  MT_SPECS !! ("MT" +:+ type) = Some spec ->
  exists r,
    validateMtMessage (inl raw) = Ok r
    /\ (valid r = true <->
          (forall fs, In fs (spec_fields spec) -> mandatory fs = true ->
                      missing (tag fs) (textBlock p) = false)
          /\ (forall t v fs, In (t, v) (Obj.entries (textBlock p)) ->
                             findSpec (spec_fields spec) t = Some fs ->
                             tooLong fs v = None))
    /\ (forall e, In e (errors r) ->
                  code e = "MISSING_FIELD" \/ code e = "FIELD_TOO_LONG").
Proof.
  cbv zeta. intros Htype Hspec.
  rewrite validate_string, (validate_registered _ _ Hspec).
  set (p := parseMtMessage raw) in *.
  set (type := Js.replaceFirst "MT" "" (messageType p)) in *.
  destruct (specificIssues_returns type (textBlock p) (parse_noEmptyLines raw))
    as [s Hs].
  rewrite Hs, bind_Ok. eexists. split; [reflexivity|]. cbn [valid errors].
  assert (Hs1 : (type = "202" /\ s.1 = [])
                \/ ((type = "940" \/ type = "950")
                    /\ s.1 = checkOpening (textBlock p) ++ checkClosing (textBlock p))).
  { unfold specificIssues in Hs.
    destruct Htype as [E|[E|E]]; rewrite E in Hs; simpl in Hs.
    - injection Hs as <-. by left.
    - apply bind_Ok_inv in Hs as (w & _ & [= <-]). right. tauto.
    - apply bind_Ok_inv in Hs as (w & _ & [= <-]). right. tauto. }
  assert (H60 : type = "940" \/ type = "950" ->
                exists f60 f62,
                  In f60 (spec_fields spec) /\ mandatory f60 = true /\ tag f60 = "60F"
                  /\ In f62 (spec_fields spec) /\ mandatory f62 = true
                  /\ tag f62 = "62F").
  { intros Ht. apply registry_type in Hspec.
    destruct Hspec as [[E _]|[[E _]|[[_ ->]|[_ ->]]]];
      try (destruct Ht as [Ht|Ht]; rewrite Ht in E; discriminate E).
    - destruct (mandatoryTags_In MT940_SPEC "60F") as (f60 & ? & ? & ?);
        [vm_compute; tauto|].
      destruct (mandatoryTags_In MT940_SPEC "62F") as (f62 & ? & ? & ?);
        [vm_compute; tauto|].
      exists f60, f62. tauto.
    - destruct (mandatoryTags_In MT950_SPEC "60F") as (f60 & ? & ? & ?);
        [vm_compute; tauto|].
      destruct (mandatoryTags_In MT950_SPEC "62F") as (f62 & ? & ? & ?);
        [vm_compute; tauto|].
      exists f60, f62. tauto. }
  split; [split|].
  - intros Hv%length_zero_nil.
    apply app_eq_nil in Hv as [Hm Hv]. apply app_eq_nil in Hv as [Hf _].
    split.
    + intros fs Hin Hmand. by eapply mandatoryErrors_nil.
    + by apply formatErrors_nil_iff.
  - intros [Hm Hf]. apply length_zero_nil.
    rewrite (mandatoryErrors_complete _ _ Hm), (proj2 (formatErrors_nil_iff _ _) Hf).
    cbn [app].
    destruct Hs1 as [[_ ->]|[Ht ->]]; [done|].
    destruct (H60 Ht) as (f60 & f62 & I60 & M60 & T60 & I62 & M62 & T62).
    rewrite opening_present, closing_present; [done|..].
    + rewrite <- T62. by apply Hm.
    + rewrite <- T60. by apply Hm.
  - intros e He. rewrite !in_app_iff in He. destruct He as [He|[He|He]].
    + left. by eapply mandatoryErrors_code.
    + right. by eapply formatErrors_code.
    + left. destruct Hs1 as [[_ E]|[_ E]]; rewrite E in He; [done|].
      apply in_app_iff in He as [He|He].
      * unfold checkOpening in He. destruct (_ && _); [|done].
        by destruct He as [<-|[]].
      * unfold checkClosing in He. destruct (_ && _); [|done].
        by destruct He as [<-|[]].
Qed.

Lemma plain_types_validity_witness :
  exists r,
    validateMtMessage (inl sampleStatementRaw) = Ok r
    /\ (valid r = true <->
          (forall fs, In fs (spec_fields MT940_SPEC) -> mandatory fs = true ->
                      missing (tag fs) (textBlock (parseMtMessage sampleStatementRaw))
                      = false)
          /\ (forall t v fs,
                In (t, v) (Obj.entries (textBlock (parseMtMessage sampleStatementRaw))) ->
                findSpec (spec_fields MT940_SPEC) t = Some fs ->
                tooLong fs v = None))
    /\ (forall e, In e (errors r) ->
                  code e = "MISSING_FIELD" \/ code e = "FIELD_TOO_LONG").
Proof.
  apply (plain_types_validity sampleStatementRaw MT940_SPEC).
  - right. left. vm_compute. reflexivity.
  - vm_compute. reflexivity.
Defined.

(** ** What every decoded text block looks like *)

Lemma consHead_noLineFeed c l :
  Ascii.eqb c Char.LF = false ->
  Forall (fun x => noLineFeed x = true) l ->
  Forall (fun x => noLineFeed x = true) (Js.consHead c l).
Proof.
  intros Hc Hl. destruct l as [|x l]; simpl.
  - repeat constructor. unfold noLineFeed. simpl. by rewrite Hc.
  - apply Forall_cons in Hl as [Hx Hl]. constructor; [|done].
    unfold noLineFeed in *. simpl. by rewrite Hc.
Qed.

Lemma splitLines_noLineFeed s :
  Forall (fun x => noLineFeed x = true) (Js.splitLines s).
Proof.
  assert (H : forall n s, String.length s <= n ->
                Forall (fun x => noLineFeed x = true) (Js.splitLines s)).
  { clear s. induction n as [|n IH]; intros s Hlen.
    - destruct s; [|simpl in Hlen; lia]. by repeat constructor.
    - destruct s as [|c s]; [by repeat constructor|]. simpl in Hlen.
      cbn [Js.splitLines].
      destruct (Ascii.eqb c Char.LF) eqn:E1.
      { constructor; [done|]. apply IH. lia. }
      destruct (Ascii.eqb c Char.CR) eqn:E2.
      + destruct s as [|c' s'].
        * apply consHead_noLineFeed; [done|]. apply IH. simpl. lia.
        * destruct (Ascii.eqb c' Char.LF) eqn:E3.
          -- constructor; [done|]. apply IH. simpl in Hlen. lia.
          -- apply consHead_noLineFeed; [done|]. apply IH. lia.
      + apply consHead_noLineFeed; [done|]. apply IH. lia. }
  by apply (H (String.length s)).
Qed.

Lemma plain_noLineFeed s : plainLine s = true -> noLineFeed s = true.
Proof.
  apply all_impl. intros c Hc. apply negb_true_iff, terminator_newline in Hc.
  rewrite isNewline_spec in Hc. apply orb_false_iff in Hc as [-> _]. done.
Qed.

Lemma matchTagLine_inv line t rest :
  matchTagLine line = Some (t, rest) -> isTag t = true /\ plainLine rest = true.
Proof.
  unfold matchTagLine.
  destruct line as [|c0 [|d1 [|d2 [|c r]]]]; try discriminate.
  destruct (Ascii.eqb c0 ":" && Char.isDigit d1 && Char.isDigit d2) eqn:E;
    [|discriminate].
  apply andb_true_iff in E as [[_ H1]%andb_true_iff H2].
  unfold restOfLine, plainLine.
  destruct (Char.isUpper c) eqn:Eu.
  - destruct r as [|c1 v]; [discriminate|].
    destruct (Ascii.eqb c1 ":"); [|discriminate].
    destruct (Js.all _ v) eqn:Ev; [|discriminate].
    intros [= <- <-]. simpl. by rewrite H1, H2, Eu.
  - destruct (Ascii.eqb c ":"); [|discriminate].
    destruct (Js.all _ r) eqn:Ev; [|discriminate].
    intros [= <- <-]. simpl. by rewrite H1, H2.
Qed.

Lemma continuation_Forall (P : string -> Prop) lines :
  Forall P lines -> Forall P (continuation lines).
Proof.
  induction 1 as [|l ls Hl _ IH]; [constructor|]. simpl.
  destruct (matchTagLine l); [constructor|].
  destruct (String.eqb l "-"); [done|by constructor].
Qed.

Lemma lastOccurrence_inv t lines vals :
  lastOccurrence t lines = Some vals ->
  Forall (fun x => noLineFeed x = true) lines ->
  isTag t = true /\ Forall (fun x => noLineFeed x = true) vals.
Proof.
  induction lines as [|l ls IH]; [done|]. simpl. intros H Hall.
  apply Forall_cons in Hall as [Hl Hls].
  destruct (lastOccurrence t ls) as [v|]; [injection H as ->; by apply IH|].
  destruct (matchTagLine l) as [[t' rest]|] eqn:E; [|done].
  destruct (String.eqb_spec t t') as [->|]; [|done]. injection H as <-.
  apply matchTagLine_inv in E as [Ht Hr]. split; [done|].
  unfold openedBy. apply Forall_app. split.
  - destruct (Js.nonEmpty rest); repeat constructor. by apply plain_noLineFeed.
  - by apply continuation_Forall.
Qed.

Lemma fieldValueOf_shape vals :
  Forall (fun x => noLineFeed x = true) vals ->
  match fieldValueOf vals with
  | Scalar s => noLineFeed s = true
  | Lines ls => 2 <= length ls /\ Forall (fun x => noLineFeed x = true) ls
  end.
Proof.
  intros H. unfold fieldValueOf. destruct vals as [|x [|y vals]]; simpl.
  - done.
  - by apply Forall_cons in H as [? _].
  - split; [lia|done].
Qed.

(** X17: the shape of every decoded text block. Whatever the raw message, each
    key of the text block is a tag (two digits and at most one upper-case
    letter) and occurs once; a value that is a sequence has at least two
    lines, so a field of one line is always a plain text; and no text holds
    a line feed. *)
Theorem text_block_shape (raw : string) :
  NoDup (Obj.keys (textBlock (parseMtMessage raw)))
  /\ forall t v,
       Obj.get t (textBlock (parseMtMessage raw)) = Some v ->
       isTag t = true
       /\ match v with
          | Scalar s => noLineFeed s = true
          | Lines ls => 2 <= length ls /\ Forall (fun x => noLineFeed x = true) ls
          end.
Proof.
  unfold parseMtMessage. cbn [textBlock].
  destruct (getTruthy "4" _) as [b|]; [|split; [constructor|done]].
  unfold parseTextBlock. split; [apply NoDup_keys_tokenize|].
  intros t v. rewrite tokenize_get.
  destruct (lastOccurrence t _) as [vals|] eqn:E; [|done].
  intros [= <-].
  destruct (lastOccurrence_inv _ _ _ E (splitLines_noLineFeed _)) as [Ht Hv].
  split; [done|]. by apply fieldValueOf_shape.
Qed.

(** ** White space around a message *)

Lemma dropWhileEnd_fixed p s :
  Js.dropWhileEnd p (Js.dropWhileEnd p s) = Js.dropWhileEnd p s.
Proof.
  induction s as [|c s IH]; [done|]. simpl.
  destruct (Js.dropWhileEnd p s) as [|c' r] eqn:E.
  - destruct (p c) eqn:Ec; [done|]. simpl. by rewrite Ec.
  - change (Js.dropWhileEnd p (String c (String c' r)))
      with (match Js.dropWhileEnd p (String c' r) with
            | "" => if p c then "" else String c ""
            | t => String c t
            end).
    by rewrite IH.
Qed.

Lemma dropWhileEnd_head p c s :
  p c = false -> exists r, Js.dropWhileEnd p (String c s) = String c r.
Proof.
  intros Hc. simpl. destruct (Js.dropWhileEnd p s); rewrite ?Hc; eauto.
Qed.

Lemma dropWhile_head p s :
  Js.dropWhile p s = "" \/ exists c r, Js.dropWhile p s = String c r /\ p c = false.
Proof.
  induction s as [|c s IH]; [by left|]. simpl.
  destruct (p c) eqn:E; [done|]. right. eauto.
Qed.

Lemma trim_fixed s : Js.trim (Js.trim s) = Js.trim s.
Proof.
  unfold Js.trim.
  destruct (dropWhile_head Char.isWhiteSpace s) as [->|(c & r & -> & Hc)]; [done|].
  destruct (dropWhileEnd_head _ c r Hc) as [r' E].
  rewrite <- (dropWhileEnd_fixed _ (String c r)) at 2.
  f_equal. rewrite E. simpl. by rewrite Hc.
Qed.

Lemma dropWhileEnd_all p x trail :
  Js.all p trail = true -> Js.dropWhileEnd p (x +:+ trail) = Js.dropWhileEnd p x.
Proof.
  intros Ht.
  assert (E : Js.dropWhileEnd p trail = "").
  { induction trail as [|c t IH]; [done|]. simpl in *.
    apply andb_true_iff in Ht as [Hc Ht]. by rewrite (IH Ht), Hc. }
  induction x as [|c x IH]; [by rewrite append_nil_l|].
  rewrite append_cons. simpl. by rewrite IH.
Qed.

(** X18: white space around a message does not count. The decoder returns the
    same record for a message with white space in front of it and behind
    it, and decoding the raw message it stored returns the record again. *)
Theorem decoder_ignores_surrounding_space (raw lead trail : string) :
  Js.all Char.isWhiteSpace lead = true ->
  Js.all Char.isWhiteSpace trail = true ->
  parseMtMessage (lead +:+ raw +:+ trail) = parseMtMessage raw
  /\ parseMtMessage (rawMessage (parseMtMessage raw)) = parseMtMessage raw
  /\ validateMtMessage (inl (lead +:+ raw +:+ trail)) = validateMtMessage (inl raw).
Proof.
  intros Hl Ht.
  assert (E : Js.trim (lead +:+ raw +:+ trail) = Js.trim raw).
  { unfold Js.trim. rewrite (dropWhile_all _ _ _ Hl).
    destruct (dropWhile_head Char.isWhiteSpace raw) as [E|(c & r & E & Hc)].
    - assert (Hall : Js.all Char.isWhiteSpace raw = true).
      { clear -E. induction raw as [|c raw IH]; [done|]. simpl in *.
        destruct (Char.isWhiteSpace c); [by apply IH|done]. }
      rewrite (dropWhile_all _ raw trail Hall).
      assert (Hd : Js.dropWhile Char.isWhiteSpace trail = "").
      { clear -Ht. induction trail as [|c t IH]; [done|]. simpl in *.
        apply andb_true_iff in Ht as [-> Ht]. by apply IH. }
      by rewrite Hd, E.
    - assert (Hd : Js.dropWhile Char.isWhiteSpace (raw +:+ trail)
                   = Js.dropWhile Char.isWhiteSpace raw +:+ trail).
      { clear -E. revert c r E. induction raw as [|c0 raw IH]; [done|].
        intros c r. rewrite append_cons. simpl.
        destruct (Char.isWhiteSpace c0); [apply IH|by rewrite append_cons]. }
      rewrite Hd. by apply dropWhileEnd_all. }
  assert (P : forall a b, Js.trim a = Js.trim b -> parseMtMessage a = parseMtMessage b).
  { intros a b H. unfold parseMtMessage. by rewrite H. }
  split; [by apply P|]. split.
  - apply P. unfold parseMtMessage at 1. cbn [rawMessage]. apply trim_fixed.
  - rewrite !validate_string. f_equal. f_equal. by apply P.
Qed.

Lemma decoder_ignores_surrounding_space_witness :
  parseMtMessage (("  " +:+ LFs) +:+ sampleStatementRaw +:+ (CRLF +:+ " "))
    = parseMtMessage sampleStatementRaw
  /\ parseMtMessage (rawMessage (parseMtMessage sampleStatementRaw))
     = parseMtMessage sampleStatementRaw
  /\ validateMtMessage (inl (("  " +:+ LFs) +:+ sampleStatementRaw +:+ (CRLF +:+ " ")))
     = validateMtMessage (inl sampleStatementRaw).
Proof.
  apply (decoder_ignores_surrounding_space sampleStatementRaw
           ("  " +:+ LFs) (CRLF +:+ " ")); reflexivity.
Defined.

(** ** Values the generator does not read *)

Section UnderTags.
Variable toFixed2 : string -> string.
Variable input : MtMessageInput.
Hypothesis Hs : bic_valid (validateBic (senderBic input)) = true.
Hypothesis Hr : bic_valid (validateBic (receiverBic input)) = true.
Hypothesis Htags : forall k v, fields input !! k = Some v -> isTag k = true.

Lemma fld_named k : isTag k = false -> fld (fields input) k = None.
Proof.
  intros Hk. unfold fld. destruct (fields input !! k) as [v|] eqn:E; [|done].
  apply Htags in E. congruence.
Qed.

Lemma under_tags_wire type c4 :
  Js.replaceFirst "MT" "" (in_messageType input) = type ->
  String.length type = 3 -> noBrace type = true ->
  generateBlock4 toFixed2 type (fields input) = Ok (wireBlock "4" c4) ->
  noBrace c4 = true -> c4 <> "" ->
  exists out,
    generateMtMessage toFixed2 input = Ok out
    /\ messageType (parseMtMessage out) = "MT" +:+ type
    /\ textBlock (parseMtMessage out) = parseTextBlock c4.
Proof.
  intros Htype Hlen Hbt Hb4 Hb Hne.
  destruct (valid_bic_terminal _ Hs) as (ES & LS & BS).
  destruct (valid_bic_terminal _ Hr) as (ER & LR & BR).
  exists (wireMessage ("F01" +:+ terminalOf (senderBic input) +:+ "0000000000")
            ("I" +:+ type +:+ terminalOf (receiverBic input) +:+ "N") None c4).
  split.
  - unfold generateMtMessage. rewrite Hs, Hr. cbn [negb].
    rewrite Htype, Hb4, bind_Ok, ES, ER.
    rewrite generateBlock1_wire, generateBlock2_wire.
    unfold generateBlock3. rewrite !fld_named by reflexivity. reflexivity.
  - rewrite parse_wire; try done.
    + cbn [messageType textBlock].
      by rewrite (applicationHeader_terminal _ _ Hlen LR).
    + apply blockContent_plain. by rewrite !noBrace_app, BS.
    + apply blockContent_plain. by rewrite !noBrace_app, BR, Hbt.
    + by apply blockContent_plain.
Qed.

End UnderTags.

(** X19: values under tag keys are not written. The generator reads the values
    by name ([senderReference], [valueDate], ...). For an input with valid
    identifiers whose values all stand under tags ([20], [32A], ...), which
    is how the generate operation of the node supplies them, it raises
    nothing and writes none of them: an MT103 holds the default codes
    [:23B:CRED] and [:71A:SHA] alone, the other types hold no field, and the
    validator rejects the message with one missing-field error for each
    mandatory field that is not there. *)
Theorem values_under_tags_are_not_written (toFixed2 : string -> string)
    (input : MtMessageInput) :
  bic_valid (validateBic (senderBic input)) = true ->
  bic_valid (validateBic (receiverBic input)) = true ->
  (forall k v, fields input !! k = Some v -> isTag k = true) ->
  let type := Js.replaceFirst "MT" "" (in_messageType input) in
  type = "103" \/ type = "202" \/ type = "940" \/ type = "950" ->
  exists out r,
    generateMtMessage toFixed2 input = Ok out
    /\ textBlock (parseMtMessage out) =
         (if String.eqb type "103"
          then [("23B", Scalar "CRED"); ("71A", Scalar "SHA")] else [])
    /\ validateMtMessage (inl out) = Ok r
    /\ valid r = false
    /\ map field (errors r) =
         (if String.eqb type "103" then ["20"; "32A"; "59"; "59"]
          else if String.eqb type "202" then ["20"; "21"; "32A"; "58A"]
          else ["20"; "25"; "28C"; "60F"; "62F"; "60F"; "62F"]).
Proof.
  intros Hs Hr Htags type Htype.
  pose proof (fld_named input Htags) as Hnone.
  assert (Hfin : forall t c4 tb es spec,
    type = t -> String.length t = 3 -> noBrace t = true ->
    generateBlock4 toFixed2 t (fields input) = Ok (wireBlock "4" c4) ->
    noBrace c4 = true -> c4 <> "" -> parseTextBlock c4 = tb ->
    MT_SPECS !! ("MT" +:+ t) = Some spec ->
    (forall p, messageType p = "MT" +:+ t -> textBlock p = tb ->
               exists r, validateMtMessage (inr p) = Ok r /\ valid r = false
                         /\ map field (errors r) = es) ->
    exists out r,
      generateMtMessage toFixed2 input = Ok out
      /\ textBlock (parseMtMessage out) = tb
      /\ validateMtMessage (inl out) = Ok r
      /\ valid r = false
      /\ map field (errors r) = es).
  { intros t c4 tb es spec Et Hlen Hbt Hb4 Hb Hne Htb Hspec Hval.
    destruct (under_tags_wire toFixed2 input Hs Hr Htags t c4 Et Hlen Hbt Hb4 Hb Hne)
      as (out & Hgen & Hmt & Htext).
    rewrite Htb in Htext.
    destruct (Hval (parseMtMessage out) Hmt Htext) as (r & Hv & Hvalid & Herr).
    exists out, r. by rewrite validate_string. }
  assert (Hvalidate : forall t spec tb p,
    MT_SPECS !! ("MT" +:+ t) = Some spec ->
    messageType p = "MT" +:+ t -> textBlock p = tb ->
    validateMtMessage (inr p) =
    (s ← specificIssues t tb;
     Ok {| valid := Nat.eqb (length (mandatoryErrors (spec_fields spec) tb
                                     ++ formatErrors (spec_fields spec) tb ++ s.1)) 0;
           res_messageType := "MT" +:+ t;
           errors := mandatoryErrors (spec_fields spec) tb
                     ++ formatErrors (spec_fields spec) tb ++ s.1;
           warnings := formatWarnings (spec_fields spec) tb ++ s.2;
           parsedFields := Some tb |})).
  { intros t spec tb p Hspec Hmt Htb.
    rewrite (validate_registered p spec); rewrite Hmt, ?replaceFirst_MT, ?Htb; done. }
  destruct Htype as [E|[E|[E|E]]]; rewrite E; simpl String.eqb; cbv iota.
  - eapply (Hfin "103" (CRLF +:+ (Js.join CRLF [":23B:CRED"; ":71A:SHA"] +:+ CRLF) +:+ "-")
              _ _ MT103_SPEC); try done.
    + unfold generateBlock4. simpl String.eqb. cbv iota.
      unfold generateMT103Content, amountLine, instructedAmountLine.
      rewrite !Hnone by reflexivity. reflexivity.
    + intros p Hmt Htb. rewrite (Hvalidate "103" MT103_SPEC _ p eq_refl Hmt Htb).
      eexists. split; [vm_compute; reflexivity|]. split; reflexivity.
  - eapply (Hfin "202" (CRLF +:+ (Js.join CRLF [] +:+ CRLF) +:+ "-") _ _ MT202_SPEC);
      try done.
    + unfold generateBlock4. simpl String.eqb. cbv iota.
      unfold generateMT202Content, amountLine.
      rewrite !Hnone by reflexivity. reflexivity.
    + intros p Hmt Htb. rewrite (Hvalidate "202" MT202_SPEC _ p eq_refl Hmt Htb).
      eexists. split; [vm_compute; reflexivity|]. split; reflexivity.
  - eapply (Hfin "940" (CRLF +:+ (Js.join CRLF [] +:+ CRLF) +:+ "-") _ _ MT940_SPEC);
      try done.
    + unfold generateBlock4. simpl String.eqb. cbv iota.
      unfold generateMT940Content, statementLines.
      rewrite !Hnone by reflexivity. reflexivity.
    + intros p Hmt Htb. rewrite (Hvalidate "940" MT940_SPEC _ p eq_refl Hmt Htb).
      eexists. split; [vm_compute; reflexivity|]. split; reflexivity.
  - eapply (Hfin "950" (CRLF +:+ (Js.join CRLF [] +:+ CRLF) +:+ "-") _ _ MT950_SPEC);
      try done.
    + unfold generateBlock4. simpl String.eqb. cbv iota.
      unfold generateMT950Content, statementLines.
      rewrite !Hnone by reflexivity. reflexivity.
    + intros p Hmt Htb. rewrite (Hvalidate "950" MT950_SPEC _ p eq_refl Hmt Htb).
      eexists. split; [vm_compute; reflexivity|]. split; reflexivity.
Qed.

Lemma values_under_tags_are_not_written_witness :
  exists out r,
    generateMtMessage (fun a => a) inputUnderTags = Ok out
    /\ textBlock (parseMtMessage out) =
         (if String.eqb (Js.replaceFirst "MT" "" (in_messageType inputUnderTags)) "103"
          then [("23B", Scalar "CRED"); ("71A", Scalar "SHA")] else [])
    /\ validateMtMessage (inl out) = Ok r
    /\ valid r = false
    /\ map field (errors r) =
         (if String.eqb (Js.replaceFirst "MT" "" (in_messageType inputUnderTags)) "103"
          then ["20"; "32A"; "59"; "59"]
          else if String.eqb (Js.replaceFirst "MT" "" (in_messageType inputUnderTags)) "202"
          then ["20"; "21"; "32A"; "58A"]
          else ["20"; "25"; "28C"; "60F"; "62F"; "60F"; "62F"]).
Proof.
  apply (values_under_tags_are_not_written (fun a => a) inputUnderTags).
  - vm_compute. reflexivity.
  - vm_compute. reflexivity.
  - intros k v. unfold inputUnderTags. cbn [fields].
    rewrite !lookup_insert_Some, lookup_singleton_Some.
    intros H. repeat (destruct H as [[<- _]|[_ H]]; [reflexivity|]).
    by destruct H as [<- _].
  - left. vm_compute. reflexivity.
Defined.

(** ** References *)

Lemma length_substring_le k s :
  String.length (substring 0 k s) = Nat.min k (String.length s).
Proof.
  revert k. induction s as [|c s IH]; intros k; [by destruct k|].
  destruct k as [|k]; [done|]. simpl. by rewrite IH.
Qed.

Lemma length_filler c n : String.length (string_of_list_ascii (repeat c n)) = n.
Proof. induction n as [|n IH]; [done|]. simpl. by rewrite IH. Qed.

Lemma substring_prefix k a b :
  k <= String.length a -> substring 0 k (a +:+ b) = substring 0 k a.
Proof.
  revert k. induction a as [|c a IH]; intros k; simpl.
  - intros H. assert (k = 0) as -> by lia. by destruct b.
  - destruct k as [|k]; [done|]. intros H. rewrite IH; [done|lia].
Qed.

(** X20: a message reference has sixteen characters, whatever the prefix, the
    clock and the random number are: the text is cut at sixteen and filled
    up with zeros. A prefix of sixteen characters or more leaves room for
    neither the time nor the random part: every reference is then the first
    sixteen characters of the prefix. *)
Theorem message_reference_has_16_characters (timestamp random : string)
    (prefix : option string) :
  String.length (generateMessageReference timestamp random prefix) = 16
  /\ (forall p, prefix = Some p -> 16 <= String.length p ->
        generateMessageReference timestamp random prefix = Js.slice 0 16 p)
  /\ (16 <= String.length (default "" prefix +:+ timestamp +:+ random) ->
        generateMessageReference timestamp random prefix
        = Js.slice 0 16 (default "" prefix +:+ timestamp +:+ random)).
Proof.
  unfold generateMessageReference, padEnd, Js.slice. cbv zeta. cbn [Nat.sub].
  split; [|split].
  - rewrite length_append, length_filler, length_substring_le. lia.
  - intros p -> Hp. change (default "" (Some p)) with p.
    rewrite substring_prefix by done.
    rewrite length_substring_le.
    replace (16 - Nat.min 16 (String.length p)) with 0 by lia.
    apply append_nil_r.
  - intros H. rewrite length_substring_le.
    replace (16 - Nat.min 16 _) with 0 by lia. apply append_nil_r.
Qed.

Lemma hex_digit v :
  (v < 16)%N -> exists c, toString16 v = String c "" /\ isHexDigit c = true.
Proof.
  intros H.
  assert (E : (v = 0 \/ v = 1 \/ v = 2 \/ v = 3 \/ v = 4 \/ v = 5 \/ v = 6 \/ v = 7
               \/ v = 8 \/ v = 9 \/ v = 10 \/ v = 11 \/ v = 12 \/ v = 13 \/ v = 14
               \/ v = 15)%N) by lia.
  repeat (destruct E as [->|E]; [eexists; split; reflexivity|]).
  subst. eexists; split; reflexivity.
Qed.

Lemma variant_digit r :
  exists c, toString16 (N.lor (N.land r 3) 8) = String c ""
            /\ (Ascii.eqb c "8" || Ascii.eqb c "9" || Ascii.eqb c "a" || Ascii.eqb c "b")
               = true.
Proof.
  assert (H : (N.land r 3 = 0 \/ N.land r 3 = 1 \/ N.land r 3 = 2 \/ N.land r 3 = 3)%N).
  { assert (E : (N.land r 3 = r mod 4)%N) by apply (N.land_ones r 2).
    assert (Hb : (r mod 4 < 4)%N) by (apply N.mod_upper_bound; lia).
    rewrite E. lia. }
  destruct H as [-> | [-> | [-> | ->]]]; eexists; split; reflexivity.
Qed.

(** X21: a generated UETR is a UUID of version 4. Each draw of the random
    number generator is an integer from 0 to 15; whatever the draws are, the
    result has 36 characters of the shape 8-4-4-4-12 in lower-case
    hexadecimal digits, with 4 in front of the third group and 8, 9, a or b
    in front of the fourth, and it holds neither a brace nor a line
    terminator, so that it can stand in block 3 of a message. *)
Theorem generated_uetr_is_a_uuid (draw : nat -> N) :
  (forall i, (draw i < 16)%N) ->
  isUuid4 (generateUetr draw) = true
  /\ String.length (generateUetr draw) = 36
  /\ wireSafe (generateUetr draw) = true.
Proof.
  intros Hdraw. unfold generateUetr.
  cbn [fillTemplate Ascii.eqb Bool.eqb orb andb]. unfold uetrDigit.
  cbn [Ascii.eqb Bool.eqb orb andb].
  destruct (variant_digit (draw 15)) as (cv & -> & Hv).
  repeat match goal with
         | |- context [toString16 (draw ?i)] =>
             let c := fresh "c" in
             let E := fresh "E" in
             let H := fresh "H" in
             destruct (hex_digit (draw i) (Hdraw i)) as (c & E & H);
             rewrite E; clear E
         end.
  rewrite !append_cons, !append_nil_l.
  assert (Hsafe : forall x, isHexDigit x = true ->
            negb (Char.isLineTerminator x) && negb (Char.isBrace x) = true).
  { intros x. destruct x as [[] [] [] [] [] [] [] []]; vm_compute; congruence. }
  assert (Hsafev : negb (Char.isLineTerminator cv) && negb (Char.isBrace cv) = true).
  { apply orb_true_iff in Hv as [Hv|Hv]; [apply orb_true_iff in Hv as [Hv|Hv];
      [apply orb_true_iff in Hv as [Hv|Hv]|]|];
      apply Ascii.eqb_eq in Hv; by subst. }
  split; [|split; [reflexivity|]].
  - unfold isUuid4. cbv zeta.
    repeat (cbn [exactly]; cbv beta;
            change (Ascii.eqb "-" "-") with true;
            change (Ascii.eqb "4" "4") with true; cbv iota;
            rewrite ?Hv;
            try match goal with H : isHexDigit _ = true |- _ => rewrite H; clear H end).
    reflexivity.
  - unfold wireSafe, plainLine, noBrace. cbn [Js.all].
    repeat match goal with
           | H : isHexDigit ?c = true |- _ =>
               apply Hsafe in H; apply andb_true_iff in H as [? ?]
           end.
    apply andb_true_iff in Hsafev as [? ?].
    repeat match goal with H : _ = true |- _ => rewrite H; clear H end.
    reflexivity.
Qed.

Lemma generated_uetr_is_a_uuid_witness :
  isUuid4 (generateUetr (fun i => N.of_nat (i mod 16))) = true
  /\ String.length (generateUetr (fun i => N.of_nat (i mod 16))) = 36
  /\ wireSafe (generateUetr (fun i => N.of_nat (i mod 16))) = true.
Proof.
  apply (generated_uetr_is_a_uuid (fun i => N.of_nat (i mod 16))).
  intros i. pose proof (Nat.mod_upper_bound i 16). lia.
Defined.

(** ** Looking an identifier up *)




(** ** What every decoded user header and trailer block looks like *)

Lemma execAllFrom_Forall {A} (matchAt : string -> option (A * string)) (P : A -> Prop) :
  (forall s a rest, matchAt s = Some (a, rest) -> P a) ->
  forall s skip, Forall P (Js.execAllFrom matchAt skip s).
Proof.
  intros H. induction s as [|c s IH]; intros skip; [constructor|]. simpl.
  destruct skip as [|k]; [|apply IH].
  destruct (matchAt (String c s)) as [[a rest]|] eqn:E; [|apply IH].
  constructor; [by eapply H|apply IH].
Qed.

Lemma scanToClose_noClose s v rest :
  scanToClose s = Some (v, rest) ->
  Js.all (fun c => negb (Ascii.eqb c "}")) v = true.
Proof.
  revert v rest. induction s as [|c s IH]; intros v rest; [done|]. simpl.
  destruct (Ascii.eqb c "}") eqn:E; [by intros [= <- <-]|].
  destruct (scanToClose s) as [[v' r']|]; [|done]. simpl.
  intros [= <- <-]. simpl. by rewrite E, (IH v' r').
Qed.

Lemma matchSubFieldAt_shape cls s k v rest :
  matchSubFieldAt cls s = Some ((k, v), rest) ->
  exactly 3 cls k = Some "" /\ Js.all (fun c => negb (Ascii.eqb c "}")) v = true.
Proof.
  unfold matchSubFieldAt.
  destruct s as [|o [|a [|b [|c [|e body]]]]]; try done.
  destruct (Ascii.eqb o "{" && cls a && cls b && cls c && Ascii.eqb e ":") eqn:E;
    [|done].
  destruct (scanToClose body) as [[v' r']|] eqn:Es; [|done]. simpl.
  intros [= <- <- <-].
  apply andb_true_iff in E as [[[[_ Ha]%andb_true_iff Hb]%andb_true_iff Hc]%andb_true_iff _].
  split; [simpl; by rewrite Ha, Hb, Hc|]. by eapply scanToClose_noClose.
Qed.

Lemma assignedLast_In {V} k (ms : list (string * V)) v :
  assignedLast k ms = Some v -> In (k, v) ms.
Proof.
  induction ms as [|[k' v'] ms IH]; [done|]. simpl.
  destruct (assignedLast k ms) as [w|].
  - intros [= ->]. right. by apply IH.
  - destruct (String.eqb_spec k k') as [->|]; [|done]. intros [= ->]. by left.
Qed.

Lemma collect_shape cls block k v :
  Obj.get k (collect (Js.execAll (matchSubFieldAt cls) block)) = Some v ->
  exactly 3 cls k = Some "" /\ Js.all (fun c => negb (Ascii.eqb c "}")) v = true.
Proof.
  unfold collect. rewrite get_fold_set. cbn [Obj.get].
  destruct (assignedLast k _) as [w|] eqn:E; [|done]. intros [= ->].
  apply assignedLast_In in E.
  assert (H : Forall (fun m : string * string =>
                        exactly 3 cls m.1 = Some ""
                        /\ Js.all (fun c => negb (Ascii.eqb c "}")) m.2 = true)
                (Js.execAll (matchSubFieldAt cls) block)).
  { apply execAllFrom_Forall. intros s [k' v'] rest. apply matchSubFieldAt_shape. }
  rewrite Forall_forall in H. apply (H (k, v)). by apply list_elem_of_In.
Qed.

(** X23: the shape of every decoded user header and trailer block. Whatever
    the raw message, each key of the user header is made of three digits and
    each key of the trailers of three upper-case letters, and no value holds
    a closing brace. *)
Theorem sub_field_shape (raw : string) :
  (forall o k v,
     userHeader (parseMtMessage raw) = Some o -> Obj.get k o = Some v ->
     exactly 3 Char.isDigit k = Some ""
     /\ Js.all (fun c => negb (Ascii.eqb c "}")) v = true)
  /\ (forall o k v,
        trailers (parseMtMessage raw) = Some o -> Obj.get k o = Some v ->
        exactly 3 Char.isUpper k = Some ""
        /\ Js.all (fun c => negb (Ascii.eqb c "}")) v = true).
Proof.
  unfold parseMtMessage. cbn [userHeader trailers]. split.
  - intros o k v. destruct (getTruthy "3" _) as [b|]; [|done].
    intros [= <-]. apply collect_shape.
  - intros o k v. destruct (getTruthy "5" _) as [b|]; [|done].
    intros [= <-]. apply collect_shape.
Qed.

Lemma sub_field_shape_witness :
  exactly 3 Char.isUpper "CHK" = Some ""
  /\ Js.all (fun c => negb (Ascii.eqb c "}")) "123456789ABC" = true.
Proof.
  apply (proj2 (sub_field_shape
                  "{1:F01TESTXXXX0000000000}{2:I103TESTXXXXXXXXN}{4:-}{5:{CHK:123456789ABC}{TNG:}}")
           [("CHK", "123456789ABC"); ("TNG", "")] "CHK" "123456789ABC");
    vm_compute; reflexivity.
Defined.

(** ** The properties at sample inputs *)

Lemma validateBic_valid_iff_witness :
  matchesBicPattern (normalizeBic "deut deff") = true
  /\ (exists name, COUNTRY_CODES !! countryCode (parseBic "deut deff") = Some name)
  /\ Js.charAt 0 (locationCode (parseBic "deut deff")) <> "0"
  /\ Js.charAt 0 (locationCode (parseBic "deut deff")) <> "1".
Proof.
  apply (proj1 (proj1 (validateBic_valid_iff "deut deff"))). vm_compute. reflexivity.
Defined.

Lemma parseBic_components_witness :
  institutionCode (parseBic "cepafrpp751") +:+ countryCode (parseBic "cepafrpp751")
  +:+ locationCode (parseBic "cepafrpp751") +:+ branchCode (parseBic "cepafrpp751")
  = normalizeBic "cepafrpp751".
Proof.
  apply (proj1 (proj2 (proj2 (parseBic_components "cepafrpp751")))).
  vm_compute. reflexivity.
Defined.


Lemma message_reference_has_16_characters_witness :
  generateMessageReference "LX2K9A1B" "4F7Q2Z" (Some "PAYMENT-REFERENCE-")
  = Js.slice 0 16 "PAYMENT-REFERENCE-".
Proof.
  apply (proj1 (proj2 (message_reference_has_16_characters
                         "LX2K9A1B" "4F7Q2Z" (Some "PAYMENT-REFERENCE-")))
           "PAYMENT-REFERENCE-"); [reflexivity|simpl; lia].
Defined.


Lemma text_block_shape_witness :
  isTag "50K" = true
  /\ 2 <= length ["/12345678"; "JOHN DOE"]
  /\ Forall (fun x => noLineFeed x = true) ["/12345678"; "JOHN DOE"].
Proof.
  apply (proj2 (text_block_shape
                  (Js.join CRLF
                     [ "{1:F01TESTXXXX0000000000}{2:I103TESTXXXXXXXXN}{4:";
                       ":20:REF"; ":50K:/12345678"; "JOHN DOE"; "-}" ]))
           "50K" (Lines ["/12345678"; "JOHN DOE"])).
  vm_compute. reflexivity.
Defined.

(** ** What makes an MT103 valid *)

(** X24: what makes an MT103 valid. The result for a message of type MT103
    is valid exactly when no mandatory field is missing, no value is longer
    than the maximum length of its field, the first line of 32A, white space
    taken out, has the shape of six digits, three upper-case letters and
    digits and commas, and the first line of 71A is BEN, OUR or SHA. The
    check that a beneficiary is there under 59, 59A or 59F never decides,
    since 59 is mandatory: an MT103 with 59A alone is not valid. *)
Theorem mt103_validity (raw : string) :
  Js.replaceFirst "MT" "" (messageType (parseMtMessage raw)) = "103" ->
  exists r,
    validateMtMessage (inl raw) = Ok r
    /\ (valid r = true <->
          (forall fs, In fs (spec_fields MT103_SPEC) -> mandatory fs = true ->
                      missing (tag fs) (textBlock (parseMtMessage raw)) = false)
          /\ (forall t v fs,
                In (t, v) (Obj.entries (textBlock (parseMtMessage raw))) ->
                findSpec (spec_fields MT103_SPEC) t = Some fs ->
                tooLong fs v = None)
          /\ (exists s,
                Obj.get "32A" (textBlock (parseMtMessage raw)) ≫= firstLine = Some s
                /\ matchesAmount (Js.removeWhiteSpace s) = true)
          /\ isChargeCode (Obj.get "71A" (textBlock (parseMtMessage raw)) ≫= firstLine)
             = true).
Proof.
  intros Htype.
  assert (Hspec : MT_SPECS !! ("MT" +:+ Js.replaceFirst "MT" ""
                                 (messageType (parseMtMessage raw))) = Some MT103_SPEC).
  { rewrite Htype. reflexivity. }
  rewrite validate_string, (validate_registered _ _ Hspec), Htype.
  set (o := textBlock (parseMtMessage raw)).
  pose proof (parse_noEmptyLines raw) as Hne. fold o in Hne.
  destruct (specificIssues_returns "103" o Hne) as [s Hs].
  rewrite Hs, bind_Ok. eexists. split; [reflexivity|]. cbn [valid].
  unfold specificIssues in Hs. simpl String.eqb in Hs. cbv iota in Hs.
  apply bind_Ok_inv in Hs as (e32 & H32 & [= <-]). cbn [fst].
  assert (Hmand : forall t,
    In t (mandatoryTags MT103_SPEC) ->
    (forall fs, In fs (spec_fields MT103_SPEC) -> mandatory fs = true ->
                missing (tag fs) o = false) ->
    present t o = true).
  { intros t Ht Hm. apply mandatoryTags_In in Ht as (fs & Hin & Hmd & <-).
    apply missing_present. by apply Hm. }
  split.
  - intros Hv%length_zero_nil.
    apply app_eq_nil in Hv as [Hm Hv]. apply app_eq_nil in Hv as [Hf Hv].
    apply app_eq_nil in Hv as [He32 Hv]. apply app_eq_nil in Hv as [H71 _].
    assert (Hm' : forall fs, In fs (spec_fields MT103_SPEC) -> mandatory fs = true ->
                             missing (tag fs) o = false).
    { intros fs Hin Hmd. by eapply mandatoryErrors_nil. }
    split; [done|]. split; [by apply formatErrors_nil_iff|].
    assert (P32 : present "32A" o = true) by (apply Hmand; [vm_compute; tauto|done]).
    assert (P71 : present "71A" o = true) by (apply Hmand; [vm_compute; tauto|done]).
    split.
    + destruct (stripped_present _ _ Hne P32) as (s0 & Hs0 & Hst).
      exists s0. split; [done|].
      unfold check32A in H32. rewrite P32, Hst, bind_Ok in H32.
      injection H32 as <-.
      destruct (matchesAmount (Js.removeWhiteSpace s0)); [done|discriminate He32].
    + unfold check71A in H71. rewrite P71 in H71. cbn [andb] in H71.
      by destruct (isChargeCode _).
  - intros (Hm & Hf & (s0 & Hs0 & Hok) & H71). apply length_zero_nil.
    rewrite (mandatoryErrors_complete _ _ Hm), (proj2 (formatErrors_nil_iff _ _) Hf).
    cbn [app].
    assert (P32 : present "32A" o = true) by (apply Hmand; [vm_compute; tauto|done]).
    assert (P59 : present "59" o = true) by (apply Hmand; [vm_compute; tauto|done]).
    destruct (stripped_present _ _ Hne P32) as (s1 & Hs1 & Hst).
    rewrite Hs0 in Hs1. injection Hs1 as <-.
    unfold check32A in H32. rewrite P32, Hst, bind_Ok, Hok in H32.
    injection H32 as <-.
    unfold check71A, checkBeneficiary. rewrite H71, P59.
    by rewrite andb_false_r.
Qed.

Lemma mt103_validity_witness :
  exists r,
    validateMtMessage (inl sampleBeneficiary59A) = Ok r
    /\ (valid r = true <->
          (forall fs, In fs (spec_fields MT103_SPEC) -> mandatory fs = true ->
                      missing (tag fs) (textBlock (parseMtMessage sampleBeneficiary59A))
                      = false)
          /\ (forall t v fs,
                In (t, v) (Obj.entries (textBlock (parseMtMessage sampleBeneficiary59A))) ->
                findSpec (spec_fields MT103_SPEC) t = Some fs ->
                tooLong fs v = None)
          /\ (exists s,
                Obj.get "32A" (textBlock (parseMtMessage sampleBeneficiary59A))
                  ≫= firstLine = Some s
                /\ matchesAmount (Js.removeWhiteSpace s) = true)
          /\ isChargeCode
               (Obj.get "71A" (textBlock (parseMtMessage sampleBeneficiary59A))
                  ≫= firstLine) = true).
Proof.
  apply (mt103_validity sampleBeneficiary59A). vm_compute. reflexivity.
Defined.

(** ** Block extraction *)

Lemma execAll_noBrace_prefix sep rest :
  noBrace sep = true ->
  Js.execAll matchBlockAt (sep +:+ rest) = Js.execAll matchBlockAt rest.
Proof.
  induction sep as [|c sep IH]; [done|]. rewrite append_cons. simpl.
  intros [Hc Hs]%andb_true_iff. rewrite <- (IH Hs).
  unfold Char.isBrace in Hc. apply negb_true_iff, orb_false_iff in Hc as [Hc _].
  unfold Js.execAll. cbn [Js.execAllFrom]. unfold matchBlockAt.
  destruct (sep +:+ rest) as [|d [|c' body]]; try done.
  all: by rewrite ?Hc.
Qed.

Lemma execAll_noBrace tail :
  noBrace tail = true -> Js.execAll matchBlockAt tail = [].
Proof.
  intros H. rewrite <- (append_nil_r tail). by rewrite execAll_noBrace_prefix.
Qed.

Lemma execAll_blocksText bs tail :
  forallb placedBlockOk bs = true -> noBrace tail = true ->
  Js.execAll matchBlockAt (blocksText bs tail) = blockAssignments bs.
Proof.
  intros Hbs Ht. induction bs as [|b bs IH]; [by apply execAll_noBrace|].
  cbn [forallb] in Hbs. apply andb_true_iff in Hbs as [Hb Hbs].
  unfold placedBlockOk in Hb.
  apply andb_true_iff in Hb as [Hb Hc]. apply andb_true_iff in Hb as [Hsep Hd].
  apply bool_decide_eq_true in Hc.
  cbn [blocksText fold_right blockAssignments map].
  rewrite execAll_noBrace_prefix by done.
  rewrite execAll_wireBlock; [fold (blocksText bs tail); by rewrite IH| done |].
  intros rest. rewrite <- append_assoc.
  by rewrite (scanBlockBody_extends _ _ _ _ rest Hc).
Qed.

(** X25: blocks are found wherever they stand, and a repeated block number
    keeps its last content. In a message made of blocks, each an opening
    brace, a digit, a colon, a content the block pattern reads and a closing
    brace, with text that holds no brace between and around them, the
    decoder finds under each digit the content of the last block with that
    digit, and nothing under a digit no block has; the text between the
    blocks is dropped. *)
Theorem blocks_are_found_last_wins (bs : list PlacedBlock) (tail k : string) :
  bs <> [] -> forallb placedBlockOk bs = true -> noBrace tail = true ->
  Obj.get k (extractBlocks (blocksText bs tail))
  = assignedLast k (blockAssignments bs).
Proof.
  intros Hne Hbs Ht. unfold extractBlocks.
  rewrite execAll_blocksText by done.
  set (blocks := fold_left _ _ _).
  assert (Hnn : blocks <> []).
  { destruct bs as [|b bs]; [done|].
    assert (Hget : Obj.get (String (pb_digit b) "") blocks <> None).
    { unfold blocks. rewrite get_fold_set. cbn [blockAssignments map assignedLast fst snd].
      destruct (assignedLast _ _); [done|]. by rewrite String.eqb_refl. }
    intros E. by rewrite E in Hget. }
  destruct blocks as [|e blocks'] eqn:E; [done|].
  cbn [Obj.keys map length Nat.eqb]. rewrite <- E. unfold blocks.
  rewrite get_fold_set. by destruct (assignedLast _ _).
Qed.

Lemma blocks_are_found_last_wins_witness :
  Obj.get "4" (extractBlocks (blocksText sampleBlocks CRLF))
  = assignedLast "4" (blockAssignments sampleBlocks).
Proof.
  apply (blocks_are_found_last_wins sampleBlocks CRLF "4");
    [discriminate | vm_compute; reflexivity | vm_compute; reflexivity].
Defined.
